(** * socket_chat_app: the server core, embedded and verified

    A shallow embedding of the chat server's protocol layer
    ([shared/protocol]), its SQLite-backed store
    ([server/storage/sqlite_store.py]), the connection registry
    ([server/core]) and the message, room, friend, auth and voice
    services ([server/services]), followed by the properties proved
    about them.

    Conventions of the embedding.
    - Python [str] values are [string]s holding the UTF-8 bytes of the text.
    - Python [None] is [None] for typed fields and [JNull] inside JSON.
    - [time.time()] and [uuid4().hex] are inputs of the operations that call
      them ([now], [mid], ...).
    - A table of the database is the list of its rows in insertion order;
      a Python [dict] used as an index is a [gmap], a [set] a [gset].
    - JSON numbers are integers; floating-point literals are outside the
      model and the parser says so ([Unmodelled]).
    - What the interpreter and its libraries fix, and the source does not,
      is a field of [Runtime]: the room the stack leaves to the [json]
      module, the texts of the exceptions [framing.py] quotes, and the
      number of variables SQLite binds in one statement.
    - A column that the store writes with [json.dumps] and reads with
      [json.loads] holds the JSON value. *)

From Stdlib Require Import ZArith NArith Lia List String Ascii Bool Permutation Sorted.
From Stdlib Require Import DecimalN DecimalPos DecimalFacts Decimal.
From stdpp Require Import base gmap sets list strings.

Local Open Scope string_scope.
Local Open Scope list_scope.
Local Open Scope Z_scope.

(* ===================================================================== *)
(** * Part I: the model *)
(* ===================================================================== *)

(** ** JSON values, as [json.loads] builds them *)

#[local] Unset Elimination Schemes.
Inductive json : Type :=
  | JNull
  | JBool (b : bool)
  | JInt (z : Z)
  | JStr (s : string)
  | JArr (items : list json)
  | JObj (fields : list (string * json)).
#[local] Set Elimination Schemes.

(** [d.get(k)] on a dict kept as an association list. *)
Fixpoint assoc_get (k : string) (fields : list (string * json)) : option json :=
  match fields with
  | [] => None
  | (k', v) :: rest => if String.eqb k k' then Some v else assoc_get k rest
  end.

(** [d[k] = v]: an existing key keeps its place, a new key goes last. *)
Fixpoint assoc_set (k : string) (v : json) (fields : list (string * json))
  : list (string * json) :=
  match fields with
  | [] => [(k, v)]
  | (k', v') :: rest =>
      if String.eqb k k' then (k, v) :: rest else (k', v') :: assoc_set k v rest
  end.

(** [d.setdefault(k, v)]. *)
Definition assoc_setdefault (k : string) (v : json) (fields : list (string * json))
  : list (string * json) :=
  match assoc_get k fields with
  | Some _ => fields
  | None => fields ++ [(k, v)]
  end.

(** Python truthiness of a JSON value ([if x:], [x or y]). *)
Definition truthy (v : json) : bool :=
  match v with
  | JNull => false
  | JBool b => b
  | JInt z => negb (z =? 0)
  | JStr s => negb (String.eqb s "")
  | JArr l => match l with [] => false | _ => true end
  | JObj l => match l with [] => false | _ => true end
  end.

(** Truthiness of an optional text field: [None] and [""] are falsy. *)
Definition present (o : option string) : bool :=
  match o with
  | Some s => negb (String.eqb s "")
  | None => false
  end.

(** ** Protocol errors ([shared/protocol/errors.py]) *)

Module StatusCode.
Definition SUCCESS : Z := 200.
Definition ACCEPTED : Z := 202.
Definition BAD_REQUEST : Z := 400.
Definition UNAUTHORIZED : Z := 401.
Definition FORBIDDEN : Z := 403.
Definition NOT_FOUND : Z := 404.
Definition CONFLICT : Z := 409.
Definition TOO_MANY_REQUESTS : Z := 429.
Definition UPGRADE_REQUIRED : Z := 426.
Definition INTERNAL_ERROR : Z := 500.
End StatusCode.

Module ErrorCode.
Definition INVALID_TOKEN : Z := 1001.
Definition VERSION_MISMATCH : Z := 1002.
Definition SIGNATURE_INVALID : Z := 1003.
Definition PARAM_MISSING : Z := 1004.
Definition RATE_LIMITED : Z := 1005.
Definition USER_EXISTS : Z := 1006.
End ErrorCode.

Record ProtocolError := mkProtocolError {
  pe_status : Z;
  pe_code : option Z;
  pe_message : string
}.

(** [ProtocolError.to_payload]. *)
Definition to_payload (e : ProtocolError) : json :=
  JObj [("status", JInt (pe_status e));
        ("error_code", match pe_code e with Some c => JInt c | None => JNull end);
        ("error_message", JStr (pe_message e))].

(** What a call can end in: a value, a [ProtocolError], or another Python
    exception (named), which the handlers do not catch. *)
Inductive outcome (A : Type) : Type :=
  | Ok (a : A)
  | Raise (e : ProtocolError)
  | Crash (exn : string).
Arguments Ok {A} a.
Arguments Raise {A} e.
Arguments Crash {A} exn.

(** ** The runtime

    The limits and texts that come with the interpreter and the libraries
    the server runs on. *)
Class Runtime := {
  (** How many containers, one inside the other, [json.dumps] and
      [json.loads] can enter before [Py_EnterRecursiveCall] raises
      [RecursionError]: the recursion limit less the stack in use. *)
  recursion_budget : nat;
  (** [str(exc)] of the [ValueError] that [int.__repr__] raises for an
      integer of more than [sys.int_info.default_max_str_digits] digits. *)
  int_limit_text : string;
  (** [str(exc)] of the [UnicodeDecodeError] or [json.JSONDecodeError]
      raised for the bytes of a frame that does not decode. *)
  decode_error_text : list ascii -> string;
  (** [SQLITE_LIMIT_VARIABLE_NUMBER]: how many [?] one statement may hold
      (999 before SQLite 3.32, 32766 since, 250000 in some builds). *)
  sqlite_max_variables : nat
}.

(** The runtime of the worked examples: CPython 3.11 with its default
    recursion limit, and SQLite with the limit it had before 3.32. The text
    of the decoding error is the one for a frame at whose first character no
    JSON value starts, which is the kind the examples send. *)
#[global] Instance example_runtime : Runtime := {|
  recursion_budget := 950;
  int_limit_text :=
    "Exceeds the limit (4300 digits) for integer string conversion; use sys.set_int_max_str_digits() to increase the limit";
  decode_error_text := fun _ => "Expecting value: line 1 column 1 (char 0)";
  sqlite_max_variables := 999
|}.

(** ** Sorting, for the queries with [ORDER BY] *)

Section Sorting.
Context {A : Type} (le : A -> A -> bool).

Fixpoint insert_sorted (x : A) (l : list A) : list A :=
  match l with
  | [] => [x]
  | y :: rest => if le x y then x :: l else y :: insert_sorted x rest
  end.

(** A stable insertion sort: rows that compare equal keep their order. *)
Fixpoint sort_by (l : list A) : list A :=
  match l with
  | [] => []
  | x :: rest => insert_sorted x (sort_by rest)
  end.
End Sorting.

(** ** The JSON codec ([json.dumps] and [json.loads], as [framing.py] calls them) *)

Module Json.

Abbreviation bytes := (list ascii).

Definition dq : ascii := "034"%char.
Definition bslash : ascii := "092"%char.
Definition nl : ascii := "010"%char.

Definition lit (s : string) : bytes := list_ascii_of_string s.

(** *** Printing: [json.dumps(v, ensure_ascii=False, separators=(",", ":"))] *)

Definition hex_digit (n : N) : ascii :=
  if (n <? 10)%N then ascii_of_N (48 + n) else ascii_of_N (87 + n).

(** [ESCAPE_DCT]: quote, backslash and the control characters below 0x20;
    every other byte, non-ASCII included, is written as it is. *)
Definition escape_char (c : ascii) : bytes :=
  let n := N_of_ascii c in
  if Ascii.eqb c dq then [bslash; dq]
  else if Ascii.eqb c bslash then [bslash; bslash]
  else if (n =? 8)%N then [bslash; "b"%char]
  else if (n =? 12)%N then [bslash; "f"%char]
  else if (n =? 10)%N then [bslash; "n"%char]
  else if (n =? 13)%N then [bslash; "r"%char]
  else if (n =? 9)%N then [bslash; "t"%char]
  else if (n <? 32)%N then
    [bslash; "u"%char; "0"%char; "0"%char; hex_digit (n / 16); hex_digit (n mod 16)]
  else [c].

Fixpoint escape (s : bytes) : bytes :=
  match s with
  | [] => []
  | c :: rest => escape_char c ++ escape rest
  end.

Definition dumps_str (s : string) : bytes :=
  dq :: escape (list_ascii_of_string s) ++ [dq].

Fixpoint uint_chars (u : uint) : bytes :=
  match u with
  | Nil => []
  | D0 r => "0"%char :: uint_chars r
  | D1 r => "1"%char :: uint_chars r
  | D2 r => "2"%char :: uint_chars r
  | D3 r => "3"%char :: uint_chars r
  | D4 r => "4"%char :: uint_chars r
  | D5 r => "5"%char :: uint_chars r
  | D6 r => "6"%char :: uint_chars r
  | D7 r => "7"%char :: uint_chars r
  | D8 r => "8"%char :: uint_chars r
  | D9 r => "9"%char :: uint_chars r
  end.

Definition dumps_int (z : Z) : bytes :=
  match z with
  | Z0 => ["0"%char]
  | Zpos p => uint_chars (Pos.to_uint p)
  | Zneg p => "-"%char :: uint_chars (Pos.to_uint p)
  end.

(** [sep.join(parts)]. *)
Fixpoint join_with (sep : ascii) (parts : list bytes) : bytes :=
  match parts with
  | [] => []
  | p :: rest =>
      p ++ match rest with [] => [] | _ => sep :: join_with sep rest end
  end.

Fixpoint dumps (v : json) : bytes :=
  match v with
  | JNull => lit "null"
  | JBool true => lit "true"
  | JBool false => lit "false"
  | JInt z => dumps_int z
  | JStr s => dumps_str s
  | JArr items => "["%char :: join_with ","%char (map dumps items) ++ ["]"%char]
  | JObj fields =>
      "{"%char ::
      join_with ","%char
        (map (fun kv => dumps_str (fst kv) ++ ":"%char :: dumps (snd kv)) fields)
      ++ ["}"%char]
  end.

(** *** The limits of the [json] module *)

(** [sys.int_info.default_max_str_digits]: [int.__repr__] and [int(str)]
    raise [ValueError] for more decimal digits than this. *)
Definition MAX_STR_DIGITS : N := 4300.

(** Why [json.dumps] or [json.loads] gives up on JSON it could otherwise
    write or read. *)
Inductive fault : Type :=
  | IntLimit
  | Recursion.

(** The exception raised. *)
Definition exception_of (f : fault) : string :=
  match f with
  | IntLimit => "ValueError"
  | Recursion => "RecursionError"
  end.

(** The decimal digits of an integer, the sign not counted. *)
Definition int_digits (z : Z) : N :=
  match z with
  | Z0 => 1
  | Zpos p | Zneg p => N.of_nat (nb_digits (Pos.to_uint p))
  end.

Fixpoint first_fault (l : list (option fault)) : option fault :=
  match l with
  | [] => None
  | Some f :: _ => Some f
  | None :: rest => first_fault rest
  end.

(** What stops the encoder on its way through the value, first to last,
    with [depth] containers still to enter: an integer too long to print, or
    a container entered with no room left, an empty one included. *)
Fixpoint dumps_fault (depth : nat) (v : json) {struct v} : option fault :=
  match v with
  | JInt z => if (MAX_STR_DIGITS <? int_digits z)%N then Some IntLimit else None
  | JArr items =>
      match depth with
      | O => Some Recursion
      | S d => first_fault (map (dumps_fault d) items)
      end
  | JObj fields =>
      match depth with
      | O => Some Recursion
      | S d => first_fault (map (fun kv => dumps_fault d (snd kv)) fields)
      end
  | _ => None
  end.

(** *** Parsing: [json.loads] *)

(** [Malformed] is [JSONDecodeError]; [Raises] is an exception of another
    class, raised at the place where the scanner is when it meets the limit;
    [Unmodelled] marks text whose value the model does not hold: a float
    ([1.5], [1e3], [NaN], [Infinity]) or a lone surrogate escape. *)
Inductive parsed (A : Type) : Type :=
  | Parsed (a : A) (rest : bytes)
  | Malformed
  | Raises (f : fault)
  | Unmodelled.
Arguments Parsed {A} a rest.
Arguments Malformed {A}.
Arguments Raises {A} f.
Arguments Unmodelled {A}.

Definition pmap {A B} (f : A -> B) (p : parsed A) : parsed B :=
  match p with
  | Parsed a rest => Parsed (f a) rest
  | Malformed => Malformed
  | Raises x => Raises x
  | Unmodelled => Unmodelled
  end.

Definition is_ws (c : ascii) : bool :=
  let n := N_of_ascii c in
  ((n =? 32) || (n =? 9) || (n =? 10) || (n =? 13))%N.

Fixpoint skip_ws (s : bytes) : bytes :=
  match s with
  | c :: t => if is_ws c then skip_ws t else s
  | [] => []
  end.

Definition hex_value (c : ascii) : option N :=
  let n := N_of_ascii c in
  if ((48 <=? n) && (n <=? 57))%N then Some (n - 48)%N
  else if ((97 <=? n) && (n <=? 102))%N then Some (n - 87)%N
  else if ((65 <=? n) && (n <=? 70))%N then Some (n - 55)%N
  else None.

Definition hex4 (a b c d : ascii) : option N :=
  match hex_value a, hex_value b, hex_value c, hex_value d with
  | Some x, Some y, Some z, Some w => Some (((x * 16 + y) * 16 + z) * 16 + w)%N
  | _, _, _, _ => None
  end.

(** The UTF-8 bytes of a code point; [None] for a surrogate. *)
Definition utf8_encode (cp : N) : option bytes :=
  if (cp <? 128)%N then Some [ascii_of_N cp]
  else if (cp <? 2048)%N then
    Some [ascii_of_N (192 + cp / 64); ascii_of_N (128 + cp mod 64)]
  else if ((55296 <=? cp) && (cp <=? 57343))%N then None
  else if (cp <? 65536)%N then
    Some [ascii_of_N (224 + cp / 4096); ascii_of_N (128 + (cp / 64) mod 64);
          ascii_of_N (128 + cp mod 64)]
  else
    Some [ascii_of_N (240 + cp / 262144); ascii_of_N (128 + (cp / 4096) mod 64);
          ascii_of_N (128 + (cp / 64) mod 64); ascii_of_N (128 + cp mod 64)].

Definition prepend (b : bytes) (p : parsed bytes) : parsed bytes :=
  pmap (app b) p.

(** The one-letter escapes of [BACKSLASH]. *)
Definition unescape (e : ascii) : option ascii :=
  if Ascii.eqb e dq then Some dq
  else if Ascii.eqb e bslash then Some bslash
  else if Ascii.eqb e "/"%char then Some "/"%char
  else if Ascii.eqb e "b"%char then Some (ascii_of_N 8)
  else if Ascii.eqb e "f"%char then Some (ascii_of_N 12)
  else if Ascii.eqb e "n"%char then Some (ascii_of_N 10)
  else if Ascii.eqb e "r"%char then Some (ascii_of_N 13)
  else if Ascii.eqb e "t"%char then Some (ascii_of_N 9)
  else None.

(** [scanstring] in strict mode, from just after the opening quote. *)
Fixpoint scanstring (s : bytes) : parsed bytes :=
  match s with
  | [] => Malformed
  | c :: t =>
      if Ascii.eqb c dq then Parsed [] t
      else if Ascii.eqb c bslash then
        match t with
        | [] => Malformed
        | e :: t1 =>
            if Ascii.eqb e "u"%char then
              match t1 with
              | h1 :: h2 :: h3 :: h4 :: t2 =>
                  match hex4 h1 h2 h3 h4 with
                  | None => Malformed
                  | Some uni =>
                      if ((55296 <=? uni) && (uni <=? 56319))%N then
                        (* a high surrogate: a low one must follow to make a pair *)
                        match t2 with
                        | b2 :: u2 :: l1 :: l2 :: l3 :: l4 :: t3 =>
                            if Ascii.eqb b2 bslash && Ascii.eqb u2 "u"%char then
                              match hex4 l1 l2 l3 l4 with
                              | None => Malformed
                              | Some uni2 =>
                                  if ((56320 <=? uni2) && (uni2 <=? 57343))%N then
                                    match utf8_encode
                                            (65536 + ((uni - 55296) * 1024
                                                      + (uni2 - 56320)))%N with
                                    | Some b => prepend b (scanstring t3)
                                    | None => Unmodelled
                                    end
                                  else Unmodelled
                              end
                            else Unmodelled
                        | b2 :: u2 :: _ =>
                            if Ascii.eqb b2 bslash && Ascii.eqb u2 "u"%char
                            then Malformed else Unmodelled
                        | _ => Unmodelled
                        end
                      else
                        match utf8_encode uni with
                        | Some b => prepend b (scanstring t2)
                        | None => Unmodelled
                        end
                  end
              | _ => Malformed
              end
            else
              match unescape e with
              | Some ch => prepend [ch] (scanstring t1)
              | None => Malformed
              end
        end
      else if (N_of_ascii c <? 32)%N then Malformed
      else prepend [c] (scanstring t)
  end.

Definition digit_ctor (c : ascii) : option (uint -> uint) :=
  let n := N_of_ascii c in
  if (n =? 48)%N then Some D0 else if (n =? 49)%N then Some D1
  else if (n =? 50)%N then Some D2 else if (n =? 51)%N then Some D3
  else if (n =? 52)%N then Some D4 else if (n =? 53)%N then Some D5
  else if (n =? 54)%N then Some D6 else if (n =? 55)%N then Some D7
  else if (n =? 56)%N then Some D8 else if (n =? 57)%N then Some D9
  else None.

Definition is_digit (c : ascii) : bool :=
  match digit_ctor c with Some _ => true | None => false end.

(** [\d*]: the longest run of digits. *)
Fixpoint scan_digits (s : bytes) : uint * bytes :=
  match s with
  | c :: t =>
      match digit_ctor c with
      | Some d => let (u, rest) := scan_digits t in (d u, rest)
      | None => (Nil, s)
      end
  | [] => (Nil, [])
  end.

(** What [NUMBER_RE] would take as fraction or exponent after the integer. *)
Definition float_tail (s : bytes) : bool :=
  match s with
  | c :: d :: rest =>
      (Ascii.eqb c "."%char && is_digit d)
      || ((Ascii.eqb c "e"%char || Ascii.eqb c "E"%char)
          && (is_digit d
              || ((Ascii.eqb d "+"%char || Ascii.eqb d "-"%char)
                  && match rest with x :: _ => is_digit x | [] => false end)))
  | _ => false
  end.

(** The integer part of [NUMBER_RE] (a lone zero, or a digit from one to nine
    and then any digits) and the conversion of the match by [int], which
    refuses more than [MAX_STR_DIGITS] digits. *)
Definition scan_natural (s : bytes) : parsed N :=
  match s with
  | c :: t =>
      if Ascii.eqb c "0"%char then
        if float_tail t then Unmodelled else Parsed 0%N t
      else if is_digit c then
        let (u, rest) := scan_digits s in
        if float_tail rest then Unmodelled
        else if (MAX_STR_DIGITS <? N.of_nat (nb_digits u))%N then Raises IntLimit
        else Parsed (N.of_uint u) rest
      else Malformed
  | [] => Malformed
  end.

Fixpoint starts_with (p s : bytes) : option bytes :=
  match p, s with
  | [], _ => Some s
  | a :: p', b :: s' => if Ascii.eqb a b then starts_with p' s' else None
  | _ :: _, [] => None
  end.

Definition keyword (word : string) (v : json) (s : bytes) : parsed json :=
  match starts_with (lit word) s with
  | Some rest => Parsed v rest
  | None => Malformed
  end.

Definition float_keyword (word : string) (s : bytes) : parsed json :=
  match starts_with (lit word) s with
  | Some _ => Unmodelled
  | None => Malformed
  end.

(** [dict(pairs)]: a repeated key keeps its first place and its last value. *)
Definition dict_of_pairs (pairs : list (string * json)) : list (string * json) :=
  fold_left (fun d kv => assoc_set (fst kv) (snd kv) d) pairs [].

(** [scan_once], [JSONArray] and [JSONObject], with [depth] containers
    still to enter: the scanner asks for room when it meets an opening
    bracket, before it looks at what follows. The fuel is there for the
    recursion to be structural: a call either follows a byte that was read
    or is the step from an array to its first element, so twice the length
    of the text is fuel enough. *)
Fixpoint parse_value (fuel depth : nat) (s : bytes) : parsed json :=
  match fuel with
  | O => Unmodelled
  | S f =>
      match s with
      | [] => Malformed
      | c :: t =>
          if Ascii.eqb c dq then
            pmap (fun b => JStr (string_of_list_ascii b)) (scanstring t)
          else if Ascii.eqb c "{"%char then
            match depth with
            | O => Raises Recursion
            | S d =>
                match skip_ws t with
                | c1 :: t1 =>
                    if Ascii.eqb c1 "}"%char then Parsed (JObj []) t1
                    else if Ascii.eqb c1 dq then
                      pmap (fun pairs => JObj (dict_of_pairs pairs))
                           (parse_members f d t1)
                    else Malformed
                | [] => Malformed
                end
            end
          else if Ascii.eqb c "["%char then
            match depth with
            | O => Raises Recursion
            | S d =>
                match skip_ws t with
                | c1 :: t1 =>
                    if Ascii.eqb c1 "]"%char then Parsed (JArr []) t1
                    else pmap JArr (parse_elements f d (c1 :: t1))
                | [] => Malformed
                end
            end
          else if Ascii.eqb c "n"%char then keyword "null" JNull s
          else if Ascii.eqb c "t"%char then keyword "true" (JBool true) s
          else if Ascii.eqb c "f"%char then keyword "false" (JBool false) s
          else if Ascii.eqb c "N"%char then float_keyword "NaN" s
          else if Ascii.eqb c "I"%char then float_keyword "Infinity" s
          else if Ascii.eqb c "-"%char then
            match scan_natural t with
            | Parsed n rest => Parsed (JInt (- Z.of_N n)) rest
            | Malformed => float_keyword "-Infinity" s
            | Raises x => Raises x
            | Unmodelled => Unmodelled
            end
          else pmap (fun n => JInt (Z.of_N n)) (scan_natural s)
      end
  end

with parse_elements (fuel depth : nat) (s : bytes) : parsed (list json) :=
  match fuel with
  | O => Unmodelled
  | S f =>
      match parse_value f depth s with
      | Parsed v rest =>
          match skip_ws rest with
          | c :: t =>
              if Ascii.eqb c "]"%char then Parsed [v] t
              else if Ascii.eqb c ","%char then
                pmap (cons v) (parse_elements f depth (skip_ws t))
              else Malformed
          | [] => Malformed
          end
      | Malformed => Malformed
      | Raises x => Raises x
      | Unmodelled => Unmodelled
      end
  end

with parse_members (fuel depth : nat) (s : bytes) : parsed (list (string * json)) :=
  match fuel with
  | O => Unmodelled
  | S f =>
      match pmap string_of_list_ascii (scanstring s) with
      | Parsed key rest =>
          match skip_ws rest with
          | c :: t =>
              if Ascii.eqb c ":"%char then
                match parse_value f depth (skip_ws t) with
                | Parsed v rest1 =>
                    match skip_ws rest1 with
                    | c1 :: t1 =>
                        if Ascii.eqb c1 "}"%char then Parsed [(key, v)] t1
                        else if Ascii.eqb c1 ","%char then
                          match skip_ws t1 with
                          | c2 :: t2 =>
                              if Ascii.eqb c2 dq
                              then pmap (cons (key, v)) (parse_members f depth t2)
                              else Malformed
                          | [] => Malformed
                          end
                        else Malformed
                    | [] => Malformed
                    end
                | Malformed => Malformed
                | Raises x => Raises x
                | Unmodelled => Unmodelled
                end
              else Malformed
          | [] => Malformed
          end
      | Malformed => Malformed
      | Raises x => Raises x
      | Unmodelled => Unmodelled
      end
  end.

(** [JSONDecoder.decode]: one value, white space around it, nothing else. *)
Definition loads (depth : nat) (text : bytes) : parsed json :=
  match parse_value (S (2 * length text)) depth (skip_ws text) with
  | Parsed v rest =>
      match skip_ws rest with
      | [] => Parsed v []
      | _ :: _ => Malformed
      end
  | Malformed => Malformed
  | Raises x => Raises x
  | Unmodelled => Unmodelled
  end.


(** One member of a printed object, [key:value]. *)
Definition member (kv : string * json) : bytes :=
  dumps_str (fst kv) ++ ":"%char :: dumps (snd kv).

End Json.

(** ** Framing ([shared/protocol/framing.py], [constants.py]) *)

Module Framing.
Import Json.

Definition DEFAULT_VERSION : string := "1.0".
Definition FRAME_DELIMITER : ascii := nl.
(** [256 * 1024]. *)
Definition MAX_PAYLOAD_SIZE : N := 262144.

Definition in_range (lo hi : N) (c : ascii) : bool :=
  ((lo <=? N_of_ascii c) && (N_of_ascii c <=? hi))%N.

Definition continuation : ascii -> bool := in_range 128 191.

(** The second byte of a three-byte sequence: no overlong form, no surrogate. *)
Definition second_of_three (b0 b1 : ascii) : bool :=
  if (N_of_ascii b0 =? 224)%N then in_range 160 191 b1
  else if (N_of_ascii b0 =? 237)%N then in_range 128 159 b1
  else continuation b1.

(** The second byte of a four-byte sequence: no overlong form, at most U+10FFFF. *)
Definition second_of_four (b0 b1 : ascii) : bool :=
  if (N_of_ascii b0 =? 240)%N then in_range 144 191 b1
  else if (N_of_ascii b0 =? 244)%N then in_range 128 143 b1
  else continuation b1.

(** Whether [data.decode("utf-8")] succeeds: well-formed UTF-8. *)
Fixpoint utf8_valid (s : bytes) : bool :=
  match s with
  | [] => true
  | b0 :: t =>
      if in_range 0 127 b0 then utf8_valid t
      else if in_range 194 223 b0 then
        match t with
        | b1 :: t1 => continuation b1 && utf8_valid t1
        | _ => false
        end
      else if in_range 224 239 b0 then
        match t with
        | b1 :: b2 :: t2 => second_of_three b0 b1 && continuation b2 && utf8_valid t2
        | _ => false
        end
      else if in_range 240 244 b0 then
        match t with
        | b1 :: b2 :: b3 :: t3 =>
            second_of_four b0 b1 && continuation b2 && continuation b3
            && utf8_valid t3
        | _ => false
        end
      else false
  end.

(** [data.rstrip(c)]: every trailing [c] goes. *)
Fixpoint rstrip (c : ascii) (s : bytes) : bytes :=
  match s with
  | [] => []
  | x :: t =>
      match rstrip c t with
      | [] => if Ascii.eqb x c then [] else [x]
      | t' => x :: t'
      end
  end.

Definition bad_request (message : string) : ProtocolError :=
  mkProtocolError StatusCode.BAD_REQUEST None message.

(** [encode_msg]: the compact JSON text and the delimiter, unless the text is
    longer than [MAX_PAYLOAD_SIZE]. Of what [json.dumps] raises, the
    [ValueError] of an integer too long to print is caught and comes back as
    [Encode failed]; the [RecursionError] of a value nested too deep is
    neither a [TypeError] nor a [ValueError] and passes through. *)
Definition encode_msg {rt : Runtime} (msg : json) : outcome bytes :=
  match dumps_fault recursion_budget msg with
  | Some IntLimit => Raise (bad_request ("Encode failed: " +:+ int_limit_text))
  | Some Recursion => Crash (exception_of Recursion)
  | None =>
      let data := dumps msg in
      if (MAX_PAYLOAD_SIZE <? N.of_nat (length data))%N
      then Raise (bad_request "Payload too large for control channel")
      else Ok (data ++ [FRAME_DELIMITER])
  end.

(** What [decode_msg] ends in: the message, the [ProtocolError] it raises,
    another exception that it lets through, or [DecodeUnmodelled] where
    [json.loads] builds a value the model does not hold. *)
Inductive decoded : Type :=
  | Decoded (msg : json)
  | DecodeError (e : ProtocolError)
  | DecodeCrash (exn : string)
  | DecodeUnmodelled.

(** [decode_msg]: strip the delimiter, decode UTF-8, parse. It has no size
    check. It catches [UnicodeDecodeError] and [json.JSONDecodeError]; the
    plain [ValueError] of an integer literal too long for [int] and the
    [RecursionError] of deep nesting are not among them. *)
Definition decode_msg {rt : Runtime} (data : bytes) : decoded :=
  let text := rstrip FRAME_DELIMITER data in
  if utf8_valid text then
    match loads recursion_budget text with
    | Parsed v _ => Decoded v
    | Malformed =>
        DecodeError (bad_request ("Decode failed: " +:+ decode_error_text data))
    | Raises f => DecodeCrash (exception_of f)
    | Unmodelled => DecodeUnmodelled
    end
  else DecodeError (bad_request ("Decode failed: " +:+ decode_error_text data)).

(** *** The stream reader behind [async_decode_msg]

    [asyncio.StreamReader.readuntil], with the limit [asyncio.start_server]
    gives a reader when none is passed (64 KiB), read off the bytes that are
    still to come on the connection. *)

Inductive read_result : Type :=
  | ReadLine (data : bytes)
  | IncompleteRead
  | LimitOverrun.

Definition STREAM_LIMIT : N := 65536.

(** The index of the first delimiter. *)
Fixpoint find_delimiter (s : bytes) : option nat :=
  match s with
  | [] => None
  | c :: t =>
      if Ascii.eqb c FRAME_DELIMITER then Some O
      else option_map S (find_delimiter t)
  end.

(** The line with its delimiter, and what stays buffered. A delimiter beyond
    the limit, or none within it, raises [LimitOverrunError] and consumes
    nothing; the end of the stream before a delimiter raises
    [IncompleteReadError]. *)
Definition readuntil (pending : bytes) : read_result * bytes :=
  match find_delimiter pending with
  | Some isep =>
      if (STREAM_LIMIT <? N.of_nat isep)%N then (LimitOverrun, pending)
      else (ReadLine (firstn (S isep) pending), skipn (S isep) pending)
  | None =>
      if (STREAM_LIMIT <? N.of_nat (length pending))%N then (LimitOverrun, pending)
      else (IncompleteRead, [])
  end.

(** *** Binary chunks of a file transfer *)

(** [n.to_bytes(4, "little")]: [None] is the [OverflowError] of a number
    that four bytes cannot hold. *)
Definition to_bytes_le4 (n : N) : option bytes :=
  if (n <? 4294967296)%N then
    Some [ascii_of_N (n mod 256); ascii_of_N ((n / 256) mod 256);
          ascii_of_N ((n / 256 / 256) mod 256);
          ascii_of_N ((n / 256 / 256 / 256) mod 256)]
  else None.

(** [int.from_bytes(b, "little")]. *)
Fixpoint from_bytes_le (b : bytes) : N :=
  match b with
  | [] => 0
  | c :: rest => (N_of_ascii c + 256 * from_bytes_le rest)%N
  end.

(** [encode_chunk]: the type, the length in four bytes, the payload. *)
Definition encode_chunk (type_byte : Z) (payload : bytes) : outcome bytes :=
  if negb ((0 <=? type_byte) && (type_byte <=? 255)) then
    Raise (bad_request "Chunk type must be 0-255")
  else
    match to_bytes_le4 (N.of_nat (length payload)) with
    | Some len => Ok (ascii_of_N (Z.to_N type_byte) :: len ++ payload)
    | None => Crash "OverflowError"
    end.

(** [decode_chunk]: the slice [data[5 : 5 + length]] is shorter than
    [length] when the data ends early; what follows the payload is not
    looked at. *)
Definition decode_chunk (data : bytes) : outcome (Z * bytes) :=
  match data with
  | type_byte :: rest =>
      if (length data <? 5)%nat then Raise (bad_request "Incomplete chunk header")
      else
        let size := from_bytes_le (firstn 4 rest) in
        let payload := firstn (N.to_nat size) (skipn 4 rest) in
        if negb (N.of_nat (length payload) =? size)%N
        then Raise (bad_request "Chunk payload truncated")
        else Ok (Z.of_N (N_of_ascii type_byte), payload)
  | [] => Raise (bad_request "Incomplete chunk header")
  end.

End Framing.

(** ** The store ([server/storage/sqlite_store.py]) *)

Module SQLiteStore.

Record UserRow := mkUser {
  u_username : string;
  u_password_hash : string;
  u_created_at : Z
}.

Record SessionRow := mkSession {
  s_token : string;
  s_username : string;
  s_created_at : Z;
  s_expires_at : Z
}.

Record PresenceRow := mkPresence {
  p_username : string;
  p_state : string;
  p_updated_at : Z
}.

Record MessageRow := mkMessage {
  msg_message_id : string;
  msg_conversation_id : string;
  msg_sender_id : string;
  msg_content : json;
  msg_timestamp : Z
}.

Record RoomRow := mkRoom {
  r_room_id : string;
  r_owner : string;
  r_encrypted : bool;
  r_created_at : Z;
  r_password_hash : option string;
  r_metadata : json
}.

Record MemberRow := mkMember {
  m_room_id : string;
  m_user_id : string;
  m_joined_at : Z
}.

Record OfflineRow := mkOffline {
  o_id : Z;
  o_user_id : string;
  o_message : json;
  o_created_at : Z
}.

Record FriendRequestRow := mkFriendRequest {
  fr_id : Z;
  fr_from_user : string;
  fr_to_user : string;
  fr_message : option string;
  fr_status : string;
  fr_created_at : Z;
  fr_updated_at : Z
}.

Record FriendRow := mkFriend {
  f_user1 : string;
  f_user2 : string;
  f_created_at : Z
}.

(** The tables. [offline_seq] and [friend_requests_seq] are the
    [sqlite_sequence] counters of the two [AUTOINCREMENT] keys: the largest
    id ever handed out. The column [message] of [offline_queue] and [content]
    of [messages] hold the JSON value that [json.dumps] wrote. *)
Record Store := mkStore {
  users : list UserRow;
  sessions : list SessionRow;
  presence : list PresenceRow;
  messages : list MessageRow;
  rooms : list RoomRow;
  room_members : list MemberRow;
  offline_queue : list OfflineRow;
  offline_seq : Z;
  friend_requests : list FriendRequestRow;
  friend_requests_seq : Z;
  friends : list FriendRow
}.

Definition empty_store : Store := mkStore [] [] [] [] [] [] [] 0 [] 0 [].

Definition set_users (v : list UserRow) (s : Store) : Store :=
  mkStore v (sessions s) (presence s) (messages s) (rooms s) (room_members s)
          (offline_queue s) (offline_seq s) (friend_requests s)
          (friend_requests_seq s) (friends s).

Definition set_messages (v : list MessageRow) (s : Store) : Store :=
  mkStore (users s) (sessions s) (presence s) v (rooms s) (room_members s)
          (offline_queue s) (offline_seq s) (friend_requests s)
          (friend_requests_seq s) (friends s).

Definition set_rooms (v : list RoomRow) (s : Store) : Store :=
  mkStore (users s) (sessions s) (presence s) (messages s) v (room_members s)
          (offline_queue s) (offline_seq s) (friend_requests s)
          (friend_requests_seq s) (friends s).

Definition set_room_members (v : list MemberRow) (s : Store) : Store :=
  mkStore (users s) (sessions s) (presence s) (messages s) (rooms s) v
          (offline_queue s) (offline_seq s) (friend_requests s)
          (friend_requests_seq s) (friends s).

Definition set_offline (v : list OfflineRow) (seq : Z) (s : Store) : Store :=
  mkStore (users s) (sessions s) (presence s) (messages s) (rooms s)
          (room_members s) v seq (friend_requests s)
          (friend_requests_seq s) (friends s).

Definition set_friend_requests (v : list FriendRequestRow) (s : Store) : Store :=
  mkStore (users s) (sessions s) (presence s) (messages s) (rooms s)
          (room_members s) (offline_queue s) (offline_seq s) v
          (friend_requests_seq s) (friends s).

Definition set_friends (v : list FriendRow) (s : Store) : Store :=
  mkStore (users s) (sessions s) (presence s) (messages s) (rooms s)
          (room_members s) (offline_queue s) (offline_seq s)
          (friend_requests s) (friend_requests_seq s) v.

(** *** Offline queue *)

(** [INSERT INTO offline_queue (user_id, message, created_at)]: the row gets
    the next [AUTOINCREMENT] id. *)
Definition enqueue_offline_message (user_id : string) (message : json) (now : Z)
    (s : Store) : Store :=
  let id := offline_seq s + 1 in
  set_offline (offline_queue s ++ [mkOffline id user_id message now]) id s.

(** [SELECT id, message FROM offline_queue WHERE user_id = ? ORDER BY id ASC]. *)
Definition select_offline (user_id : string) (s : Store) : list OfflineRow :=
  sort_by (fun a b => o_id a <=? o_id b)
          (List.filter (fun r => String.eqb (o_user_id r) user_id) (offline_queue s)).

(** [consume_offline_messages]: the selected rows are deleted by id, with one
    bound variable for each id, and their messages returned; with no row
    nothing is written. When there are more ids than one statement may bind,
    [execute] raises [sqlite3.OperationalError] on the [DELETE]: nothing is
    deleted and nothing returned. *)
Definition consume_offline_messages {rt : Runtime} (user_id : string) (s : Store)
  : outcome (list json) * Store :=
  match select_offline user_id s with
  | [] => (Ok [], s)
  | rows =>
      let ids := map o_id rows in
      if (sqlite_max_variables <? length ids)%nat
      then (Crash "sqlite3.OperationalError", s)
      else
        (Ok (map o_message rows),
         set_offline
           (List.filter (fun r => negb (existsb (Z.eqb (o_id r)) ids)) (offline_queue s))
           (offline_seq s) s)
  end.

(** *** Users *)

Definition get_user (username : string) (s : Store) : option UserRow :=
  find (fun u => String.eqb (u_username u) username) (users s).

Definition user_exists (username : string) (s : Store) : bool :=
  existsb (fun u => String.eqb (u_username u) username) (users s).

(** [create_user]: [None] is the [ValueError] raised on the [UNIQUE]
    constraint of [username]. *)
Definition create_user (username password_hash : string) (now : Z) (s : Store)
  : option Store :=
  if user_exists username s then None
  else Some (set_users (users s ++ [mkUser username password_hash now]) s).

(** *** Messages *)

(** [insert_message] with [message_id = mid]: the column [content] holds
    [content or {}]. [None] is the [IntegrityError] of a repeated primary
    key, which the source does not catch. *)
Definition insert_message (conversation_id sender_id : string) (content : json)
    (mid : string) (now : Z) (s : Store) : option Store :=
  if existsb (fun m => String.eqb (msg_message_id m) mid) (messages s) then None
  else Some (set_messages
               (messages s ++ [mkMessage mid conversation_id sender_id
                                 (if truthy content then content else JObj []) now])
               s).

(** *** Rooms *)

Definition get_room (room_id : string) (s : Store) : option RoomRow :=
  find (fun r => String.eqb (r_room_id r) room_id) (rooms s).

Definition room_exists (room_id : string) (s : Store) : bool :=
  existsb (fun r => String.eqb (r_room_id r) room_id) (rooms s).

Definition is_member_row (room_id user_id : string) (m : MemberRow) : bool :=
  String.eqb (m_room_id m) room_id && String.eqb (m_user_id m) user_id.

(** [create_room]: both inserts in one transaction. [None] is the
    [ValueError] raised when the room id is taken; the owner's row is added
    with [INSERT OR IGNORE]. *)
Definition create_room (room_id owner : string) (encrypted : bool)
    (password_hash : option string) (metadata : json) (now : Z) (s : Store)
  : option Store :=
  if room_exists room_id s then None
  else
    let s1 := set_rooms (rooms s ++ [mkRoom room_id owner encrypted now
                                        password_hash metadata]) s in
    Some (if existsb (is_member_row room_id owner) (room_members s1) then s1
          else set_room_members (room_members s1 ++ [mkMember room_id owner now]) s1).

(** [add_member]: [None] is the [ValueError] raised on an [IntegrityError],
    be it the primary key [(room_id, user_id)] or the foreign key to [rooms]. *)
Definition add_member (room_id user_id : string) (now : Z) (s : Store)
  : option Store :=
  if existsb (is_member_row room_id user_id) (room_members s)
     || negb (room_exists room_id s)
  then None
  else Some (set_room_members (room_members s ++ [mkMember room_id user_id now]) s).

Definition remove_member (room_id user_id : string) (s : Store) : Store :=
  set_room_members
    (List.filter (fun m => negb (is_member_row room_id user_id m)) (room_members s)) s.

(** [SELECT user_id FROM room_members WHERE room_id = ? ORDER BY user_id ASC]. *)
Definition list_room_members (room_id : string) (s : Store) : list string :=
  sort_by String.leb
    (map m_user_id
       (List.filter (fun m => String.eqb (m_room_id m) room_id) (room_members s))).

(** [delete_room]: the membership rows, then the room. *)
Definition delete_room (room_id : string) (s : Store) : Store :=
  let s1 := set_room_members
              (List.filter (fun m => negb (String.eqb (m_room_id m) room_id))
                           (room_members s)) s in
  set_rooms (List.filter (fun r => negb (String.eqb (r_room_id r) room_id)) (rooms s1)) s1.

(** *** Friends *)

Definition set_request_status (request_id : Z) (status : string) (now : Z)
    (rows : list FriendRequestRow) : list FriendRequestRow :=
  map (fun r =>
         if fr_id r =? request_id
         then mkFriendRequest (fr_id r) (fr_from_user r) (fr_to_user r)
                (fr_message r) status (fr_created_at r) now
         else r) rows.

(** [send_friend_request]: a new row with the next id, or, when the pair has
    a row already ([UNIQUE(from_user, to_user)]), that row set back to
    [pending] with the new message. Returns the row's id. *)
Definition send_friend_request (from_user to_user : string) (message : option string)
    (now : Z) (s : Store) : Store * Z :=
  match find (fun r => String.eqb (fr_from_user r) from_user
                       && String.eqb (fr_to_user r) to_user) (friend_requests s) with
  | None =>
      let id := friend_requests_seq s + 1 in
      (mkStore (users s) (sessions s) (presence s) (messages s) (rooms s)
               (room_members s) (offline_queue s) (offline_seq s)
               (friend_requests s
                ++ [mkFriendRequest id from_user to_user message "pending" now now])
               id (friends s),
       id)
  | Some row =>
      (set_friend_requests
         (map (fun r =>
                 if String.eqb (fr_from_user r) from_user
                    && String.eqb (fr_to_user r) to_user
                 then mkFriendRequest (fr_id r) (fr_from_user r) (fr_to_user r)
                        message "pending" (fr_created_at r) now
                 else r) (friend_requests s)) s,
       fr_id row)
  end.

(** [... WHERE to_user = ? AND status = 'pending' ORDER BY created_at DESC]. *)
Definition get_pending_friend_requests (user_id : string) (s : Store)
  : list FriendRequestRow :=
  sort_by (fun a b => fr_created_at b <=? fr_created_at a)
    (List.filter (fun r => String.eqb (fr_to_user r) user_id
                           && String.eqb (fr_status r) "pending")
                 (friend_requests s)).

(** [INSERT INTO friends]: [None] is the [IntegrityError] of the primary key
    [(user1, user2)] or of [CHECK (user1 < user2)]. *)
Definition insert_friend (user1 user2 : string) (now : Z) (s : Store) : option Store :=
  if String.ltb user1 user2
     && negb (existsb (fun f => String.eqb (f_user1 f) user1
                                && String.eqb (f_user2 f) user2) (friends s))
  then Some (set_friends (friends s ++ [mkFriend user1 user2 now]) s)
  else None.

(** An [int] that [sqlite3] can bind as an INTEGER: one of 64 bits. A
    larger one raises [OverflowError] when the statement is run. *)
Definition sqlite_integer (z : Z) : bool :=
  (-9223372036854775808 <=? z) && (z <=? 9223372036854775807).

(** [accept_friend_request]: only a [pending] row is accepted. The friendship
    is stored under the smaller name first; when that insert fails the
    request is marked accepted all the same. The id is bound in the first
    statement. *)
Definition accept_friend_request (request_id : Z) (now : Z) (s : Store)
  : Store * outcome bool :=
  if negb (sqlite_integer request_id) then (s, Crash "OverflowError")
  else
    match find (fun r => (fr_id r =? request_id) && String.eqb (fr_status r) "pending")
               (friend_requests s) with
    | None => (s, Ok false)
    | Some row =>
        let from_user := fr_from_user row in
        let to_user := fr_to_user row in
        let '(user1, user2) :=
          if String.ltb from_user to_user then (from_user, to_user)
          else (to_user, from_user) in
        match insert_friend user1 user2 now s with
        | Some s1 =>
            (set_friend_requests
               (set_request_status request_id "accepted" now (friend_requests s1)) s1,
             Ok true)
        | None =>
            (set_friend_requests
               (set_request_status request_id "accepted" now (friend_requests s)) s,
             Ok true)
        end
    end.

(** [reject_friend_request]: [rowcount > 0]. *)
Definition reject_friend_request (request_id : Z) (now : Z) (s : Store)
  : Store * outcome bool :=
  if negb (sqlite_integer request_id) then (s, Crash "OverflowError")
  else if existsb (fun r => (fr_id r =? request_id) && String.eqb (fr_status r) "pending")
                  (friend_requests s)
  then (set_friend_requests
          (map (fun r =>
                  if (fr_id r =? request_id) && String.eqb (fr_status r) "pending"
                  then mkFriendRequest (fr_id r) (fr_from_user r) (fr_to_user r)
                         (fr_message r) "rejected" (fr_created_at r) now
                  else r) (friend_requests s)) s,
        Ok true)
  else (s, Ok false).

(** [are_friends]: the pair is looked up smaller name first. *)
Definition are_friends (user1 user2 : string) (s : Store) : bool :=
  let '(a, b) := if String.ltb user2 user1 then (user2, user1) else (user1, user2) in
  existsb (fun f => String.eqb (f_user1 f) a && String.eqb (f_user2 f) b) (friends s).

Definition delete_friend (user1 user2 : string) (s : Store) : Store * bool :=
  let '(a, b) := if String.ltb user2 user1 then (user2, user1) else (user1, user2) in
  let hit := fun f => String.eqb (f_user1 f) a && String.eqb (f_user2 f) b in
  (set_friends (List.filter (fun f => negb (hit f)) (friends s)) s,
   existsb hit (friends s)).

(** [get_sent_friend_requests]:
    [... WHERE from_user = ? ORDER BY created_at DESC]. *)
Definition get_sent_friend_requests (user_id : string) (s : Store)
  : list FriendRequestRow :=
  sort_by (fun a b => fr_created_at b <=? fr_created_at a)
    (List.filter (fun r => String.eqb (fr_from_user r) user_id) (friend_requests s)).

(** [list_friends]: for every row that names [user_id], the other name. The
    query has no [ORDER BY]; the rows are taken in table order here, and
    nothing is to be read into the order of the result. *)
Definition list_friends (user_id : string) (s : Store) : list string :=
  map (fun f => if String.eqb (f_user1 f) user_id then f_user2 f else f_user1 f)
      (List.filter (fun f => String.eqb (f_user1 f) user_id
                             || String.eqb (f_user2 f) user_id) (friends s)).

(** [SELECT room_id FROM room_members WHERE user_id = ? ORDER BY room_id ASC]. *)
Definition list_rooms_for_user (user_id : string) (s : Store) : list string :=
  sort_by String.leb
    (map m_room_id
       (List.filter (fun m => String.eqb (m_user_id m) user_id) (room_members s))).

(** *** Sessions and presence *)

Definition set_sessions (v : list SessionRow) (s : Store) : Store :=
  mkStore (users s) v (presence s) (messages s) (rooms s) (room_members s)
          (offline_queue s) (offline_seq s) (friend_requests s)
          (friend_requests_seq s) (friends s).

Definition set_presence (v : list PresenceRow) (s : Store) : Store :=
  mkStore (users s) (sessions s) v (messages s) (rooms s) (room_members s)
          (offline_queue s) (offline_seq s) (friend_requests s)
          (friend_requests_seq s) (friends s).

(** [upsert_session]: [INSERT ... ON CONFLICT(token) DO UPDATE]. *)
Definition upsert_session (token username : string) (expires_in now : Z) (s : Store)
  : Store :=
  let row := mkSession token username now (now + expires_in) in
  if existsb (fun r => String.eqb (s_token r) token) (sessions s)
  then set_sessions
         (map (fun r => if String.eqb (s_token r) token then row else r) (sessions s)) s
  else set_sessions (sessions s ++ [row]) s.

Definition delete_session (token : string) (s : Store) : Store :=
  set_sessions (List.filter (fun r => negb (String.eqb (s_token r) token)) (sessions s)) s.

(** [update_presence]: [INSERT ... ON CONFLICT(username) DO UPDATE]. *)
Definition update_presence (user_id state : string) (now : Z) (s : Store) : Store :=
  let row := mkPresence user_id state now in
  if existsb (fun r => String.eqb (p_username r) user_id) (presence s)
  then set_presence
         (map (fun r => if String.eqb (p_username r) user_id then row else r)
              (presence s)) s
  else set_presence (presence s ++ [row]) s.

(** [SELECT username FROM presence WHERE state = 'online' ORDER BY username ASC]. *)
Definition list_online_users (s : Store) : list string :=
  sort_by String.leb
    (map p_username
       (List.filter (fun r => String.eqb (p_state r) "online") (presence s))).

End SQLiteStore.

(** ** The connection registry ([server/core/connection.py],
       [connection_manager.py]) *)

Module ConnectionManager.
Import Json Framing.

(** A [ConnectionContext] without its stream objects. The context of a
    connection is named by the handle of its writer, as both are made
    together in [_handle_client]. *)
Record ConnectionContext := mkContext {
  peername : string;
  user_id : option string;
  session_token : option string;
  last_seen : Z
}.

(** The far end of a writer: the frames written so far, and whether a write
    now raises (the peer is gone). *)
Record Wire := mkWire {
  wire_closed : bool;
  wire_sent : list bytes
}.

(** [contexts] holds the context objects; [_by_writer] and [_by_user] refer
    to them by handle, so a context bound under two names is one object. *)
Record Registry := mkRegistry {
  contexts : gmap nat ConnectionContext;
  by_writer : gset nat;
  by_user : gmap string nat;
  wires : gmap nat Wire
}.

Definition empty_registry : Registry := mkRegistry ∅ ∅ ∅ ∅.

Definition set_by_user (m : gmap string nat) (r : Registry) : Registry :=
  mkRegistry (contexts r) (by_writer r) m (wires r).

Definition set_wires (m : gmap nat Wire) (r : Registry) : Registry :=
  mkRegistry (contexts r) (by_writer r) (by_user r) m.

(** [register(writer, ctx)], for a fresh connection. *)
Definition register (h : nat) (ctx : ConnectionContext) (r : Registry) : Registry :=
  mkRegistry (<[h := ctx]> (contexts r)) ({[h]} ∪ by_writer r) (by_user r)
             (<[h := mkWire false []]> (wires r)).

Definition bind_user (h : nat) (r : Registry) : Registry :=
  match contexts r !! h with
  | Some ctx =>
      match user_id ctx with
      | Some u => if String.eqb u "" then r else set_by_user (<[u := h]> (by_user r)) r
      | None => r
      end
  | None => r
  end.

Definition unbind_user (h : nat) (r : Registry) : Registry :=
  match contexts r !! h with
  | Some ctx =>
      match user_id ctx with
      | Some u =>
          if negb (String.eqb u "") && bool_decide (by_user r !! u = Some h)
          then set_by_user (delete u (by_user r)) r
          else r
      | None => r
      end
  | None => r
  end.

Definition unregister (h : nat) (r : Registry) : Registry :=
  if bool_decide (h ∈ by_writer r)
  then unbind_user h (mkRegistry (contexts r) (by_writer r ∖ {[h]}) (by_user r) (wires r))
  else r.

Definition get_by_user (user : string) (r : Registry) : option nat := by_user r !! user.

(** [writer.write(frame); await writer.drain()]: [None] when it raises. *)
Definition write_frame (h : nat) (frame : bytes) (r : Registry) : option Registry :=
  match wires r !! h with
  | Some w =>
      if wire_closed w then None
      else Some (set_wires (<[h := mkWire false (wire_sent w ++ [frame])]> (wires r)) r)
  | None => None
  end.

(** [send_to_user]: [False] when the user has no connection and when
    encoding or writing raises. *)
Definition send_to_user {rt : Runtime} (user : string) (message : json) (r : Registry)
  : Registry * bool :=
  match by_user r !! user with
  | None => (r, false)
  | Some h =>
      match encode_msg message with
      | Ok frame =>
          match write_frame h frame r with
          | Some r' => (r', true)
          | None => (r, false)
          end
      | _ => (r, false)
      end
  end.

End ConnectionManager.

(** ** The services ([server/services])

    A handler is given the fields it reads from the message, typed as the
    command's schema types them ([None] for a field that is absent or
    [null]), the [user_id] of the connection's context, and the values it
    draws from the clock and from [uuid4]. It returns the command and the
    payload of its response; the envelope fields it only echoes are left
    out. *)

Record Response := mkResponse {
  resp_command : string;
  resp_payload : list (string * json)
}.

(** The [status] of a response payload. *)
Definition resp_status (r : Response) : option json := assoc_get "status" (resp_payload r).

(** The [status] a handler's outcome carries, if it is a response. *)
Definition resp_status_of (o : outcome Response) : option json :=
  match o with
  | Ok r => resp_status r
  | _ => None
  end.

Definition opt_text (o : option string) : json :=
  match o with Some s => JStr s | None => JNull end.

(** What the services share: the repository and the connection manager. *)
Record World := mkWorld {
  store : SQLiteStore.Store;
  registry : ConnectionManager.Registry
}.

Definition set_store (s : SQLiteStore.Store) (w : World) : World :=
  mkWorld s (registry w).

Definition set_registry (r : ConnectionManager.Registry) (w : World) : World :=
  mkWorld (store w) r.

(** *** [message_service.py] *)

Module MessageService.
Import SQLiteStore ConnectionManager.

(** The fields of a [message/send] request: [message["id"]] ([None] when the
    key is missing), [message.get("headers")] as a dict ([[]] when absent or
    empty), and of the payload [conversation_id], [target.type], [target.id]
    and [content]. *)
Record SendRequest := mkSendRequest {
  sr_id : option json;
  sr_headers : list (string * json);
  sr_conversation_id : option string;
  sr_target_type : option string;
  sr_target_id : option string;
  sr_content : json
}.

Definition message_event (req : SendRequest) (sender convo mid : string) (now : Z)
  : json :=
  JObj [("id", JStr mid);
        ("type", JStr "event");
        ("timestamp", JInt now);
        ("command", JStr "message/event");
        ("headers", JObj (assoc_setdefault "version" (JStr "1.0") (sr_headers req)));
        ("payload", JObj [("conversation_id", JStr convo);
                          ("sender_id", JStr sender);
                          ("content", sr_content req);
                          ("message_id", JStr mid)])].

Definition message_ack (mid : string) : Response :=
  mkResponse "message/ack" [("status", JInt StatusCode.SUCCESS); ("message_id", JStr mid)].

(** [_deliver_to_user]: no id, nothing done; else the live send, and the
    offline queue when that reports [False]. *)
Definition deliver_to_user {rt : Runtime} (user : option string) (event : json)
    (now : Z) (w : World) : World * bool :=
  match user with
  | None => (w, false)
  | Some u =>
      if String.eqb u "" then (w, false)
      else
        let '(r, delivered) := send_to_user u event (registry w) in
        if delivered then (set_registry r w, true)
        else (set_store (enqueue_offline_message u event now (store w))
                        (set_registry r w),
              false)
  end.

(** The loop of [_deliver_to_room]. *)
Fixpoint deliver_to_members {rt : Runtime} (sender : string) (members : list string)
    (event : json) (now : Z) (w : World) : World :=
  match members with
  | [] => w
  | member :: rest =>
      if String.eqb member sender then deliver_to_members sender rest event now w
      else deliver_to_members sender rest event now
             (fst (deliver_to_user (Some member) event now w))
  end.

Definition deliver_to_room {rt : Runtime} (sender : string) (room_id : option string)
    (event : json) (now : Z) (w : World) : World * outcome unit :=
  match room_id with
  | Some room =>
      if String.eqb room "" then
        (w, Raise (mkProtocolError StatusCode.BAD_REQUEST None "Missing room_id in target"))
      else if negb (room_exists room (store w)) then
        (w, Raise (mkProtocolError StatusCode.NOT_FOUND None "Room not found"))
      else
        let members := list_room_members room (store w) in
        if negb (existsb (String.eqb sender) members) then
          (w, Raise (mkProtocolError StatusCode.FORBIDDEN None "Sender not in room"))
        else (deliver_to_members sender members event now w, Ok tt)
  | None =>
      (w, Raise (mkProtocolError StatusCode.BAD_REQUEST None "Missing room_id in target"))
  end.

(** [handle_send], with [mid] the [uuid4().hex] of [insert_message]. The
    message row is written before the target is looked at. *)
Definition handle_send {rt : Runtime} (ctx_user : option string) (req : SendRequest)
    (now : Z) (mid : string) (w : World) : World * outcome Response :=
  match ctx_user with
  | None => (w, Raise (mkProtocolError StatusCode.UNAUTHORIZED None "Unauthenticated"))
  | Some sender =>
      if negb (present (sr_conversation_id req)) then
        (w, Raise (mkProtocolError StatusCode.BAD_REQUEST None "Missing conversation_id"))
      else
        let convo := default "" (sr_conversation_id req) in
        match insert_message convo sender (sr_content req) mid now (store w) with
        | None => (w, Crash "sqlite3.IntegrityError")
        | Some st1 =>
            let w1 := set_store st1 w in
            match sr_id req with
            | None => (w1, Crash "KeyError")
            | Some _ =>
                let event := message_event req sender convo mid now in
                match sr_target_type req with
                | Some ty =>
                    if String.eqb ty "user" then
                      (fst (deliver_to_user (sr_target_id req) event now w1),
                       Ok (message_ack mid))
                    else if String.eqb ty "room" then
                      match deliver_to_room sender (sr_target_id req) event now w1 with
                      | (w2, Ok _) => (w2, Ok (message_ack mid))
                      | (w2, Raise e) => (w2, Raise e)
                      | (w2, Crash x) => (w2, Crash x)
                      end
                    else (w1, Ok (message_ack mid))
                | None => (w1, Ok (message_ack mid))
                end
            end
        end
  end.

End MessageService.

(** *** [friend_service.py] *)

Module FriendService.
Import Framing SQLiteStore ConnectionManager.

Definition friend_event (eid : string) (now : Z) (payload : list (string * json)) : json :=
  JObj [("id", JStr eid);
        ("type", JStr "event");
        ("timestamp", JInt now);
        ("command", JStr "friend/event");
        ("headers", JObj [("version", JStr "1.0")]);
        ("payload", JObj payload)].

(** [_notify_user]: written to the user's connection if there is one; a
    failure is logged and nothing else. *)
Definition notify_user {rt : Runtime} (user : string) (event : json) (r : Registry)
  : Registry :=
  match get_by_user user r with
  | Some h =>
      match encode_msg event with
      | Ok frame =>
          match write_frame h frame r with
          | Some r' => r'
          | None => r
          end
      | _ => r
      end
  | None => r
  end.

Definition ok_response (command : string) (payload : list (string * json)) : Response :=
  mkResponse command (("status", JInt StatusCode.SUCCESS) :: payload).

(** [_error_response]: the request's command comes back. It reads
    [message.get("id")] and answers whether the message has an id or not. *)
Definition error_response (command : string) (status : Z) (error_msg : string)
  : Response :=
  mkResponse command [("status", JInt status); ("error_message", JStr error_msg)].

(** [_ok_response] reads [request["id"]]: for a message without an id it
    raises [KeyError], and it is called last, after the store was changed
    and the other user notified. *)
Definition answer (msg_id : option json) (r : Response) : outcome Response :=
  match msg_id with
  | Some _ => Ok r
  | None => Crash "KeyError"
  end.

(** [handle_request], with [msg_id] the [id] of the message ([None] when the
    key is missing), [message] what [payload.get("message", "")] gives
    ([Some ""] when the key is missing, [None] for [null]) and [eid] the id
    of the event pushed to the target. *)
Definition handle_request {rt : Runtime} (ctx_user : option string)
    (msg_id : option json) (target_id : option string) (message : option string)
    (now : Z) (eid : string) (w : World) : World * outcome Response :=
  let command := "friend/request" in
  match ctx_user, target_id with
  | Some user, Some target =>
      if String.eqb user "" then
        (w, Ok (error_response command StatusCode.UNAUTHORIZED "Not authenticated"))
      else if String.eqb target "" then
        (w, Ok (error_response command StatusCode.BAD_REQUEST "Missing target_id"))
      else if negb (user_exists target (store w)) then
        (w, Ok (error_response command StatusCode.NOT_FOUND "User not found"))
      else if are_friends user target (store w) then
        (w, Ok (error_response command StatusCode.CONFLICT "Already friends"))
      else if String.eqb user target then
        (w, Ok (error_response command StatusCode.BAD_REQUEST
                  "Cannot send friend request to yourself"))
      else
        let '(st, request_id) :=
          send_friend_request user target message now (store w) in
        let event := friend_event eid now
                       [("event_type", JStr "new_request"); ("from_user", JStr user);
                        ("request_id", JInt request_id);
                        ("message", opt_text message)] in
        (mkWorld st (notify_user target event (registry w)),
         answer msg_id
           (ok_response "friend/request_ack"
              [("request_id", JInt request_id);
               ("message", JStr "Friend request sent")]))
  | Some user, None =>
      if String.eqb user "" then
        (w, Ok (error_response command StatusCode.UNAUTHORIZED "Not authenticated"))
      else (w, Ok (error_response command StatusCode.BAD_REQUEST "Missing target_id"))
  | None, _ =>
      (w, Ok (error_response command StatusCode.UNAUTHORIZED "Not authenticated"))
  end.

(** [handle_accept]. The request must be among the pending requests
    addressed to the caller; a request that is not, because it is someone
    else's or because it was answered before, gets NOT_FOUND. Were the store
    to report failure after that, the source would reach
    [StatusCode.SERVER_ERROR], a name the enum does not have. *)
Definition handle_accept {rt : Runtime} (ctx_user : option string)
    (msg_id : option json) (request_id : option Z) (now : Z) (eid : string)
    (w : World) : World * outcome Response :=
  let command := "friend/accept" in
  if negb (present ctx_user) then
    (w, Ok (error_response command StatusCode.UNAUTHORIZED "Not authenticated"))
  else
    let user := default "" ctx_user in
    match request_id with
    | None => (w, Ok (error_response command StatusCode.BAD_REQUEST "Missing request_id"))
    | Some rid =>
        if rid =? 0 then
          (w, Ok (error_response command StatusCode.BAD_REQUEST "Missing request_id"))
        else
          match find (fun r => fr_id r =? rid)
                     (get_pending_friend_requests user (store w)) with
          | None =>
              (w, Ok (error_response command StatusCode.NOT_FOUND
                        "Friend request not found or already processed"))
          | Some request =>
              let from_user := fr_from_user request in
              match accept_friend_request rid now (store w) with
              | (st, Ok success) =>
                  if negb success then (set_store st w, Crash "AttributeError")
                  else
                    let event := friend_event eid now
                                   [("event_type", JStr "request_accepted");
                                    ("user_id", JStr user);
                                    ("request_id", JInt rid)] in
                    (mkWorld st (notify_user from_user event (registry w)),
                     answer msg_id
                       (ok_response "friend/accept_ack"
                          [("friend_id", JStr from_user);
                           ("message", JStr "Friend request accepted")]))
              | (st, Raise e) => (set_store st w, Raise e)
              | (st, Crash exn) => (set_store st w, Crash exn)
              end
          end
    end.

(** [handle_reject]: as [handle_accept], with the same unreachable name in
    the branch for a store that reports failure. *)
Definition handle_reject {rt : Runtime} (ctx_user : option string)
    (msg_id : option json) (request_id : option Z) (now : Z) (eid : string)
    (w : World) : World * outcome Response :=
  let command := "friend/reject" in
  if negb (present ctx_user) then
    (w, Ok (error_response command StatusCode.UNAUTHORIZED "Not authenticated"))
  else
    let user := default "" ctx_user in
    match request_id with
    | None => (w, Ok (error_response command StatusCode.BAD_REQUEST "Missing request_id"))
    | Some rid =>
        if rid =? 0 then
          (w, Ok (error_response command StatusCode.BAD_REQUEST "Missing request_id"))
        else
          match find (fun r => fr_id r =? rid)
                     (get_pending_friend_requests user (store w)) with
          | None =>
              (w, Ok (error_response command StatusCode.NOT_FOUND
                        "Friend request not found or already processed"))
          | Some request =>
              let from_user := fr_from_user request in
              match reject_friend_request rid now (store w) with
              | (st, Ok success) =>
                  if negb success then (set_store st w, Crash "AttributeError")
                  else
                    let event := friend_event eid now
                                   [("event_type", JStr "request_rejected");
                                    ("user_id", JStr user);
                                    ("request_id", JInt rid)] in
                    (mkWorld st (notify_user from_user event (registry w)),
                     answer msg_id
                       (ok_response "friend/reject_ack"
                          [("message", JStr "Friend request rejected")]))
              | (st, Raise e) => (set_store st w, Raise e)
              | (st, Crash exn) => (set_store st w, Crash exn)
              end
          end
    end.

(** [handle_delete]. *)
Definition handle_delete {rt : Runtime} (ctx_user : option string)
    (msg_id : option json) (friend_id : option string) (now : Z) (eid : string)
    (w : World) : World * outcome Response :=
  let command := "friend/delete" in
  if negb (present ctx_user) then
    (w, Ok (error_response command StatusCode.UNAUTHORIZED "Not authenticated"))
  else if negb (present friend_id) then
    (w, Ok (error_response command StatusCode.BAD_REQUEST "Missing friend_id"))
  else
    let user := default "" ctx_user in
    let friend := default "" friend_id in
    if negb (are_friends user friend (store w)) then
      (w, Ok (error_response command StatusCode.NOT_FOUND "Not friends"))
    else
      let '(st, success) := delete_friend user friend (store w) in
      if negb success then (set_store st w, Crash "AttributeError")
      else
        let event := friend_event eid now
                       [("event_type", JStr "friend_deleted"); ("user_id", JStr user)] in
        (mkWorld st (notify_user friend event (registry w)),
         answer msg_id
           (ok_response "friend/delete_ack" [("message", JStr "Friend deleted")])).

End FriendService.

(** *** [room_service.py] *)

Module RoomService.
Import SQLiteStore.

Section Handlers.
(** [shared.utils.common.sha256_hex]. *)
Variable sha256_hex : string -> string.

Definition unauthenticated : ProtocolError :=
  mkProtocolError StatusCode.UNAUTHORIZED None "Not authenticated".

Definition missing_room_id : ProtocolError :=
  mkProtocolError StatusCode.BAD_REQUEST None "Missing room_id".

Definition not_found (command room_id : string) : Response :=
  mkResponse command [("status", JInt StatusCode.NOT_FOUND); ("room_id", JStr room_id);
                      ("error_message", JStr "Room not found")].

Definition members_json (room_id : string) (s : Store) : json :=
  JArr (map JStr (list_room_members room_id s)).

Definition handle_create (ctx_user room_id : option string) (encrypted : bool)
    (password : option string) (now : Z) (w : World) : World * outcome Response :=
  match ctx_user with
  | None => (w, Raise unauthenticated)
  | Some user =>
      if negb (present room_id) then (w, Raise missing_room_id)
      else if encrypted && negb (present password) then
        (w, Raise (mkProtocolError StatusCode.BAD_REQUEST None
                     "Encrypted room requires password"))
      else
        let room := default "" room_id in
        let password_hash :=
          if present password then Some (sha256_hex (default "" password)) else None in
        match create_room room user encrypted password_hash (JObj []) now (store w) with
        | Some st =>
            (set_store st w,
             Ok (mkResponse "room/create"
                   [("status", JInt StatusCode.SUCCESS); ("room_id", JStr room);
                    ("encrypted", JBool encrypted); ("owner", JStr user);
                    ("created_at",
                     match get_room room st with
                     | Some r => JInt (r_created_at r)
                     | None => JNull
                     end);
                    ("members", members_json room st)]))
        | None =>
            (w, Ok (mkResponse "room/create"
                      [("status", JInt StatusCode.CONFLICT); ("room_id", JStr room);
                       ("error_message", JStr "Room already exists")]))
        end
  end.

(** [handle_join]. [add_member] raises [ValueError] for a user who is a
    member already, and the handler does not catch it. *)
Definition handle_join (ctx_user room_id password : option string) (now : Z)
    (w : World) : World * outcome Response :=
  match ctx_user with
  | None => (w, Raise unauthenticated)
  | Some user =>
      if negb (present room_id) then (w, Raise missing_room_id)
      else
        let room_name := default "" room_id in
        match get_room room_name (store w) with
        | None => (w, Ok (not_found "room/join" room_name))
        | Some room =>
            if r_encrypted room && negb (present password) then
              (w, Raise (mkProtocolError StatusCode.FORBIDDEN None "Password required"))
            else if r_encrypted room
                    && negb (bool_decide (r_password_hash room
                                          = Some (sha256_hex (default "" password))))
            then
              (w, Ok (mkResponse "room/join"
                        [("status", JInt StatusCode.FORBIDDEN);
                         ("room_id", JStr room_name);
                         ("error_message", JStr "Invalid password")]))
            else
              match add_member room_name user now (store w) with
              | None => (w, Crash "ValueError")
              | Some st =>
                  (set_store st w,
                   Ok (mkResponse "room/join"
                         [("status", JInt StatusCode.SUCCESS);
                          ("room_id", JStr room_name);
                          ("encrypted", JBool (r_encrypted room));
                          ("owner", JStr (r_owner room));
                          ("created_at", JInt (r_created_at room));
                          ("members", members_json room_name st)]))
              end
        end
  end.

(** [handle_leave]: the requester's membership row goes, whoever it is. *)
Definition handle_leave (ctx_user room_id : option string) (w : World)
  : World * outcome Response :=
  match ctx_user with
  | None => (w, Raise unauthenticated)
  | Some user =>
      if negb (present room_id) then (w, Raise missing_room_id)
      else
        let room := default "" room_id in
        if negb (room_exists room (store w)) then (w, Ok (not_found "room/leave" room))
        else
          (set_store (remove_member room user (store w)) w,
           Ok (mkResponse "room/leave"
                 [("status", JInt StatusCode.SUCCESS); ("room_id", JStr room)]))
  end.

Definition handle_kick (ctx_user room_id target_user_id : option string) (w : World)
  : World * outcome Response :=
  match ctx_user with
  | None => (w, Raise unauthenticated)
  | Some user =>
      if negb (present room_id) || negb (present target_user_id) then
        (w, Raise (mkProtocolError StatusCode.BAD_REQUEST None
                     "Missing room_id or user_id"))
      else
        let room_name := default "" room_id in
        let target := default "" target_user_id in
        match get_room room_name (store w) with
        | None => (w, Ok (not_found "room/kick" room_name))
        | Some room =>
            if negb (String.eqb (r_owner room) user) then
              (w, Ok (mkResponse "room/kick"
                        [("status", JInt StatusCode.FORBIDDEN);
                         ("room_id", JStr room_name);
                         ("error_message", JStr "Only room owner can kick members")]))
            else if String.eqb target user then
              (w, Ok (mkResponse "room/kick"
                        [("status", JInt StatusCode.BAD_REQUEST);
                         ("room_id", JStr room_name);
                         ("error_message", JStr "Cannot kick yourself")]))
            else
              let st := remove_member room_name target (store w) in
              (set_store st w,
               Ok (mkResponse "room/kick"
                     [("status", JInt StatusCode.SUCCESS); ("room_id", JStr room_name);
                      ("user_id", JStr target);
                      ("members", members_json room_name st)]))
        end
  end.

Definition handle_delete (ctx_user room_id : option string) (w : World)
  : World * outcome Response :=
  match ctx_user with
  | None => (w, Raise unauthenticated)
  | Some user =>
      if negb (present room_id) then (w, Raise missing_room_id)
      else
        let room_name := default "" room_id in
        match get_room room_name (store w) with
        | None => (w, Ok (not_found "room/delete" room_name))
        | Some room =>
            if negb (String.eqb (r_owner room) user) then
              (w, Ok (mkResponse "room/delete"
                        [("status", JInt StatusCode.FORBIDDEN);
                         ("room_id", JStr room_name);
                         ("error_message",
                          JStr "Only room owner can delete the room")]))
            else
              (set_store (delete_room room_name (store w)) w,
               Ok (mkResponse "room/delete"
                     [("status", JInt StatusCode.SUCCESS);
                      ("room_id", JStr room_name)]))
        end
  end.

End Handlers.
End RoomService.

(** *** [auth_service.py] *)

Module AuthService.
Import SQLiteStore.

(** [_login_response]: [error_message] and [error_code] are added when
    given. *)
Definition login_response (command : string) (status : Z) (token user_id : string)
    (expires : Z) (error : option string) (code : option Z) : Response :=
  mkResponse command
    ([("status", JInt status); ("token", JStr token); ("user_id", JStr user_id);
      ("expires_in", JInt expires)]
     ++ match error with
        | Some e => if String.eqb e "" then [] else [("error_message", JStr e)]
        | None => []
        end
     ++ match code with
        | Some c => if c =? 0 then [] else [("error_code", JInt c)]
        | None => []
        end).

Definition user_exists_response : Response :=
  login_response "auth/register_ack" StatusCode.CONFLICT "" "" 0
                 (Some "User already exists") (Some ErrorCode.USER_EXISTS).

(** [handle_register]: the only write is [create_user]; the context, the
    registry, the sessions and the presence table are not touched. *)
Definition handle_register (username password : option string) (now : Z) (w : World)
  : World * outcome Response :=
  if negb (present username) || negb (present password) then
    (w, Raise (mkProtocolError StatusCode.BAD_REQUEST None "Missing credentials"))
  else
    let name := default "" username in
    if user_exists name (store w) then (w, Ok user_exists_response)
    else
      match create_user name (default "" password) now (store w) with
      | None => (w, Ok user_exists_response)
      | Some st =>
          (set_store st w,
           Ok (login_response "auth/register_ack" StatusCode.SUCCESS "" name 0
                              None None))
      end.

(** What a handler leaves for the event loop to run later: the users handed
    to the offline dispatcher ([notify_user_online]) and the sends started
    with [asyncio.create_task]. *)
Record Scheduled := mkScheduled {
  drains : list string;
  sends : list (string * json)
}.

Definition nothing_scheduled : Scheduled := mkScheduled [] [].

(** [ctx.mark_authenticated]. *)
Definition mark_authenticated (h : nat) (user token : string) (now : Z)
    (r : ConnectionManager.Registry) : ConnectionManager.Registry :=
  match ConnectionManager.contexts r !! h with
  | Some ctx =>
      ConnectionManager.mkRegistry
        (<[h := ConnectionManager.mkContext (ConnectionManager.peername ctx)
                  (Some user) (Some token) now]> (ConnectionManager.contexts r))
        (ConnectionManager.by_writer r) (ConnectionManager.by_user r)
        (ConnectionManager.wires r)
  | None => r
  end.

(** [PresenceService.broadcast_event]; [eid] is the id, which the source
    prints from the clock. *)
Definition presence_event (eid user state : string) (now : Z) : json :=
  JObj [("id", JStr eid); ("type", JStr "event"); ("timestamp", JInt now);
        ("command", JStr "presence/event");
        ("headers", JObj [("version", JStr "1.0")]);
        ("payload", JObj [("user_id", JStr user); ("state", JStr state);
                          ("last_seen", JInt now)])].

(** [_broadcast_presence]: a send is started for every bound user but the
    one the event is about. The source goes through the keys of [_by_user]
    in insertion order; the order here is that of the map. *)
Definition broadcast_presence (eid user state : string) (now : Z)
    (r : ConnectionManager.Registry) : list (string * json) :=
  map (fun u => (u, presence_event eid user state now))
      (List.filter (fun u => negb (String.eqb u user))
                   (map fst (map_to_list (ConnectionManager.by_user r)))).

Definition invalid_credentials : Response :=
  login_response "auth/login_ack" StatusCode.UNAUTHORIZED "" "" 0
                 (Some "Invalid credentials") (Some ErrorCode.INVALID_TOKEN).

(** [handle_login] on the connection [h], with [token] the value of
    [secrets.token_hex(16)]. *)
Definition handle_login (h : nat) (username password : option string)
    (token eid : string) (now : Z) (w : World)
  : World * outcome Response * Scheduled :=
  if negb (present username) || negb (present password) then
    (w, Raise (mkProtocolError StatusCode.BAD_REQUEST None "Missing credentials"),
     nothing_scheduled)
  else
    let name := default "" username in
    match get_user name (store w) with
    | Some user =>
        if negb (String.eqb (u_password_hash user) (default "" password)) then
          (w, Ok invalid_credentials, nothing_scheduled)
        else
          let st1 := upsert_session token name 3600 now (store w) in
          let r1 := ConnectionManager.bind_user h
                      (mark_authenticated h name token now (registry w)) in
          let st2 := update_presence name "online" now st1 in
          (mkWorld st2 r1,
           Ok (login_response "auth/login_ack" StatusCode.SUCCESS token name 3600
                              None None),
           mkScheduled [name] (broadcast_presence eid name "online" now r1))
    | None => (w, Ok invalid_credentials, nothing_scheduled)
    end.

(** [handle_logout] on the connection [h]. The response is built last, from
    [message["id"]]: a message without id raises [KeyError] after the
    session is gone. *)
Definition handle_logout (h : nat) (msg_id : option json) (eid : string) (now : Z)
    (w : World) : World * outcome Response * Scheduled :=
  match ConnectionManager.contexts (registry w) !! h with
  | Some ctx =>
      let st1 := if present (ConnectionManager.session_token ctx)
                 then delete_session (default "" (ConnectionManager.session_token ctx))
                                     (store w)
                 else store w in
      let user := default "" (ConnectionManager.user_id ctx) in
      let bound := present (ConnectionManager.user_id ctx) in
      let r1 := if bound then ConnectionManager.unbind_user h (registry w)
                else registry w in
      let st2 := if bound then update_presence user "offline" now st1 else st1 in
      let r2 := ConnectionManager.mkRegistry
                  (<[h := ConnectionManager.mkContext (ConnectionManager.peername ctx)
                            None None (ConnectionManager.last_seen ctx)]>
                     (ConnectionManager.contexts r1))
                  (ConnectionManager.by_writer r1) (ConnectionManager.by_user r1)
                  (ConnectionManager.wires r1) in
      let scheduled :=
        mkScheduled [] (if bound then broadcast_presence eid user "offline" now r2
                        else []) in
      (mkWorld st2 r2,
       match msg_id with
       | Some _ => Ok (mkResponse "auth/logout" [("status", JInt StatusCode.SUCCESS)])
       | None => Crash "KeyError"
       end,
       scheduled)
  | None => (w, Crash "the connection has no context", nothing_scheduled)
  end.

End AuthService.

(** *** [voice_service.py]

    The two indexes of the service and the handlers that change them. The
    events a handler pushes to other users ([_notify_user], which swallows
    every failure) and the relay of [voice/data] read the indexes and do not
    change them; they are left out. The call id of a message and the user
    ids are [str]; [None] stands for an absent field. *)

Module VoiceService.

Record VoiceCall := mkVoiceCall {
  call_id : string;
  initiator_id : string;
  call_type : string;
  target_type : string;
  target_id : string;
  status : string;
  participants : gset string;
  created_at : Z;
  connected_at : option Z;
  ended_at : option Z
}.

Definition set_participants (p : gset string) (c : VoiceCall) : VoiceCall :=
  mkVoiceCall (call_id c) (initiator_id c) (call_type c) (target_type c) (target_id c)
              (status c) p (created_at c) (connected_at c) (ended_at c).

(** [VoiceCall.add_participant]: the first answer connects a ringing call. *)
Definition add_participant (user : string) (now : Z) (c : VoiceCall) : VoiceCall :=
  if String.eqb (status c) "ringing"
  then mkVoiceCall (call_id c) (initiator_id c) (call_type c) (target_type c)
                   (target_id c) "connected" ({[user]} ∪ participants c)
                   (created_at c) (Some now) (ended_at c)
  else set_participants ({[user]} ∪ participants c) c.

(** [VoiceCall.remove_participant]. *)
Definition remove_participant (user : string) (c : VoiceCall) : VoiceCall :=
  set_participants (participants c ∖ {[user]}) c.

(** [VoiceCall.end]. *)
Definition end_call (now : Z) (c : VoiceCall) : VoiceCall :=
  mkVoiceCall (call_id c) (initiator_id c) (call_type c) (target_type c) (target_id c)
              "ended" (participants c) (created_at c) (connected_at c) (Some now).

(** [active_calls] holds the call objects under their ids; a handler that
    changes a call changes the object the dict holds. *)
Record State := mkState {
  active_calls : gmap string VoiceCall;
  user_to_call : gmap string string
}.

Definition empty_state : State := mkState ∅ ∅.

Definition error_response (command : string) (status : Z) (error_msg : string)
  : Response :=
  mkResponse command [("status", JInt status); ("error_message", JStr error_msg)].

(** [_cleanup_call]: the call leaves [active_calls], and each user who is
    in it at that moment leaves [user_to_call], whatever call the entry
    names. *)
Definition cleanup_call (c : string) (st : State) : State :=
  match active_calls st !! c with
  | Some call =>
      mkState (delete c (active_calls st))
              (set_fold (fun u m => delete u m) (user_to_call st) (participants call))
  | None => st
  end.

(** [handle_call]: refused when the caller has an entry in [user_to_call];
    the call id is the id of the message, or a fresh one when it has none. *)
Definition handle_call (ctx_user msg_id : option string) (fresh : string)
    (call_type target_type target_id : option string) (now : Z) (st : State)
  : State * Response :=
  if negb (present ctx_user) then
    (st, error_response "voice/call" StatusCode.UNAUTHORIZED "Not authenticated")
  else if negb (present target_type) || negb (present target_id) then
    (st, error_response "voice/call" StatusCode.BAD_REQUEST "Invalid target")
  else
    let user := default "" ctx_user in
    match user_to_call st !! user with
    | Some _ =>
        (st, error_response "voice/call" StatusCode.CONFLICT "Already in a call")
    | None =>
        let c := default fresh msg_id in
        let call := mkVoiceCall c user (default "direct" call_type)
                                (default "" target_type) (default "" target_id)
                                "ringing" {[user]} now None None in
        (mkState (<[c := call]> (active_calls st)) (<[user := c]> (user_to_call st)),
         mkResponse "voice/call_ack"
           [("status", JInt 200); ("call_id", JStr c);
            ("message", JStr "Call initiated")])
    end.

(** [handle_answer]: it does not look at [user_to_call] before it writes
    the entry of the answering user. *)
Definition handle_answer (ctx_user call : option string) (now : Z) (st : State)
  : State * Response :=
  if negb (present ctx_user) then
    (st, error_response "voice/answer" StatusCode.UNAUTHORIZED "Not authenticated")
  else
    let user := default "" ctx_user in
    match call ≫= (fun c => active_calls st !! c) with
    | None => (st, error_response "voice/answer" StatusCode.NOT_FOUND "Call not found")
    | Some vc =>
        let c := default "" call in
        if String.eqb (call_type vc) "direct" && negb (String.eqb (status vc) "ringing")
        then (st, error_response "voice/answer" StatusCode.CONFLICT
                    "Call already answered or ended")
        else if String.eqb (call_type vc) "group" && String.eqb (status vc) "ended"
        then (st, error_response "voice/answer" StatusCode.CONFLICT "Call has ended")
        else
          (mkState (<[c := add_participant user now vc]> (active_calls st))
                   (<[user := c]> (user_to_call st)),
           mkResponse "voice/answer_ack"
             [("status", JInt 200); ("call_id", JStr c);
              ("message", JStr "Call connected")])
    end.

(** [handle_reject]: a direct call ends, whoever rejects it. *)
Definition handle_reject (ctx_user call : option string) (now : Z) (st : State)
  : State * Response :=
  if negb (present ctx_user) then
    (st, error_response "voice/reject" StatusCode.UNAUTHORIZED "Not authenticated")
  else
    match call ≫= (fun c => active_calls st !! c) with
    | None => (st, error_response "voice/reject" StatusCode.NOT_FOUND "Call not found")
    | Some vc =>
        let c := default "" call in
        let st' :=
          if String.eqb (call_type vc) "direct"
          then cleanup_call c (mkState (<[c := end_call now vc]> (active_calls st))
                                       (user_to_call st))
          else st in
        (st', mkResponse "voice/reject_ack" [("status", JInt 200); ("call_id", JStr c)])
    end.

(** [handle_end]: the user leaves the call and [user_to_call]; a group call
    with participants left goes on, any other call ends and is cleaned up. *)
Definition handle_end (ctx_user call : option string) (now : Z) (st : State)
  : State * Response :=
  if negb (present ctx_user) then
    (st, error_response "voice/end" StatusCode.UNAUTHORIZED "Not authenticated")
  else
    let user := default "" ctx_user in
    match call ≫= (fun c => active_calls st !! c) with
    | None => (st, error_response "voice/end" StatusCode.NOT_FOUND "Call not found")
    | Some vc =>
        let c := default "" call in
        if negb (bool_decide (user ∈ participants vc)) then
          (st, error_response "voice/end" StatusCode.FORBIDDEN "Not in this call")
        else
          let vc' := remove_participant user vc in
          let index := delete user (user_to_call st) in
          let st' :=
            if String.eqb (call_type vc') "group"
               && negb (bool_decide (participants vc' = ∅))
            then mkState (<[c := vc']> (active_calls st)) index
            else cleanup_call c (mkState (<[c := end_call now vc']> (active_calls st))
                                         index) in
          (st', mkResponse "voice/end_ack" [("status", JInt 200); ("call_id", JStr c)])
    end.

(** [user_disconnected], called with the context of the closed connection:
    a [voice/end] of the call the index names for the user. *)
Definition user_disconnected (user : string) (now : Z) (st : State) : State :=
  match user_to_call st !! user with
  | Some c =>
      if String.eqb c "" then st
      else
        match active_calls st !! c with
        | Some _ => fst (handle_end (Some user) (Some c) now st)
        | None => st
        end
  | None => st
  end.

End VoiceService.

(** ** Validation ([shared/protocol/validator.py]) *)

Module Validator.
Import Framing.

(** Whether a value can be a dict key or an argument of a cached function:
    lists and dicts cannot. *)
Definition hashable (v : json) : bool :=
  match v with
  | JArr _ | JObj _ => false
  | _ => true
  end.

(** [x == s] for a [str] literal [s]. *)
Definition is_str (s : string) (v : json) : bool :=
  match v with
  | JStr t => String.eqb t s
  | _ => false
  end.

(** [x or {}]. *)
Definition or_empty (o : option json) : json :=
  match o with
  | Some v => if truthy v then v else JObj []
  | None => JObj []
  end.

Section Validation.

(** [repr] of Python, used by [str] on values that are not strings. *)
Variable repr : json -> string.

(** The schema files: the parsed file [SCHEMA_REGISTRY] names for a command
    text, when there is an entry and the file exists. *)
Variable schema_file : string -> option json.

(** [jsonschema.validate schema instance]: the text of the
    [ValidationError], if one is raised. *)
Variable schema_violation : json -> json -> option string.

(** [str(x)]. *)
Definition str (v : json) : string :=
  match v with
  | JStr s => s
  | _ => repr v
  end.

(** [load_schema]: the cache in front of it hashes the argument. *)
Definition load_schema (command : json) : outcome (option json) :=
  if hashable command then Ok (schema_file (str command))
  else Crash "TypeError".

(** [validate_version], given [msg.get("headers")]. *)
Definition validate_version (headers : option json) : outcome unit :=
  match or_empty headers with
  | JObj fields =>
      let version := default (JStr "0.0") (assoc_get "version" fields) in
      if is_str DEFAULT_VERSION version then Ok tt
      else Raise (mkProtocolError StatusCode.UPGRADE_REQUIRED
                    (Some ErrorCode.VERSION_MISMATCH)
                    ("Protocol version mismatch: expected " +:+ DEFAULT_VERSION
                     +:+ ", got " +:+ str version))
  | _ => Crash "AttributeError"
  end.

(** [validate_msg]: the version first, then the schema if there is one. *)
Definition validate_msg (msg : list (string * json)) (schema : option json)
  : outcome unit :=
  match validate_version (assoc_get "headers" msg) with
  | Ok _ =>
      let loaded :=
        match schema with
        | Some s => if truthy s then Ok schema
                    else load_schema (default (JStr "") (assoc_get "command" msg))
        | None => load_schema (default (JStr "") (assoc_get "command" msg))
        end in
      match loaded with
      | Ok (Some s) =>
          if truthy s then
            match schema_violation s (JObj msg) with
            | Some text =>
                Raise (mkProtocolError StatusCode.BAD_REQUEST
                         (Some ErrorCode.PARAM_MISSING)
                         ("Schema validation failed: " +:+ text))
            | None => Ok tt
            end
          else Ok tt
      | Ok None => Ok tt
      | Raise e => Raise e
      | Crash exn => Crash exn
      end
  | Raise e => Raise e
  | Crash exn => Crash exn
  end.

End Validation.
End Validator.

(** ** The router and the server loop ([server/core/router.py],
       [server/core/server.py]) *)

(** A handler, given the message and the handle of the connection: what it
    does to the world, and its response if it has one. *)
Definition Handler : Type := json -> nat -> World -> World * outcome (option json).

Module CommandRouter.
Import Validator.

(** [dispatch]: the handler registered for [message.get("command")], if
    any. *)
Definition dispatch (handlers : string -> option Handler)
    (message : list (string * json)) (h : nat) (w : World)
  : World * outcome (option json) :=
  match assoc_get "command" message with
  | Some (JStr command) =>
      match handlers command with
      | Some handler => handler (JObj message) h w
      | None => (w, Ok None)
      end
  | Some v => if hashable v then (w, Ok None) else (w, Crash "TypeError")
  | None => (w, Ok None)
  end.

End CommandRouter.

Module SocketServer.
Import Json Framing ConnectionManager Validator.

(** [ERROR_COMMAND_MAP.get(command_key, command_key)]. *)
Definition error_command (command_key : json) : json :=
  if is_str "auth/login" command_key then JStr "auth/login_ack"
  else if is_str "auth/refresh" command_key then JStr "auth/refresh_ack"
  else if is_str "message/send" command_key then JStr "message/ack"
  else command_key.

Definition get_or_null (k : string) (fields : list (string * json)) : json :=
  default JNull (assoc_get k fields).

(** [_error_response]: the headers of the request, with the server's
    version if they name none. *)
Definition error_response (req : list (string * json)) (e : ProtocolError)
  : outcome json :=
  match or_empty (assoc_get "headers" req) with
  | JObj headers =>
      let command_key := get_or_null "command" req in
      if hashable command_key then
        Ok (JObj [("id", get_or_null "id" req);
                  ("type", JStr "response");
                  ("timestamp", get_or_null "timestamp" req);
                  ("command", error_command command_key);
                  ("headers",
                   JObj (assoc_setdefault "version" (JStr DEFAULT_VERSION) headers));
                  ("payload", to_payload e)])
      else Crash "TypeError"
  | _ => Crash "AttributeError"
  end.

(** Where the loop of [_handle_client] is after a frame: reading on, or
    left through an exception that is not a [ProtocolError], after which the
    connection is closed and unregistered. [NotModelled] marks a frame whose
    JSON the model does not hold. *)
Inductive loop_state : Type :=
  | Reading
  | Closed (exn : string)
  | NotModelled.

(** [_send]. *)
Definition send {rt : Runtime} (h : nat) (message : json) (w : World)
  : World * outcome unit :=
  match encode_msg message with
  | Ok frame =>
      match write_frame h frame (registry w) with
      | Some r => (set_registry r w, Ok tt)
      | None => (w, Crash "ConnectionResetError")
      end
  | Raise e => (w, Raise e)
  | Crash exn => (w, Crash exn)
  end.

(** [ctx.touch()]. *)
Definition touch (h : nat) (now : Z) (r : Registry) : Registry :=
  match contexts r !! h with
  | Some ctx =>
      mkRegistry (<[h := mkContext (peername ctx) (user_id ctx) (session_token ctx) now]>
                    (contexts r))
                 (by_writer r) (by_user r) (wires r)
  | None => r
  end.

(** The clause [except ProtocolError]: the error response is sent; an
    exception raised in the clause leaves the loop. *)
Definition on_protocol_error {rt : Runtime} (h : nat) (message : list (string * json))
    (e : ProtocolError) (w : World) : World * loop_state :=
  match error_response message e with
  | Ok response =>
      match send h response w with
      | (w', Ok _) => (w', Reading)
      | (w', Raise _) => (w', Closed "ProtocolError")
      | (w', Crash exn) => (w', Closed exn)
      end
  | Raise _ => (w, Closed "ProtocolError")
  | Crash exn => (w, Closed exn)
  end.

Section Server.

Context {rt : Runtime}.
Variable repr : json -> string.
Variable schema_file : string -> option json.
Variable schema_violation : json -> json -> option string.
Variable handlers : string -> option Handler.

(** The body of the loop, from the decoded message on. *)
Definition handle_message (h : nat) (message : json) (now : Z) (w : World)
  : World * loop_state :=
  match message with
  | JObj fields =>
      match load_schema repr schema_file (default (JStr "") (assoc_get "command" fields)) with
      | Ok schema =>
          match validate_msg repr schema_file schema_violation fields schema with
          | Ok _ =>
              let w1 := set_registry (touch h now (registry w)) w in
              match CommandRouter.dispatch handlers fields h w1 with
              | (w2, Ok (Some response)) =>
                  if truthy response then
                    match send h response w2 with
                    | (w3, Ok _) => (w3, Reading)
                    | (w3, Raise e) => on_protocol_error h fields e w3
                    | (w3, Crash exn) => (w3, Closed exn)
                    end
                  else (w2, Reading)
              | (w2, Ok None) => (w2, Reading)
              | (w2, Raise e) => on_protocol_error h fields e w2
              | (w2, Crash exn) => (w2, Closed exn)
              end
          | Raise e => on_protocol_error h fields e w
          | Crash exn => (w, Closed exn)
          end
      | Raise e => on_protocol_error h fields e w
      | Crash exn => (w, Closed exn)
      end
  | _ => (w, Closed "AttributeError")
  end.

(** One turn of the loop on the bytes still to come on the connection:
    [async_decode_msg], then the body. A decoding error is answered with
    [message] still [{}]; an exception [decode_msg] lets through leaves the
    loop. *)
Definition serve_frame (h : nat) (pending : bytes) (now : Z) (w : World)
  : World * loop_state * bytes :=
  match readuntil pending with
  | (ReadLine data, rest) =>
      match decode_msg data with
      | Decoded message => (handle_message h message now w, rest)
      | DecodeError e => (on_protocol_error h [] e w, rest)
      | DecodeCrash exn => (w, Closed exn, rest)
      | DecodeUnmodelled => (w, NotModelled, rest)
      end
  | (IncompleteRead, rest) => (w, Closed "IncompleteReadError", rest)
  | (LimitOverrun, rest) => (w, Closed "LimitOverrunError", rest)
  end.

End Server.
End SocketServer.

(** ** The offline dispatcher ([server/workers/offline.py]) *)

Module OfflineDispatcher.
Import SQLiteStore ConnectionManager.

(** The loop of [_drain_user_queue] over the consumed events: the first
    event whose send reports [False] is put back on the queue, and the loop
    is left with the events after it unsent. *)
Fixpoint deliver_queued {rt : Runtime} (user_id : string) (events : list json)
    (now : Z) (w : World) : World :=
  match events with
  | [] => w
  | event :: rest =>
      let '(r, delivered) := send_to_user user_id event (registry w) in
      if delivered then deliver_queued user_id rest now (set_registry r w)
      else set_store (enqueue_offline_message user_id event now (store w))
                     (set_registry r w)
  end.

(** [_drain_user_queue]: run for one user taken from the dispatcher's
    queue, with no other task running in between. What the store raises
    passes through to [_run], which logs it and waits for the next user. *)
Definition drain_user_queue {rt : Runtime} (user_id : string) (now : Z) (w : World)
  : World * outcome unit :=
  match consume_offline_messages user_id (store w) with
  | (Ok events, st) => (deliver_queued user_id events now (set_store st w), Ok tt)
  | (Raise e, st) => (set_store st w, Raise e)
  | (Crash exn, st) => (set_store st w, Crash exn)
  end.

End OfflineDispatcher.

(** ** Vocabulary of the statements *)

Module Spec.
Import Json Framing SQLiteStore ConnectionManager MessageService.

(** *** Rooms *)

(** A room request of an authenticated user. *)
Inductive RoomOp : Type :=
  | Create (user room : string) (encrypted : bool) (password : option string) (now : Z)
  | Join (user room : string) (password : option string) (now : Z)
  | Leave (user room : string)
  | Kick (user room target : string)
  | Delete (user room : string).

(** The world after the handler of the request has run, answered or raised. *)
Definition room_step (sha256_hex : string -> string) (op : RoomOp) (w : World) : World :=
  match op with
  | Create user room encrypted password now =>
      fst (RoomService.handle_create sha256_hex (Some user) (Some room) encrypted
             password now w)
  | Join user room password now =>
      fst (RoomService.handle_join sha256_hex (Some user) (Some room) password now w)
  | Leave user room => fst (RoomService.handle_leave (Some user) (Some room) w)
  | Kick user room target =>
      fst (RoomService.handle_kick (Some user) (Some room) (Some target) w)
  | Delete user room => fst (RoomService.handle_delete (Some user) (Some room) w)
  end.

Definition run_rooms (sha256_hex : string -> string) (ops : list RoomOp) (w : World)
  : World :=
  fold_left (fun acc op => room_step sha256_hex op acc) ops w.

(** Every room's owner is in the room's member list. *)
Definition owners_are_members (s : Store) : bool :=
  forallb (fun r => existsb (String.eqb (r_owner r)) (list_room_members (r_room_id r) s))
          (rooms s).

(** The request is a [room/leave] by the owner of the room it names. *)
Definition owner_leaves (op : RoomOp) (w : World) : bool :=
  match op with
  | Leave user room =>
      match get_room room (store w) with
      | Some r => String.eqb (r_owner r) user
      | None => false
      end
  | _ => false
  end.

(** No request of the run is a [room/leave] by the room's owner. *)
Fixpoint no_owner_leaves (sha256_hex : string -> string) (ops : list RoomOp) (w : World)
  : bool :=
  match ops with
  | [] => true
  | op :: rest =>
      negb (owner_leaves op w)
      && no_owner_leaves sha256_hex rest (room_step sha256_hex op w)
  end.

Definition empty_world : World := mkWorld empty_store empty_registry.

(** The primary key of [rooms], and a membership row for every owner. *)
Definition rooms_inv (s : Store) : Prop :=
  List.NoDup (map r_room_id (rooms s))
  /\ forall r, In r (rooms s) ->
       existsb (is_member_row (r_room_id r) (r_owner r)) (room_members s) = true.


(** *** Friend requests *)

(** The ids of [friend_requests] come from SQLite: they are integers of
    64 bits. *)
Definition integer_ids (s : Store) : Prop :=
  Forall (fun r => sqlite_integer (fr_id r) = true) (friend_requests s).

(** The primary key of [friend_requests]: an [INTEGER] that no two rows
    share. *)
Definition requests_wf (s : Store) : Prop :=
  List.NoDup (map fr_id (friend_requests s)) /\ integer_ids s.

(** The [status] column of the request with id [request_id]. *)
Definition request_status (request_id : Z) (s : Store) : option string :=
  option_map fr_status (find (fun r => fr_id r =? request_id) (friend_requests s)).

(** Alice has asked bob: one pending request, id 1. *)
Definition asked_world : World :=
  mkWorld (fst (send_friend_request "alice" "bob" (Some "hi") 1 empty_store))
          empty_registry.

(** *** Message delivery *)

(** The intended recipients of a [message/send]: the target user, or the
    members of the target room other than the sender. *)
Definition recipients (sender : string) (req : SendRequest) (w : World) : list string :=
  match sr_target_type req, sr_target_id req with
  | Some ty, Some id =>
      if String.eqb ty "user" then (if String.eqb id "" then [] else [id])
      else if String.eqb ty "room" then
        List.filter (fun m => negb (String.eqb m sender))
                    (list_room_members id (store w))
      else []
  | _, _ => []
  end.

(** What [send_to_user] returns. *)
Definition live {rt : Runtime} (user : string) (event : json) (r : Registry) : bool :=
  snd (send_to_user user event r).

(** The messages waiting for [user] in the offline queue, oldest first. *)
Definition queued (user : string) (w : World) : list json :=
  map o_message (List.filter (fun r => String.eqb (o_user_id r) user)
                             (offline_queue (store w))).

(** The frames written to the connection [h] so far. *)
Definition frames_on (h : nat) (w : World) : list bytes :=
  match wires (registry w) !! h with
  | Some wire => wire_sent wire
  | None => []
  end.

(** How many of [users] reach the connection [h] live. *)
Definition live_on {rt : Runtime} (h : nat) (event : json) (r : Registry)
    (users : list string) : nat :=
  length (List.filter (fun u => bool_decide (by_user r !! u = Some h) && live u event r)
                      users).

(** The room of the fan-out scenario: alice, bob and carol are in [r1], and
    only bob has a live connection. *)
Definition room_store : Store :=
  let s1 := default empty_store (create_room "r1" "alice" false None (JObj []) 1 empty_store) in
  let s2 := default s1 (add_member "r1" "bob" 2 s1) in
  default s2 (add_member "r1" "carol" 3 s2).

Definition room_world : World :=
  mkWorld room_store
    (bind_user 1 (register 1 (mkContext "peer" (Some "bob") (Some "t") 4)
                           empty_registry)).

Definition room_request : SendRequest :=
  mkSendRequest (Some (JStr "7")) [("version", JStr "1.0")] (Some "r1")
                (Some "room") (Some "r1") (JObj [("text", JStr "hello")]).

(** The frame of an event ([[]] when it does not encode). *)
Definition frame_of {rt : Runtime} (event : json) : bytes :=
  match encode_msg event with
  | Ok frame => frame
  | _ => []
  end.

(** [_deliver_to_user] over a list of users, one after the other. *)
Definition fanout {rt : Runtime} (users : list string) (event : json) (now : Z)
    (w : World) : World :=
  fold_left (fun acc u => fst (deliver_to_user (Some u) event now acc)) users w.

(** The primary key of [room_members], and that member ids are user names
    (none is empty). *)
Definition members_wf (s : Store) : Prop :=
  List.NoDup (map (fun m => (m_room_id m, m_user_id m)) (room_members s))
  /\ Forall (fun m => m_user_id m <> "") (room_members s).

(** What may follow a value inside compact JSON text. *)
Definition delimited (rest : bytes) : Prop :=
  match rest with
  | [] => True
  | c :: _ => c = ","%char \/ c = "]"%char \/ c = "}"%char
  end.

Fixpoint jsize (v : json) : nat :=
  match v with
  | JArr items => S (list_sum (map (fun x => S (jsize x)) items))
  | JObj fields => S (list_sum (map (fun kv => S (jsize (snd kv))) fields))
  | _ => 1%nat
  end.

Fixpoint distinct (l : list string) : bool :=
  match l with
  | [] => true
  | k :: rest => negb (existsb (String.eqb k) rest) && distinct rest
  end.

(** A Python dict has each key once. *)
Fixpoint keys_unique (v : json) : bool :=
  match v with
  | JArr items => forallb keys_unique items
  | JObj fields =>
      distinct (map fst fields) && forallb (fun kv => keys_unique (snd kv)) fields
  | _ => true
  end.

(** Every [str] of the value, keys included, is text that UTF-8 can encode:
    the bytes it is held as are well-formed. *)
Fixpoint text_valid (v : json) : bool :=
  match v with
  | JStr s => utf8_valid (list_ascii_of_string s)
  | JArr items => forallb text_valid items
  | JObj fields =>
      forallb (fun kv => utf8_valid (list_ascii_of_string (fst kv))
                         && text_valid (snd kv)) fields
  | _ => true
  end.

(** A value a Python program can hold and [encode_msg] can be given. *)
Definition python_value (v : json) : bool := keys_unique v && text_valid v.

Definition is_ascii : ascii -> bool := in_range 0 127.

Definition no_delimiter (s : bytes) : bool :=
  forallb (fun c => negb (Ascii.eqb c FRAME_DELIMITER)) s.

(** The envelope of [tests/test_protocol.py] and its frame. *)
Definition login_envelope : json :=
  JObj [("id", JStr "1"); ("type", JStr "request"); ("timestamp", JInt 1);
        ("command", JStr "auth/login");
        ("headers", JObj [("version", JStr "1.0")]);
        ("payload", JObj [("username", JStr "alice"); ("password", JStr "secret")])].

Definition login_frame : bytes := dumps login_envelope ++ [FRAME_DELIMITER].


(** The first byte of printed JSON opens a value. *)
Definition opens_value (c : ascii) : Prop :=
  is_ws c = false /\ Ascii.eqb c "]"%char = false /\ Ascii.eqb c "}"%char = false.

(** What the parser makes of a printed value. *)
Definition read_back {A : Type} (fault : option fault) (v : A) (rest : bytes)
  : parsed A :=
  match fault with
  | None => Parsed v rest
  | Some f => Raises f
  end.

(** The statement proved by induction on the value: with fuel for its size,
    the parser reads a printed value back and stops right after it, unless
    it meets, at the same place, what would have stopped the encoder. *)
Definition reads_back (v : json) : Prop :=
  keys_unique v = true ->
  forall fuel depth rest, (jsize v <= fuel)%nat -> delimited rest ->
    parse_value fuel depth (dumps v ++ rest)
    = read_back (dumps_fault depth v) v rest.

(** [json.dumps] and [json.loads] take the value: no integer of more than
    4300 digits, no nesting deeper than the stack allows. *)
Definition within_limits {rt : Runtime} (v : json) : bool :=
  match dumps_fault recursion_budget v with
  | None => true
  | Some _ => false
  end.



(** *** The compact form of JSON text *)








(** JSON text in the compact form: no white space between tokens, every
    string and integer written the one way [json.dumps] writes it, no key
    twice in an object. Numbers with a fraction or an exponent, [NaN] and
    [Infinity] are not in the grammar, as they are not in the model. *)
#[local] Unset Elimination Schemes.
#[local] Set Elimination Schemes.



(** The rows queued for [user], oldest first. *)
Definition pending (user : string) (s : Store) : list OfflineRow :=
  List.filter (fun r => String.eqb (o_user_id r) user) (offline_queue s).

(** The [AUTOINCREMENT] discipline of [offline_queue]: ids grow along the
    table and none exceeds the sequence counter. *)
Definition queue_wf (s : Store) : Prop :=
  StronglySorted (fun a b => o_id a < o_id b) (offline_queue s)
  /\ Forall (fun r => o_id r <= offline_seq s) (offline_queue s).

(** A run of [enqueue_offline_message] calls, each [(user, event, now)]. *)
Definition enqueue_all (ops : list (string * json * Z)) (s : Store) : Store :=
  fold_left (fun acc op =>
               enqueue_offline_message (fst (fst op)) (snd (fst op)) (snd op) acc)
            ops s.

(** The events of a run that were addressed to [user], in call order. *)
Definition events_for (user : string) (ops : list (string * json * Z)) : list json :=
  map (fun op => snd (fst op))
      (List.filter (fun op => String.eqb (fst (fst op)) user) ops).

(** *** Voice calls *)

(** The operations on the voice service. *)
Inductive VoiceOp : Type :=
  | VCall (user id call_type target_type target_id : string)
  | VAnswer (user call : string)
  | VReject (user call : string)
  | VEnd (user call : string)
  | VDisconnect (user : string).

Definition voice_step (now : Z) (op : VoiceOp) (st : VoiceService.State)
  : VoiceService.State :=
  match op with
  | VCall user id call_type target_type target_id =>
      fst (VoiceService.handle_call (Some user) (Some id) id (Some call_type)
             (Some target_type) (Some target_id) now st)
  | VAnswer user call => fst (VoiceService.handle_answer (Some user) (Some call) now st)
  | VReject user call => fst (VoiceService.handle_reject (Some user) (Some call) now st)
  | VEnd user call => fst (VoiceService.handle_end (Some user) (Some call) now st)
  | VDisconnect user => VoiceService.user_disconnected user now st
  end.

Definition run_voice (now : Z) (ops : list VoiceOp) (st : VoiceService.State)
  : VoiceService.State :=
  fold_left (fun acc op => voice_step now op acc) ops st.

(** [user_to_call[u] == c]. *)
Definition indexed (u c : string) (st : VoiceService.State) : bool :=
  bool_decide (VoiceService.user_to_call st !! u = Some c).

(** [u] is a participant of the active call [c], and [c] has not ended. *)
Definition in_live_call (u c : string) (st : VoiceService.State) : bool :=
  match VoiceService.active_calls st !! c with
  | Some call =>
      bool_decide (u ∈ VoiceService.participants call)
      && negb (String.eqb (VoiceService.status call) "ended")
  | None => false
  end.

(** Alice rings bob, carol rings alice. *)
Definition two_calls : VoiceService.State :=
  run_voice 1 [VCall "alice" "c1" "direct" "user" "bob";
               VCall "carol" "c2" "direct" "user" "alice"]
            VoiceService.empty_state.

(** *** The server loop *)

(** The version [validate_version] reads off a message: [headers.version],
    or ["0.0"] when the message has no headers or they name no version. *)
Definition declared_version (fields : list (string * json)) : json :=
  match Validator.or_empty (assoc_get "headers" fields) with
  | JObj headers => default (JStr "0.0") (assoc_get "version" headers)
  | _ => JStr "0.0"
  end.

(** An envelope typed as the protocol types it, as far as the loop reads it
    before a handler runs: [command] is absent or a scalar, [headers] is
    absent, falsy or an object. *)
Definition typed_envelope (fields : list (string * json)) : bool :=
  match assoc_get "command" fields with
  | Some v => Validator.hashable v
  | None => true
  end
  && match Validator.or_empty (assoc_get "headers" fields) with
     | JObj _ => true
     | _ => false
     end.

(** A server with one open connection, handle 1, nobody logged in. *)
Definition one_connection : World :=
  mkWorld empty_store (register 1 (mkContext "peer" None None 0) empty_registry).

(** A login request that declares version 0.9. *)
Definition old_client_login : list (string * json) :=
  [("id", JStr "7"); ("type", JStr "request"); ("timestamp", JInt 1);
   ("command", JStr "auth/login");
   ("headers", JObj [("version", JStr "0.9")]);
   ("payload", JObj [("username", JStr "alice"); ("password", JStr "secret")])].

(** A frame that declares version 0.9 and whose command is the empty list. *)
Definition listed_command : list (string * json) :=
  [("command", JArr []); ("headers", JObj [("version", JStr "0.9")])].

(** An envelope whose [id] is [n] letters long. *)
Definition padded_envelope (n : nat) : json :=
  JObj [("id", JStr (string_of_list_ascii (repeat "a"%char n)))].

(** *** Friendships *)

(** The constraints of the table [friends]: [CHECK (user1 < user2)] and the
    primary key [(user1, user2)]. *)
Definition friends_wf (s : Store) : Prop :=
  Forall (fun f => String.ltb (f_user1 f) (f_user2 f) = true) (friends s)
  /\ List.NoDup (map (fun f => (f_user1 f, f_user2 f)) (friends s)).

(** Alice and bob are friends: bob accepted the request of [asked_world]. *)
Definition friends_world : World :=
  mkWorld (fst (accept_friend_request 1 2 (store asked_world))) empty_registry.

(** *** Room membership *)

(** [user] has a row in [room_members] for [room]. *)
Definition is_member (user room : string) (s : Store) : bool :=
  existsb (is_member_row room user) (room_members s).

(** Who sends the request. *)
Definition actor (op : RoomOp) : string :=
  match op with
  | Create user _ _ _ _ => user
  | Join user _ _ _ => user
  | Leave user _ => user
  | Kick user _ _ => user
  | Delete user _ => user
  end.

(** Ascending, as [ORDER BY ... ASC] leaves a column of names. *)
Definition ascending (l : list string) : Prop :=
  Sorted (fun a b => String.leb a b = true) l.

(** Alice has made the room [r1]. *)
Definition alice_room : World :=
  room_step (fun p => p) (Create "alice" "r1" false None 1) empty_world.

(** *** Answers of the server loop *)

(** The connection [h] is registered and its peer is there. *)
Definition open_connection (h : nat) (w : World) : Prop :=
  exists wire, wires (registry w) !! h = Some wire /\ wire_closed wire = false.

(** The world after [frame] has been written to the connection [h]. *)
Definition written (h : nat) (frame : bytes) (w : World) : World :=
  match write_frame h frame (registry w) with
  | Some r => set_registry r w
  | None => w
  end.

(** No handler is registered for the command of the message. *)
Definition unrouted (handlers : string -> option Handler) (fields : list (string * json))
  : bool :=
  match assoc_get "command" fields with
  | Some (JStr command) =>
      match handlers command with
      | Some _ => false
      | None => true
      end
  | _ => true
  end.

(** The error response to a request with the given [id], [timestamp],
    [command] and [headers]. *)
Definition error_envelope (id timestamp command : json) (headers : list (string * json))
    (e : ProtocolError) : json :=
  JObj [("id", id); ("type", JStr "response"); ("timestamp", timestamp);
        ("command", command); ("headers", JObj headers); ("payload", to_payload e)].

(** A request for a command nobody handles, and one for [message/send]. *)
Definition ping_request : list (string * json) :=
  [("id", JStr "9"); ("type", JStr "request"); ("timestamp", JInt 1);
   ("command", JStr "ping"); ("headers", JObj [("version", JStr "1.0")]);
   ("payload", JObj [])].

Definition send_request : list (string * json) :=
  [("id", JStr "10"); ("type", JStr "request"); ("timestamp", JInt 1);
   ("command", JStr "message/send"); ("headers", JObj [("version", JStr "1.0")]);
   ("payload", JObj [])].

(** A handler that refuses every request as unauthenticated, registered for
    [message/send] alone. *)
Definition refusing_handlers (command : string) : option Handler :=
  if String.eqb command "message/send"
  then Some (fun _ _ w =>
               (w, Raise (mkProtocolError StatusCode.UNAUTHORIZED None "Unauthenticated")))
  else None.

(** *** The offline dispatcher *)

(** [encode_msg] accepts the event. *)
Definition encodable {rt : Runtime} (event : json) : bool :=
  match encode_msg event with
  | Ok _ => true
  | _ => false
  end.

(** Two messages wait for carol, who has no connection. *)
Definition carol_waiting : World :=
  mkWorld (enqueue_all [("carol", JStr "one", 1); ("carol", JStr "two", 2)] empty_store)
          empty_registry.

(** The same two messages, and carol logged in on connection 1. *)
Definition carol_online : World :=
  mkWorld (store carol_waiting)
          (bind_user 1 (register 1 (mkContext "peer" (Some "carol") (Some "t") 0)
                                 empty_registry)).

(** *** The index of the voice service *)

(** No active call has ended, and the index names a call for a user exactly
    when the user is a participant of that call. *)
Definition voice_inv (st : VoiceService.State) : Prop :=
  (forall c call, VoiceService.active_calls st !! c = Some call ->
                  VoiceService.status call <> "ended")
  /\ forall u c, VoiceService.user_to_call st !! u = Some c
                 <-> exists call, VoiceService.active_calls st !! c = Some call
                                  /\ u ∈ VoiceService.participants call.

(** What the handlers leave to the clients: a [voice/call] comes with an id
    that no active call has, and a [voice/answer] comes from a user whom the
    index does not place in another call. *)
Definition voice_guard (op : VoiceOp) (st : VoiceService.State) : bool :=
  match op with
  | VCall _ id _ _ _ =>
      match VoiceService.active_calls st !! id with
      | Some _ => false
      | None => true
      end
  | VAnswer user call =>
      match VoiceService.user_to_call st !! user with
      | Some c => String.eqb c call
      | None => true
      end
  | _ => true
  end.

Fixpoint voice_guarded (now : Z) (ops : list VoiceOp) (st : VoiceService.State) : bool :=
  match ops with
  | [] => true
  | op :: rest => voice_guard op st && voice_guarded now rest (voice_step now op st)
  end.

(** *** Sessions *)

(** The session table has a row for the token. *)
Definition has_session (token : string) (s : Store) : bool :=
  existsb (fun r => String.eqb (s_token r) token) (sessions s).

(** Alice is registered, and connection 1 is open with nobody logged in. *)
Definition alice_registered : World :=
  mkWorld (set_users [mkUser "alice" "h" 1] empty_store) (registry one_connection).

End Spec.

(* ===================================================================== *)
(** * Part II: properties *)
(* ===================================================================== *)

(** ** The JSON codec *)

Section JsonFacts.
Import Json Spec.


Lemma escape_char_scan (c : ascii) (tail : bytes) :
scanstring (escape_char c ++ tail) = prepend [c] (scanstring tail).
Proof. destruct c as [[] [] [] [] [] [] [] []]; reflexivity. Qed.

Lemma scanstring_escape (l rest : bytes) :
scanstring (escape l ++ dq :: rest) = Parsed l rest.
Proof.
induction l as [|c l IH]; simpl; [reflexivity|].
rewrite <- app_assoc, escape_char_scan, IH. reflexivity.
Qed.

Lemma delimited_not_digit rest :
delimited rest -> match rest with c :: _ => digit_ctor c = None | [] => True end.
Proof. destruct rest as [|c t]; simpl; [auto|]. intros [->|[->| ->]]; reflexivity. Qed.

Lemma delimited_float_tail rest : delimited rest -> float_tail rest = false.
Proof.
destruct rest as [|c [|d t]]; simpl; try reflexivity.
intros [->|[->| ->]]; reflexivity.
Qed.

Lemma delimited_skip_ws rest : delimited rest -> skip_ws rest = rest.
Proof. destruct rest as [|c t]; simpl; [auto|]. intros [->|[->| ->]]; reflexivity. Qed.

Lemma scan_digits_chars (u : uint) (rest : bytes) :
match rest with c :: _ => digit_ctor c = None | [] => True end ->
scan_digits (uint_chars u ++ rest) = (u, rest).
Proof.
intros Hrest.
induction u as [|u IH|u IH|u IH|u IH|u IH|u IH|u IH|u IH|u IH|u IH];
  try (simpl; change (digit_ctor _) with (Some D0) || idtac; rewrite IH; reflexivity).
simpl. destruct rest as [|c t]; simpl; [reflexivity|]. now rewrite Hrest.
Qed.

Lemma to_uint_head (p : positive) :
exists c t, uint_chars (Pos.to_uint p) = c :: t
            /\ is_digit c = true /\ Ascii.eqb c "0"%char = false.
Proof.
assert (Hn : unorm (Pos.to_uint p) = Pos.to_uint p).
{ rewrite <- (DecimalPos.Unsigned.to_of (Pos.to_uint p)).
  now rewrite DecimalPos.Unsigned.of_to. }
pose proof (DecimalPos.Unsigned.to_uint_nonzero p) as Hz.
pose proof (DecimalPos.Unsigned.to_uint_nonnil p) as Hnil.
destruct (Pos.to_uint p) as [|u|u|u|u|u|u|u|u|u|u] eqn:E;
  try (simpl; eexists _, _; split; [reflexivity|split; reflexivity]).
- congruence.
- exfalso. rewrite unorm_D0 in Hn.
  destruct u as [|u|u|u|u|u|u|u|u|u|u]; try (apply Hz; reflexivity);
    match type of Hn with unorm ?d = _ =>
      pose proof (nb_digits_unorm d ltac:(discriminate)) as Hle;
      rewrite Hn in Hle; simpl in Hle; lia
    end.
Qed.

Lemma scan_natural_pos (p : positive) (rest : bytes) :
delimited rest ->
scan_natural (uint_chars (Pos.to_uint p) ++ rest)
= if (MAX_STR_DIGITS <? int_digits (Zpos p))%N then Raises IntLimit
  else Parsed (N.pos p) rest.
Proof.
intros Hd. destruct (to_uint_head p) as (c & t & E & Hdig & Hz).
unfold scan_natural. rewrite E. simpl app. lazy beta iota. rewrite Hz, Hdig.
change (c :: t ++ rest) with ((c :: t) ++ rest). rewrite <- E.
rewrite scan_digits_chars by now apply delimited_not_digit.
rewrite delimited_float_tail by assumption. cbn [int_digits].
destruct (MAX_STR_DIGITS <? _)%N; [reflexivity|].
f_equal. apply DecimalPos.Unsigned.of_to.
Qed.

Lemma json_ind (P : json -> Prop)
  (HNull : P JNull) (HBool : forall b, P (JBool b)) (HInt : forall z, P (JInt z))
  (HStr : forall s, P (JStr s))
  (HArr : forall items, Forall P items -> P (JArr items))
  (HObj : forall fields, Forall (fun kv => P (snd kv)) fields -> P (JObj fields)) :
forall v, P v.
Proof.
exact (fix IH (v : json) : P v :=
  match v with
  | JNull => HNull
  | JBool b => HBool b
  | JInt z => HInt z
  | JStr s => HStr s
  | JArr items =>
      HArr items
        ((fix all (l : list json) : Forall P l :=
            match l with
            | [] => @List.Forall_nil _ P
            | x :: r => @List.Forall_cons _ P x r (IH x) (all r)
            end) items)
  | JObj fields =>
      HObj fields
        ((fix all (l : list (string * json)) : Forall (fun kv => P (snd kv)) l :=
            match l with
            | [] => @List.Forall_nil _ _
            | kv :: r => @List.Forall_cons _ _ kv r (IH (snd kv)) (all r)
            end) fields)
  end).
Qed.

Lemma dumps_head (v : json) :
exists c t, dumps v = c :: t /\ opens_value c.
Proof.
destruct v as [|[]|[|p|p]|s|items|fields]; simpl;
  try (eexists _, _; split; [reflexivity|repeat split; reflexivity]).
- destruct (to_uint_head p) as (c & t & E & Hd & _). rewrite E.
  exists c, t. split; [reflexivity|].
  unfold is_digit in Hd. destruct c as [[] [] [] [] [] [] [] []];
    try discriminate Hd; repeat split; reflexivity.
Qed.

Lemma skip_ws_dumps (v : json) (rest : bytes) :
skip_ws (dumps v ++ rest) = dumps v ++ rest.
Proof.
destruct (dumps_head v) as (c & t & E & Hws & _). rewrite E. simpl. now rewrite Hws.
Qed.

Lemma assoc_set_fresh k v (d : list (string * json)) :
existsb (String.eqb k) (map fst d) = false -> assoc_set k v d = d ++ [(k, v)].
Proof.
induction d as [|[k' v'] d IH]; simpl; [reflexivity|].
intros H. apply orb_false_iff in H as [H1 H2]. rewrite H1. now rewrite IH.
Qed.

Lemma dict_of_pairs_distinct (l : list (string * json)) :
distinct (map fst l) = true -> dict_of_pairs l = l.
Proof.
unfold dict_of_pairs.
enough (H : forall acc,
           distinct (map fst (acc ++ l)) = true ->
           fold_left (fun d kv => assoc_set (fst kv) (snd kv) d) l acc = acc ++ l)
  by (intros; now apply (H [])).
induction l as [|[k v] l IH]; intros acc Hd; simpl.
- now rewrite app_nil_r.
- rewrite assoc_set_fresh.
  + rewrite IH; rewrite <- app_assoc; [reflexivity|exact Hd].
  + clear IH. induction acc as [|[k' v'] acc IHacc]; simpl in *; [reflexivity|].
    apply andb_true_iff in Hd as [Hk Hd]. rewrite (IHacc Hd), orb_false_r.
    apply negb_true_iff in Hk. rewrite map_app, existsb_app in Hk.
    apply orb_false_iff in Hk as [_ Hk]. simpl in Hk.
    apply orb_false_iff in Hk as [Hk _]. now rewrite String.eqb_sym.
Qed.

Lemma join_with_one sep (p : bytes) : join_with sep [p] = p ++ [].
Proof. reflexivity. Qed.

Lemma join_with_more sep (p q : bytes) (r : list bytes) :
join_with sep (p :: q :: r) = p ++ sep :: join_with sep (q :: r).
Proof. reflexivity. Qed.

Lemma parse_elements_step f d s :
parse_elements (S f) d s =
match parse_value f d s with
| Parsed v rest =>
    match skip_ws rest with
    | c :: t =>
        if Ascii.eqb c "]"%char then Parsed [v] t
        else if Ascii.eqb c ","%char then
          pmap (cons v) (parse_elements f d (skip_ws t))
        else Malformed
    | [] => Malformed
    end
| Malformed => Malformed
| Raises x => Raises x
| Unmodelled => Unmodelled
end.
Proof. reflexivity. Qed.

Lemma pmap_read_back {A B : Type} (g : A -> B) (flt : option fault) (v : A)
    (rest : bytes) :
pmap g (read_back flt v rest) = read_back flt (g v) rest.
Proof. destruct flt; reflexivity. Qed.

Lemma parse_elements_dumps (l : list json) :
l <> [] -> Forall reads_back l -> forallb keys_unique l = true ->
forall fuel depth rest,
  (list_sum (map (fun x => S (jsize x)) l) <= fuel)%nat ->
  parse_elements fuel depth (join_with ","%char (map dumps l) ++ "]"%char :: rest)
  = read_back (first_fault (map (dumps_fault depth) l)) l rest.
Proof.
intros Hne HP. induction HP as [|x r Hx Hr IH]; [congruence|clear Hne].
intros Hk fuel depth rest Hfuel. simpl in Hk. apply andb_true_iff in Hk as [Hkx Hkr].
simpl in Hfuel. destruct fuel as [|f]; [lia|].
rewrite parse_elements_step. cbn [map first_fault]. destruct r as [|y r'].
- cbn [map]. rewrite join_with_one, <- app_assoc. cbn [app].
  rewrite (Hx Hkx) by (simpl; auto; lia).
  destruct (dumps_fault depth x); reflexivity.
- cbn [map]. rewrite join_with_more, <- app_assoc. cbn [app].
  rewrite (Hx Hkx) by (simpl; auto; simpl in Hfuel; lia).
  destruct (dumps_fault depth x) as [flt|]; [reflexivity|]. cbn [read_back].
  cbn [skip_ws]. change (is_ws ","%char) with false. cbv iota.
  change (Ascii.eqb ","%char "]"%char) with false.
  change (Ascii.eqb ","%char ","%char) with true. cbv iota.
  change (dumps y :: map dumps r') with (map dumps (y :: r')).
  change (dumps_fault depth y :: map (dumps_fault depth) r')
    with (map (dumps_fault depth) (y :: r')).
  assert (Hskip : forall tail,
            skip_ws (join_with ","%char (map dumps (y :: r')) ++ tail)
            = join_with ","%char (map dumps (y :: r')) ++ tail).
  { intros tail. cbn [map]. destruct r' as [|z r''].
    - rewrite join_with_one, <- app_assoc. apply skip_ws_dumps.
    - cbn [map]. rewrite join_with_more, <- app_assoc. apply skip_ws_dumps. }
  rewrite Hskip, IH; [apply pmap_read_back|discriminate|exact Hkr|].
  simpl in Hfuel |- *. lia.
Qed.

Lemma parse_members_step f d s :
parse_members (S f) d s =
match pmap string_of_list_ascii (scanstring s) with
| Parsed key rest =>
    match skip_ws rest with
    | c :: t =>
        if Ascii.eqb c ":"%char then
          match parse_value f d (skip_ws t) with
          | Parsed v rest1 =>
              match skip_ws rest1 with
              | c1 :: t1 =>
                  if Ascii.eqb c1 "}"%char then Parsed [(key, v)] t1
                  else if Ascii.eqb c1 ","%char then
                    match skip_ws t1 with
                    | c2 :: t2 =>
                        if Ascii.eqb c2 dq
                        then pmap (cons (key, v)) (parse_members f d t2)
                        else Malformed
                    | [] => Malformed
                    end
                  else Malformed
              | [] => Malformed
              end
          | Malformed => Malformed
          | Raises x => Raises x
          | Unmodelled => Unmodelled
          end
        else Malformed
    | [] => Malformed
    end
| Malformed => Malformed
| Raises x => Raises x
| Unmodelled => Unmodelled
end.
Proof. reflexivity. Qed.

(** A printed member, without its opening quote, as [parse_members] meets it. *)
Lemma member_text (kv : string * json) (tail : bytes) :
member kv ++ tail
= dq :: escape (list_ascii_of_string (fst kv))
        ++ dq :: ":"%char :: dumps (snd kv) ++ tail.
Proof.
unfold member, dumps_str. cbn [app]. rewrite <- !app_assoc. reflexivity.
Qed.

Lemma members_text (l : list (string * json)) (tail : bytes) :
l <> [] ->
exists body, join_with ","%char (map member l) ++ tail = dq :: body.
Proof.
destruct l as [|kv [|kv' r]]; [congruence| |]; intros _; cbn [map].
- rewrite join_with_one, <- app_assoc, member_text. eauto.
- rewrite join_with_more, <- app_assoc, member_text. eauto.
Qed.

Lemma parse_members_dumps (l : list (string * json)) :
l <> [] -> Forall (fun kv => reads_back (snd kv)) l ->
forallb (fun kv => keys_unique (snd kv)) l = true ->
forall fuel depth rest,
  (list_sum (map (fun kv => S (jsize (snd kv))) l) <= fuel)%nat ->
  parse_members fuel depth (tl (join_with ","%char (map member l) ++ "}"%char :: rest))
  = read_back (first_fault (map (fun kv => dumps_fault depth (snd kv)) l)) l rest.
Proof.
intros Hne HP. induction HP as [|[k x] r Hx Hr IH]; [congruence|clear Hne].
intros Hk fuel depth rest Hfuel. simpl in Hk. apply andb_true_iff in Hk as [Hkx Hkr].
simpl in Hfuel, Hx, Hkx. destruct fuel as [|f]; [lia|].
rewrite parse_members_step. cbn [map first_fault snd]. destruct r as [|kv r'].
- cbn [map]. rewrite join_with_one, <- app_assoc, member_text. cbn [tl fst snd app].
  rewrite scanstring_escape. cbn [pmap]. rewrite string_of_list_ascii_of_string.
  cbn [skip_ws]. change (is_ws ":"%char) with false. cbv iota.
  change (Ascii.eqb ":"%char ":"%char) with true. cbv iota.
  rewrite skip_ws_dumps, (Hx Hkx) by (simpl; auto; lia).
  destruct (dumps_fault depth x); reflexivity.
- cbn [map]. rewrite join_with_more, <- app_assoc, member_text. cbn [tl fst snd].
  rewrite scanstring_escape. cbn [pmap]. rewrite string_of_list_ascii_of_string.
  cbn [skip_ws]. change (is_ws ":"%char) with false. cbv iota.
  change (Ascii.eqb ":"%char ":"%char) with true. cbv iota.
  cbn [app]. rewrite skip_ws_dumps, (Hx Hkx) by (simpl; auto; lia).
  destruct (dumps_fault depth x) as [flt|]; [reflexivity|]. cbn [read_back].
  cbn [skip_ws]. change (is_ws ","%char) with false. cbv iota.
  change (Ascii.eqb ","%char "}"%char) with false.
  change (Ascii.eqb ","%char ","%char) with true. cbv iota.
  change (member kv :: map member r') with (map member (kv :: r')).
  change (dumps_fault depth (snd kv) :: map (fun kv0 => dumps_fault depth (snd kv0)) r')
    with (map (fun kv0 => dumps_fault depth (snd kv0)) (kv :: r')).
  destruct (members_text (kv :: r') ("}"%char :: rest) ltac:(discriminate))
    as (body & Hbody).
  specialize (IH ltac:(discriminate) Hkr f depth rest).
  rewrite Hbody in IH |- *. cbn [tl] in IH.
  cbn [skip_ws]. change (is_ws dq) with false. cbv iota.
  change (Ascii.eqb dq dq) with true. cbv iota.
  rewrite IH; [apply pmap_read_back|]. simpl in Hfuel |- *. lia.
Qed.

Lemma parse_value_digit f d (c : ascii) (t : bytes) :
is_digit c = true ->
parse_value (S f) d (c :: t) = pmap (fun n => JInt (Z.of_N n)) (scan_natural (c :: t)).
Proof.
unfold is_digit.
destruct c as [[] [] [] [] [] [] [] []]; intros H; try discriminate H; reflexivity.
Qed.

Lemma parse_value_minus f d (t : bytes) :
parse_value (S f) d ("-"%char :: t) =
match scan_natural t with
| Parsed n rest => Parsed (JInt (- Z.of_N n)) rest
| Malformed => float_keyword "-Infinity" ("-"%char :: t)
| Raises x => Raises x
| Unmodelled => Unmodelled
end.
Proof. reflexivity. Qed.

Lemma parse_value_quote f d (t : bytes) :
parse_value (S f) d (dq :: t)
= pmap (fun b => JStr (string_of_list_ascii b)) (scanstring t).
Proof. reflexivity. Qed.

Lemma parse_value_array f d (t : bytes) :
parse_value (S f) (S d) ("["%char :: t) =
match skip_ws t with
| c1 :: t1 =>
    if Ascii.eqb c1 "]"%char then Parsed (JArr []) t1
    else pmap JArr (parse_elements f d (c1 :: t1))
| [] => Malformed
end.
Proof. reflexivity. Qed.

Lemma parse_value_object f d (t : bytes) :
parse_value (S f) (S d) ("{"%char :: t) =
match skip_ws t with
| c1 :: t1 =>
    if Ascii.eqb c1 "}"%char then Parsed (JObj []) t1
    else if Ascii.eqb c1 dq then
      pmap (fun pairs => JObj (dict_of_pairs pairs)) (parse_members f d t1)
    else Malformed
| [] => Malformed
end.
Proof. reflexivity. Qed.

Theorem parse_value_dumps (v : json) : reads_back v.
Proof.
induction v as [|b|z|s|items IH|fields IH] using json_ind;
  intros Hk fuel depth rest Hfuel Hd; (destruct fuel as [|f]; [simpl in Hfuel; lia|]).
- reflexivity.
- destruct b; reflexivity.
- destruct z as [|p|p].
  + cbn. now rewrite delimited_float_tail.
  + cbn [dumps dumps_int dumps_fault].
    destruct (to_uint_head p) as (c & t & E & Hdig & Hz).
    pose proof (scan_natural_pos p rest Hd) as Hs. rewrite E in Hs |- *.
    cbn [app] in Hs |- *. rewrite parse_value_digit, Hs by exact Hdig.
    change (int_digits (Z.neg p)) with (int_digits (Z.pos p)).
    destruct (MAX_STR_DIGITS <? int_digits (Z.pos p))%N; reflexivity.
  + cbn [dumps dumps_int app dumps_fault]. rewrite parse_value_minus.
    rewrite scan_natural_pos by exact Hd.
    change (int_digits (Z.neg p)) with (int_digits (Z.pos p)).
    destruct (MAX_STR_DIGITS <? int_digits (Z.pos p))%N; reflexivity.
- cbn [dumps dumps_str app dumps_fault read_back]. rewrite parse_value_quote.
  rewrite <- app_assoc. cbn [app]. rewrite scanstring_escape. cbn [pmap].
  now rewrite string_of_list_ascii_of_string.
- cbn [dumps app keys_unique jsize dumps_fault] in *.
  destruct depth as [|d]; [reflexivity|]. rewrite parse_value_array.
  destruct items as [|x r]; [reflexivity|].
  rewrite <- app_assoc. cbn [app].
  assert (Hskip : forall tail,
            skip_ws (join_with ","%char (map dumps (x :: r)) ++ tail)
            = join_with ","%char (map dumps (x :: r)) ++ tail).
  { intros tail. cbn [map]. destruct r as [|z r''].
    - rewrite join_with_one, <- app_assoc. apply skip_ws_dumps.
    - cbn [map]. rewrite join_with_more, <- app_assoc. apply skip_ws_dumps. }
  rewrite Hskip.
  pose proof (parse_elements_dumps (x :: r) ltac:(discriminate) IH Hk f d rest
                ltac:(lia)) as Hp.
  destruct (dumps_head x) as (c & t & E & _ & Hc & _).
  revert Hp.
  destruct r as [|y r']; cbn [map];
    [rewrite join_with_one|rewrite join_with_more];
    rewrite E; cbn [app]; rewrite Hc; intros ->; apply pmap_read_back.
- cbn [dumps app keys_unique jsize dumps_fault] in *.
  destruct depth as [|d]; [reflexivity|]. rewrite parse_value_object.
  apply andb_true_iff in Hk as [Hdist Hk].
  destruct fields as [|kv r]; [reflexivity|].
  rewrite <- app_assoc. cbn [app].
  change (map (fun kv0 => dumps_str (fst kv0) ++ ":"%char :: dumps (snd kv0)) (kv :: r))
    with (map member (kv :: r)).
  pose proof (parse_members_dumps (kv :: r) ltac:(discriminate) IH Hk f d rest
                ltac:(lia)) as Hp.
  destruct (members_text (kv :: r) ("}"%char :: rest) ltac:(discriminate))
    as (body & Hbody).
  rewrite Hbody in Hp |- *. cbn [tl] in Hp.
  cbn [skip_ws]. change (is_ws dq) with false. cbv iota.
  change (Ascii.eqb dq "}"%char) with false.
  change (Ascii.eqb dq dq) with true. cbv iota.
  rewrite Hp, pmap_read_back. now rewrite dict_of_pairs_distinct.
Qed.

End JsonFacts.

(** ** Sorting *)

Section SortingFacts.
Context {A : Type} (le : A -> A -> bool).

Lemma insert_sorted_perm (x : A) (l : list A) :
  Permutation (insert_sorted le x l) (x :: l).
Proof.
  induction l as [|y rest IH]; simpl; [reflexivity|].
  destruct (le x y); [reflexivity|].
  rewrite IH. apply perm_swap.
Qed.

Lemma sort_by_perm (l : list A) : Permutation (sort_by le l) l.
Proof.
  induction l as [|x rest IH]; simpl; [reflexivity|].
  rewrite insert_sorted_perm. now constructor.
Qed.

(** A list whose head is below everything after it, all the way down, is
    left as it is. *)
Lemma sort_by_sorted (l : list A) :
  StronglySorted (fun a b => le a b = true) l -> sort_by le l = l.
Proof.
  induction 1 as [|x rest Hs IH Hx]; simpl; [reflexivity|].
  rewrite IH. destruct rest as [|y rest']; simpl; [reflexivity|].
  inversion Hx as [|? ? Hxy _]; subst. now rewrite Hxy.
Qed.
End SortingFacts.

(** ** The offline queue *)

Section OfflineQueue.
Import SQLiteStore Spec.
Context {rt : Runtime}.

Lemma queue_wf_empty : queue_wf empty_store.
Proof. split; constructor. Qed.

Lemma queue_wf_enqueue u m now s :
  queue_wf s -> queue_wf (enqueue_offline_message u m now s).
Proof.
  intros [Hs Hb]. unfold queue_wf, enqueue_offline_message; simpl. split.
  - induction Hs as [|x rest Hs IH Hx]; simpl.
    + repeat constructor.
    + inversion Hb; subst. constructor; [auto|].
      apply Forall_app. split; [exact Hx|].
      constructor; [simpl; lia|constructor].
  - apply Forall_app. split.
    + eapply List.Forall_impl; [|exact Hb]. simpl. intros; lia.
    + constructor; [simpl; lia|constructor].
Qed.

Lemma queue_wf_enqueue_all ops s : queue_wf s -> queue_wf (enqueue_all ops s).
Proof.
  revert s. induction ops as [|op ops IH]; intros s H; simpl; [exact H|].
  apply IH, queue_wf_enqueue, H.
Qed.

Lemma pending_enqueue v u m now s :
  pending v (enqueue_offline_message u m now s)
  = pending v s
    ++ (if String.eqb u v then [mkOffline (offline_seq s + 1) u m now] else []).
Proof.
  unfold pending, enqueue_offline_message; simpl.
  rewrite List.filter_app. simpl. reflexivity.
Qed.

Lemma pending_enqueue_all v ops s :
  map o_message (pending v (enqueue_all ops s))
  = map o_message (pending v s) ++ events_for v ops.
Proof.
  revert s. induction ops as [|[[u m] now] ops IH]; intros s; simpl.
  - unfold events_for; simpl. now rewrite app_nil_r.
  - unfold enqueue_all in *. simpl. rewrite IH, pending_enqueue.
    unfold events_for; simpl. rewrite map_app, <- app_assoc.
    destruct (String.eqb u v); reflexivity.
Qed.

Lemma sorted_filter {A} (R : A -> A -> Prop) (p : A -> bool) l :
  StronglySorted R l -> StronglySorted R (List.filter p l).
Proof.
  induction 1 as [|x rest Hs IH Hx]; simpl; [constructor|].
  destruct (p x); [|exact IH]. constructor; [exact IH|].
  apply List.Forall_forall. intros y Hy. apply List.filter_In in Hy as [Hy _].
  rewrite List.Forall_forall in Hx. auto.
Qed.

Lemma sorted_weaken {A} (R R' : A -> A -> Prop) l :
  (forall a b, R a b -> R' a b) -> StronglySorted R l -> StronglySorted R' l.
Proof.
  intros HR. induction 1 as [|x rest Hs IH Hx]; constructor; [exact IH|].
  eapply List.Forall_impl; [|exact Hx]. auto.
Qed.

(** Under the id discipline [ORDER BY id ASC] returns the rows in table
    order. *)
Lemma select_offline_pending u s : queue_wf s -> select_offline u s = pending u s.
Proof.
  intros [Hs _]. unfold select_offline. apply sort_by_sorted.
  apply sorted_filter with (p := fun r => String.eqb (o_user_id r) u) in Hs.
  eapply sorted_weaken; [|exact Hs]. simpl. intros a b Hab.
  apply Z.leb_le. lia.
Qed.

Lemma sorted_ids_inj (l : list OfflineRow) (a b : OfflineRow) :
  StronglySorted (fun a b => o_id a < o_id b) l ->
  In a l -> In b l -> o_id a = o_id b -> a = b.
Proof.
  induction 1 as [|x rest Hs IH Hx]; simpl; [tauto|].
  rewrite List.Forall_forall in Hx.
  intros [->|Ha] [->|Hb] E; auto.
  - specialize (Hx _ Hb). lia.
  - specialize (Hx _ Ha). lia.
Qed.

(** Deleting the selected ids removes exactly the rows of that user. *)
Lemma delete_selected u s :
  queue_wf s ->
  List.filter (fun r => negb (existsb (Z.eqb (o_id r)) (map o_id (pending u s))))
              (offline_queue s)
  = List.filter (fun r => negb (String.eqb (o_user_id r) u)) (offline_queue s).
Proof.
  intros [Hs _]. apply List.filter_ext_in. intros r Hr. f_equal.
  destruct (String.eqb (o_user_id r) u) eqn:E.
  - apply existsb_exists. exists (o_id r). split; [|apply Z.eqb_refl].
    apply in_map. apply List.filter_In. auto.
  - apply not_true_is_false. intros H.
    apply existsb_exists in H as (i & Hi & Heq).
    apply Z.eqb_eq in Heq. apply in_map_iff in Hi as (r' & Hid & Hr').
    apply List.filter_In in Hr' as [Hr' Hu].
    assert (r' = r) by (eapply sorted_ids_inj; eauto; lia).
    subst r'. congruence.
Qed.

Lemma filter_filter_none {A} (p : A -> bool) (l : list A) :
  List.filter p (List.filter (fun x => negb (p x)) l) = [].
Proof.
  induction l as [|x l IH]; simpl; [reflexivity|].
  destruct (p x) eqn:E; simpl; [exact IH|]. now rewrite E.
Qed.

Lemma filter_filter_other (u v : string) (l : list OfflineRow) :
  v <> u ->
  List.filter (fun r => String.eqb (o_user_id r) v)
    (List.filter (fun r => negb (String.eqb (o_user_id r) u)) l)
  = List.filter (fun r => String.eqb (o_user_id r) v) l.
Proof.
  intros Hne. induction l as [|x l IH]; simpl; [reflexivity|].
  destruct (String.eqb (o_user_id x) u) eqn:Eu; simpl.
  - apply String.eqb_eq in Eu.
    destruct (String.eqb (o_user_id x) v) eqn:Ev; [|exact IH].
    apply String.eqb_eq in Ev. congruence.
  - now rewrite IH.
Qed.

(** One call of [consume_offline_messages] on a queue that one statement
    can name: every queued message of the user comes back, oldest first, and
    none of the user's rows is left; the rows of other users stay. *)
Lemma consume_spec u s :
  queue_wf s ->
  (length (pending u s) <= sqlite_max_variables)%nat ->
  fst (consume_offline_messages u s) = Ok (map o_message (pending u s))
  /\ pending u (snd (consume_offline_messages u s)) = []
  /\ (forall v, v <> u ->
       pending v (snd (consume_offline_messages u s)) = pending v s)
  /\ queue_wf (snd (consume_offline_messages u s)).
Proof.
  intros Hwf Hlen. unfold consume_offline_messages.
  rewrite (select_offline_pending u s Hwf).
  destruct (pending u s) as [|r rows] eqn:E.
  - simpl. rewrite E. auto.
  - rewrite <- E in Hlen |- *. rewrite length_map.
    apply Nat.ltb_ge in Hlen. rewrite Hlen. simpl fst; simpl snd.
    rewrite (delete_selected u s Hwf). unfold pending at 2 3 4; simpl.
    split; [reflexivity|]. split; [|split].
    + apply (filter_filter_none (fun r => String.eqb (o_user_id r) u)).
    + intros v Hv. now apply filter_filter_other.
    + destruct Hwf as [Hs Hb]. split; simpl.
      * now apply sorted_filter.
      * apply List.Forall_forall. intros x Hx.
        apply List.filter_In in Hx as [Hx _].
        rewrite List.Forall_forall in Hb. auto.
Qed.

(** One call on a longer queue: the [DELETE] is refused, and the queue is
    as it was. *)
Lemma consume_over_limit u s :
  queue_wf s ->
  (sqlite_max_variables < length (pending u s))%nat ->
  consume_offline_messages u s = (Crash "sqlite3.OperationalError", s).
Proof.
  intros Hwf Hlen. unfold consume_offline_messages.
  rewrite (select_offline_pending u s Hwf).
  destruct (pending u s) as [|r rows] eqn:E; [simpl in Hlen; lia|].
  rewrite <- E in Hlen |- *. rewrite length_map.
  apply Nat.ltb_lt in Hlen. now rewrite Hlen.
Qed.
End OfflineQueue.

(** C2, the divergence. After any run of [enqueue_offline_message] calls on
    a store whose queue follows the AUTOINCREMENT discipline, what one call
    of [consume_offline_messages U] does depends on how many rows wait for
    [U]. Up to the number of variables SQLite binds in one statement, it
    returns every message queued for [U] (those already waiting, then the
    events the run addressed to [U], in call order), leaves no row of [U]
    behind and no row of another user touched, and a second call right after
    returns the empty list and writes nothing. With one row more, the
    [DELETE ... WHERE id IN (?, ...)] is refused: the call raises
    [sqlite3.OperationalError], returns nothing and deletes nothing, so the
    next call meets the same queue and fails the same way. *)
Theorem consume_offline_messages_drains_fifo {rt : Runtime}
    (s : SQLiteStore.Store) (U : string) (ops : list (string * json * Z)) :
  Spec.queue_wf s ->
  let s1 := Spec.enqueue_all ops s in
  let waiting := length (Spec.pending U s1) in
  let res := SQLiteStore.consume_offline_messages U s1 in
  ((waiting <= sqlite_max_variables)%nat ->
   fst res = Ok (map SQLiteStore.o_message (Spec.pending U s) ++ Spec.events_for U ops)
   /\ Spec.pending U (snd res) = []
   /\ (forall V, V <> U -> Spec.pending V (snd res) = Spec.pending V s1)
   /\ SQLiteStore.consume_offline_messages U (snd res) = (Ok [], snd res))
  /\ ((sqlite_max_variables < waiting)%nat ->
      res = (Crash "sqlite3.OperationalError", s1)
      /\ SQLiteStore.consume_offline_messages U (snd res) = res).
Proof.
  intros Hwf s1 waiting res.
  pose proof (queue_wf_enqueue_all ops s Hwf) as Hwf1. fold s1 in Hwf1.
  split.
  - intros Hlen.
    destruct (consume_spec U s1 Hwf1 Hlen) as (Hget & Hgone & Hother & Hwf2).
    fold res in Hget, Hgone, Hother, Hwf2.
    split; [|split; [exact Hgone|split; [exact Hother|]]].
    + rewrite Hget. f_equal. apply pending_enqueue_all.
    + unfold SQLiteStore.consume_offline_messages.
      rewrite (select_offline_pending U (snd res) Hwf2), Hgone. reflexivity.
  - intros Hlen. pose proof (consume_over_limit U s1 Hwf1 Hlen) as Hres.
    fold res in Hres. split; [exact Hres|]. rewrite Hres. exact Hres.
Qed.

(** Two runs on the empty store, with SQLite binding at most 999 variables:
    two events for alice around one for bob, which one call drains in
    order; and a thousand events for alice, which no call drains. *)
Lemma consume_offline_messages_drains_fifo_witness :
  Spec.queue_wf SQLiteStore.empty_store
  /\ fst (SQLiteStore.consume_offline_messages "alice"
            (Spec.enqueue_all
               [("alice", JStr "m1", 1); ("bob", JStr "m3", 2); ("alice", JStr "m2", 3)]
               SQLiteStore.empty_store))
     = Ok [JStr "m1"; JStr "m2"]
  /\ SQLiteStore.consume_offline_messages "alice"
       (Spec.enqueue_all (repeat ("alice", JStr "m", 1) 1000) SQLiteStore.empty_store)
     = (Crash "sqlite3.OperationalError",
        Spec.enqueue_all (repeat ("alice", JStr "m", 1) 1000) SQLiteStore.empty_store).
Proof.
  split; [apply queue_wf_empty|]. split.
  - refine (proj1 (proj1 (consume_offline_messages_drains_fifo SQLiteStore.empty_store
                            "alice"
                            [("alice", JStr "m1", 1); ("bob", JStr "m3", 2);
                             ("alice", JStr "m2", 3)]
                            queue_wf_empty) _)).
    vm_compute. lia.
  - refine (proj1 (proj2 (consume_offline_messages_drains_fifo SQLiteStore.empty_store
                            "alice" (repeat ("alice", JStr "m", 1) 1000)
                            queue_wf_empty) _)).
    apply Nat.ltb_lt. vm_compute. reflexivity.
Defined.

(** ** Framing *)

Section FramingFacts.
Import Json Framing Spec.
Context {rt : Runtime}.

Lemma list_sum_join (A : Type) (size : A -> nat) (print : A -> bytes) (l : list A) :
  Forall (fun x => (size x <= length (print x))%nat) l ->
  (list_sum (map (fun x => S (size x)) l)
   <= S (length (join_with ","%char (map print l))))%nat.
Proof.
  induction 1 as [|x r Hx Hr IH]; [simpl; lia|].
  destruct r as [|y r'].
  - simpl. rewrite app_nil_r. lia.
  - cbn [map]. rewrite join_with_more. cbn [map] in IH.
    rewrite length_app. cbn [length list_sum] in *. simpl in IH |- *. lia.
Qed.

(** The fuel [loads] starts with covers any printed value. *)
Lemma jsize_dumps (v : json) : (jsize v <= length (dumps v))%nat.
Proof.
  induction v as [|b|z|s|items IH|fields IH] using json_ind.
  - simpl; lia.
  - destruct b; simpl; lia.
  - destruct z as [|p|p]; simpl; try lia.
    + destruct (to_uint_head p) as (c & t & E & _). rewrite E. simpl; lia.
  - simpl; lia.
  - cbn [jsize dumps]. pose proof (list_sum_join _ jsize dumps items IH).
    cbn [length]. rewrite length_app. simpl. lia.
  - cbn [jsize dumps].
    assert (H : Forall (fun kv => (jsize (snd kv) <= length (member kv))%nat) fields).
    { eapply List.Forall_impl; [|exact IH]. intros kv Hkv. unfold member.
      rewrite length_app. cbn [length]. cbv beta in Hkv. lia. }
    pose proof (list_sum_join _ (fun kv => jsize (snd kv)) member fields H).
    change (map (fun kv => dumps_str (fst kv) ++ ":"%char :: dumps (snd kv)) fields)
      with (map member fields).
    cbn [length]. rewrite length_app. cbn [length]. cbv beta in H0. lia.
Qed.

(** [json.loads(json.dumps(v)) == v], when the two get through: what stops
    [json.dumps] on the value stops [json.loads] on its text. *)
Theorem loads_dumps (v : json) (depth : nat) :
  keys_unique v = true ->
  loads depth (dumps v) = read_back (dumps_fault depth v) v [].
Proof.
  intros Hk. unfold loads.
  rewrite <- (app_nil_r (dumps v)) at 2. rewrite skip_ws_dumps.
  rewrite (parse_value_dumps v Hk) by (simpl; auto; pose proof (jsize_dumps v); lia).
  destruct (dumps_fault depth v); reflexivity.
Qed.

(** *** The printed text holds no delimiter *)

Lemma escape_char_no_delimiter (c : ascii) : no_delimiter (escape_char c) = true.
Proof. destruct c as [[] [] [] [] [] [] [] []]; reflexivity. Qed.

Lemma escape_no_delimiter (l : bytes) : no_delimiter (escape l) = true.
Proof.
  induction l as [|c l IH]; [reflexivity|]. cbn [escape]. unfold no_delimiter.
  rewrite forallb_app. fold (no_delimiter (escape_char c)) (no_delimiter (escape l)).
  now rewrite escape_char_no_delimiter, IH.
Qed.

Lemma uint_chars_plain (u : uint) :
  no_delimiter (uint_chars u) = true /\ forallb is_ascii (uint_chars u) = true.
Proof.
  induction u as [|u [IH1 IH2]|u [IH1 IH2]|u [IH1 IH2]|u [IH1 IH2]|u [IH1 IH2]
                  |u [IH1 IH2]|u [IH1 IH2]|u [IH1 IH2]|u [IH1 IH2]|u [IH1 IH2]];
    split; try reflexivity; cbn [uint_chars no_delimiter forallb];
    try (fold (no_delimiter (uint_chars u))); rewrite ?IH1, ?IH2; reflexivity.
Qed.

Lemma join_no_delimiter (parts : list bytes) :
  Forall (fun p => no_delimiter p = true) parts ->
  no_delimiter (join_with ","%char parts) = true.
Proof.
  induction 1 as [|p r Hp Hr IH]; [reflexivity|]. destruct r as [|q r'].
  - rewrite join_with_one, app_nil_r. exact Hp.
  - rewrite join_with_more. unfold no_delimiter in *.
    rewrite forallb_app, Hp. cbn [forallb]. now rewrite IH.
Qed.

Lemma dumps_str_no_delimiter (s : string) : no_delimiter (dumps_str s) = true.
Proof.
  unfold dumps_str, no_delimiter. cbn [forallb]. rewrite forallb_app.
  fold (no_delimiter (escape (list_ascii_of_string s))).
  now rewrite escape_no_delimiter.
Qed.

Lemma dumps_no_delimiter (v : json) : no_delimiter (dumps v) = true.
Proof.
  induction v as [|b|z|s|items IH|fields IH] using json_ind.
  - reflexivity.
  - destruct b; reflexivity.
  - destruct z as [|p|p]; [reflexivity| |]; cbn [dumps dumps_int].
    + apply uint_chars_plain.
    + unfold no_delimiter. cbn [forallb]. apply (uint_chars_plain (Pos.to_uint p)).
  - apply dumps_str_no_delimiter.
  - cbn [dumps]. unfold no_delimiter. cbn [forallb]. rewrite forallb_app.
    fold (no_delimiter (join_with ","%char (map dumps items))).
    rewrite join_no_delimiter; [reflexivity|].
    apply List.Forall_map. exact IH.
  - cbn [dumps]. unfold no_delimiter. cbn [forallb]. rewrite forallb_app.
    match goal with |- context [forallb _ (join_with ?c ?l)] =>
      fold (no_delimiter (join_with c l)) end.
    rewrite join_no_delimiter; [reflexivity|].
    apply List.Forall_map. eapply List.Forall_impl; [|exact IH].
    intros kv Hkv. cbv beta in Hkv |- *. unfold no_delimiter in *.
    rewrite forallb_app. fold (no_delimiter (dumps_str (fst kv))).
    rewrite dumps_str_no_delimiter. cbn [forallb]. now rewrite Hkv.
Qed.

Lemma rstrip_delimiter (s : bytes) :
  no_delimiter s = true -> rstrip FRAME_DELIMITER (s ++ [FRAME_DELIMITER]) = s.
Proof.
  induction s as [|x t IH]; [reflexivity|]. cbn [no_delimiter forallb].
  intros H. apply andb_true_iff in H as [Hx Ht]. cbn [app rstrip].
  rewrite (IH Ht). apply negb_true_iff in Hx. destruct t; [now rewrite Hx|reflexivity].
Qed.

(** *** The printed text is well-formed UTF-8 *)

Lemma ascii_prefix (a b : bytes) :
  forallb is_ascii a = true -> utf8_valid (a ++ b) = utf8_valid b.
Proof.
  induction a as [|c a IH]; [reflexivity|]. cbn [forallb]. intros H.
  apply andb_true_iff in H as [Hc Ha]. cbn [app utf8_valid].
  unfold is_ascii in Hc. rewrite Hc. auto.
Qed.

Lemma escape_char_ascii (c : ascii) :
  is_ascii c = true -> forallb is_ascii (escape_char c) = true.
Proof. destruct c as [[] [] [] [] [] [] [] []]; intros H; try discriminate H; reflexivity. Qed.

Lemma escape_char_high (c : ascii) : is_ascii c = false -> escape_char c = [c].
Proof. destruct c as [[] [] [] [] [] [] [] []]; intros H; try discriminate H; reflexivity. Qed.

Lemma in_range_high (lo hi : N) (c : ascii) :
  (128 <= lo)%N -> in_range lo hi c = true -> is_ascii c = false.
Proof.
  unfold is_ascii, in_range. intros Hlo H.
  apply andb_true_iff in H as [H1 _]. apply N.leb_le in H1.
  apply andb_false_iff. right. apply N.leb_gt. lia.
Qed.

Lemma continuation_high (c : ascii) : continuation c = true -> is_ascii c = false.
Proof. apply in_range_high. lia. Qed.

Lemma second_of_three_high (b0 b1 : ascii) :
  second_of_three b0 b1 = true -> is_ascii b1 = false.
Proof.
  unfold second_of_three, continuation.
  destruct (N_of_ascii b0 =? 224)%N; [|destruct (N_of_ascii b0 =? 237)%N];
    apply in_range_high; lia.
Qed.

Lemma second_of_four_high (b0 b1 : ascii) :
  second_of_four b0 b1 = true -> is_ascii b1 = false.
Proof.
  unfold second_of_four, continuation.
  destruct (N_of_ascii b0 =? 240)%N; [|destruct (N_of_ascii b0 =? 244)%N];
    apply in_range_high; lia.
Qed.

(** Escaping leaves every multi-byte sequence whole. *)
Lemma escape_valid (n : nat) :
  forall (l rest : bytes), (length l <= n)%nat ->
    utf8_valid l = true -> utf8_valid rest = true ->
    utf8_valid (escape l ++ rest) = true.
Proof.
  induction n as [|n IH]; intros l rest Hlen Hl Hr.
  { destruct l; [exact Hr|simpl in Hlen; lia]. }
  destruct l as [|b0 t]; [exact Hr|].
  cbn [utf8_valid] in Hl. cbn [escape length] in *. rewrite <- app_assoc.
  destruct (in_range 0 127 b0) eqn:E0.
  { rewrite ascii_prefix by now apply escape_char_ascii. apply IH; [lia|auto..]. }
  rewrite (escape_char_high b0 E0). cbn [app utf8_valid]. rewrite E0.
  destruct (in_range 194 223 b0).
  { destruct t as [|b1 t1]; [discriminate|].
    apply andb_true_iff in Hl as [H1 Ht]. cbn [escape length] in *.
    rewrite (escape_char_high b1 (continuation_high _ H1)). cbn [app].
    rewrite H1. apply IH; [lia|auto..]. }
  destruct (in_range 224 239 b0).
  { destruct t as [|b1 [|b2 t2]]; try discriminate.
    apply andb_true_iff in Hl as [Hl Ht]. apply andb_true_iff in Hl as [H1 H2].
    cbn [escape length] in *.
    rewrite (escape_char_high b1 (second_of_three_high _ _ H1)).
    rewrite (escape_char_high b2 (continuation_high _ H2)). cbn [app].
    rewrite H1, H2. apply IH; [lia|auto..]. }
  destruct (in_range 240 244 b0); [|discriminate].
  destruct t as [|b1 [|b2 [|b3 t3]]]; try discriminate.
  apply andb_true_iff in Hl as [Hl Ht]. apply andb_true_iff in Hl as [Hl H3].
  apply andb_true_iff in Hl as [H1 H2]. cbn [escape length] in *.
  rewrite (escape_char_high b1 (second_of_four_high _ _ H1)).
  rewrite (escape_char_high b2 (continuation_high _ H2)).
  rewrite (escape_char_high b3 (continuation_high _ H3)). cbn [app].
  rewrite H1, H2, H3. apply IH; [lia|auto..].
Qed.

Lemma dumps_str_valid (s : string) (rest : bytes) :
  utf8_valid (list_ascii_of_string s) = true -> utf8_valid rest = true ->
  utf8_valid (dumps_str s ++ rest) = true.
Proof.
  intros Hs Hr. unfold dumps_str. cbn [app]. rewrite <- app_assoc.
  change (utf8_valid (dq :: ?x)) with (utf8_valid x).
  eapply escape_valid; [reflexivity|exact Hs|exact Hr].
Qed.

(** The statement proved by induction: printed text may be put before any
    well-formed text. *)
Lemma join_valid (A : Type) (print : A -> bytes) (ok : A -> bool) (l : list A) :
  Forall (fun x => ok x = true ->
                   forall rest, utf8_valid rest = true ->
                                utf8_valid (print x ++ rest) = true) l ->
  forallb ok l = true ->
  forall rest, utf8_valid rest = true ->
    utf8_valid (join_with ","%char (map print l) ++ rest) = true.
Proof.
  induction 1 as [|x r Hx Hr IH]; intros Hok rest Hrest; [exact Hrest|].
  cbn [forallb] in Hok. apply andb_true_iff in Hok as [Hokx Hokr].
  destruct r as [|y r'].
  - cbn [map]. rewrite join_with_one, app_nil_r. auto.
  - cbn [map]. rewrite join_with_more, <- app_assoc. apply Hx; [exact Hokx|].
    cbn [app]. change (utf8_valid (","%char :: ?x)) with (utf8_valid x).
    apply (IH Hokr). exact Hrest.
Qed.

Lemma dumps_valid (v : json) :
  text_valid v = true ->
  forall rest, utf8_valid rest = true -> utf8_valid (dumps v ++ rest) = true.
Proof.
  induction v as [|b|z|s|items IH|fields IH] using json_ind; intros Hv rest Hr.
  - exact Hr.
  - destruct b; exact Hr.
  - rewrite ascii_prefix; [exact Hr|].
    destruct z as [|p|p]; [reflexivity| |]; cbn [dumps dumps_int forallb];
      apply (uint_chars_plain (Pos.to_uint p)).
  - now apply dumps_str_valid.
  - cbn [dumps text_valid] in *. cbn [app]. rewrite <- app_assoc.
    change (utf8_valid ("["%char :: ?x)) with (utf8_valid x).
    apply (join_valid _ dumps text_valid items IH Hv). exact Hr.
  - cbn [dumps text_valid] in *. cbn [app]. rewrite <- app_assoc.
    change (utf8_valid ("{"%char :: ?x)) with (utf8_valid x).
    apply (join_valid _ _ (fun kv => utf8_valid (list_ascii_of_string (fst kv))
                                     && text_valid (snd kv)) fields);
      [|exact Hv|exact Hr].
    eapply List.Forall_impl; [|exact IH]. intros kv Hkv Hok tail Htail.
    apply andb_true_iff in Hok as [Hkey Hval]. rewrite <- app_assoc.
    apply dumps_str_valid; [exact Hkey|]. cbn [app].
    change (utf8_valid (":"%char :: ?x)) with (utf8_valid x). now apply Hkv.
Qed.

(** What [encode_msg] does with a value the [json] module takes. *)
Lemma encode_msg_within (m : json) :
  within_limits m = true ->
  encode_msg m
  = if (MAX_PAYLOAD_SIZE <? N.of_nat (length (dumps m)))%N
    then Raise (bad_request "Payload too large for control channel")
    else Ok (dumps m ++ [FRAME_DELIMITER]).
Proof.
  unfold within_limits, encode_msg.
  destruct (dumps_fault recursion_budget m); [discriminate|reflexivity].
Qed.


(** [decode_msg] on printed text and the delimiter. *)
Lemma decode_msg_dumps (m : json) :
  keys_unique m = true ->
  utf8_valid (dumps m) = true ->
  decode_msg (dumps m ++ [FRAME_DELIMITER])
  = match dumps_fault recursion_budget m with
    | None => Decoded m
    | Some f => DecodeCrash (exception_of f)
    end.
Proof.
  intros Hk Ht. unfold decode_msg.
  rewrite rstrip_delimiter by apply dumps_no_delimiter.
  rewrite Ht, (loads_dumps m recursion_budget Hk).
  destruct (dumps_fault recursion_budget m); reflexivity.
Qed.

(** *** Compact text is printed text *)










End FramingFacts.




(** ** The message service *)

Section Delivery.
Import Json Framing SQLiteStore ConnectionManager MessageService Spec.
Context {rt : Runtime}.

Lemma live_unfold u ev r :
  live u ev r =
  match by_user r !! u with
  | Some h =>
      match encode_msg ev with
      | Ok _ =>
          match wires r !! h with
          | Some wire => negb (wire_closed wire)
          | None => false
          end
      | _ => false
      end
  | None => false
  end.
Proof.
  unfold live, send_to_user, write_frame.
  destruct (by_user r !! u) as [h|]; [|reflexivity].
  destruct (encode_msg ev); try reflexivity.
  destruct (wires r !! h) as [wire|]; [|reflexivity].
  destruct (wire_closed wire); reflexivity.
Qed.

(** One [send_to_user]: the indexes stay, and the frame, if written, is
    the last on the user's connection. *)
Lemma send_to_user_effect u ev r :
  let r' := fst (send_to_user u ev r) in
  by_user r' = by_user r
  /\ (forall h, wire_closed <$> (wires r' !! h) = wire_closed <$> (wires r !! h))
  /\ (forall h,
        match wires r' !! h with Some x => wire_sent x | None => [] end
        = match wires r !! h with Some x => wire_sent x | None => [] end
          ++ (if bool_decide (by_user r !! u = Some h) && live u ev r
              then [frame_of ev] else [])).
Proof.
  rewrite live_unfold. unfold send_to_user, write_frame, frame_of.
  destruct (by_user r !! u) as [h0|] eqn:Hu; cbn [fst];
    [|repeat split; intros; cbn; now rewrite ?app_nil_r].
  destruct (encode_msg ev) as [frame| |]; cbn [fst];
    try (repeat split; intros; rewrite andb_false_r; now rewrite app_nil_r).
  destruct (wires r !! h0) as [wire|] eqn:Hw; cbn [fst];
    [|repeat split; intros; rewrite andb_false_r; now rewrite app_nil_r].
  destruct (wire_closed wire) eqn:Hc; cbn [fst negb];
    [repeat split; intros; rewrite andb_false_r; now rewrite app_nil_r|].
  cbn [by_user wires set_wires]. split; [reflexivity|]. split; intros h.
  - destruct (decide (h0 = h)) as [->|Hne].
    + rewrite lookup_insert_eq, Hw. cbn. now rewrite Hc.
    + now rewrite lookup_insert_ne.
  - destruct (decide (h0 = h)) as [->|Hne].
    + rewrite lookup_insert_eq, Hw. cbn [wire_sent].
      rewrite bool_decide_eq_true_2 by reflexivity. reflexivity.
    + rewrite lookup_insert_ne by exact Hne.
      rewrite bool_decide_eq_false_2 by congruence. cbn. now rewrite app_nil_r.
Qed.

Lemma live_same r r' :
  by_user r' = by_user r ->
  (forall h, wire_closed <$> (wires r' !! h) = wire_closed <$> (wires r !! h)) ->
  forall u ev, live u ev r' = live u ev r.
Proof.
  intros Hb Hw u ev. rewrite !live_unfold, Hb.
  destruct (by_user r !! u) as [h|]; [|reflexivity].
  destruct (encode_msg ev); try reflexivity.
  specialize (Hw h).
  destruct (wires r' !! h), (wires r !! h); cbn in Hw; congruence.
Qed.

(** One [_deliver_to_user] for a user with a name. *)
Lemma deliver_to_user_effect u ev now w :
  u <> "" ->
  let w' := fst (deliver_to_user (Some u) ev now w) in
  by_user (registry w') = by_user (registry w)
  /\ (forall h, wire_closed <$> (wires (registry w') !! h)
                = wire_closed <$> (wires (registry w) !! h))
  /\ (forall v, queued v w'
                = queued v w
                  ++ (if String.eqb u v && negb (live u ev (registry w))
                      then [ev] else []))
  /\ (forall h, frames_on h w'
                = frames_on h w
                  ++ (if bool_decide (by_user (registry w) !! u = Some h)
                         && live u ev (registry w)
                      then [frame_of ev] else []))
  /\ room_members (store w') = room_members (store w)
  /\ messages (store w') = messages (store w).
Proof.
  intros Hu. apply String.eqb_neq in Hu. unfold deliver_to_user. rewrite Hu.
  destruct (send_to_user_effect u ev (registry w)) as (Hb & Hc & Hf).
  unfold live in *.
  destruct (send_to_user u ev (registry w)) as [r d]. cbn [fst snd] in *.
  destruct d; cbn [fst registry store set_registry set_store negb];
    (split; [exact Hb|]); (split; [exact Hc|]); (split; [|split; [exact Hf|auto]]).
  - intros v. rewrite andb_false_r. unfold queued. cbn. now rewrite app_nil_r.
  - intros v. rewrite andb_true_r. unfold queued, enqueue_offline_message.
    cbn [store set_store set_registry offline_queue set_offline].
    rewrite List.filter_app, map_app. cbn [List.filter o_user_id].
    destruct (String.eqb u v); reflexivity.
Qed.

(** The fan-out over users with names: who was not reached live has the
    event queued once per turn, and a connection gets one frame for each
    user reached through it. *)
Lemma fanout_effect users ev now :
  Forall (fun u => u <> "") users ->
  forall w,
    let w' := fanout users ev now w in
    (forall v, queued v w'
               = queued v w
                 ++ repeat ev (length (List.filter
                      (fun u => String.eqb u v && negb (live u ev (registry w)))
                      users)))
    /\ (forall h, frames_on h w'
                  = frames_on h w
                    ++ repeat (frame_of ev) (live_on h ev (registry w) users))
    /\ messages (store w') = messages (store w).
Proof.
  induction 1 as [|u rest Hu Hrest IH]; intros w.
  { cbn. repeat split; intros; now rewrite app_nil_r. }
  destruct (deliver_to_user_effect u ev now w Hu) as (Hb & Hc & Hq & Hf & _ & Hm).
  specialize (IH (fst (deliver_to_user (Some u) ev now w))).
  destruct IH as (IHq & IHf & IHm).
  change (fanout (u :: rest) ev now w)
    with (fanout rest ev now (fst (deliver_to_user (Some u) ev now w))).
  pose proof (live_same _ _ Hb Hc) as Hlive.
  split; [|split].
  - intros v. rewrite IHq, Hq, <- app_assoc. f_equal.
    rewrite (List.filter_ext _ (fun u0 => String.eqb u0 v
                                          && negb (live u0 ev (registry w))))
      by (intros a; now rewrite Hlive).
    cbn [List.filter].
    destruct (String.eqb u v && negb (live u ev (registry w))); reflexivity.
  - intros h. rewrite IHf, Hf, <- app_assoc. f_equal. unfold live_on.
    rewrite Hb.
    rewrite (List.filter_ext _ (fun u0 => bool_decide (by_user (registry w) !! u0 = Some h)
                                          && live u0 ev (registry w)))
      by (intros a; now rewrite Hlive).
    cbn [List.filter].
    destruct (bool_decide (by_user (registry w) !! u = Some h)
              && live u ev (registry w)); reflexivity.
  - now rewrite IHm.
Qed.

Lemma deliver_to_members_fanout sender members ev now w :
  deliver_to_members sender members ev now w
  = fanout (List.filter (fun m => negb (String.eqb m sender)) members) ev now w.
Proof.
  revert w. induction members as [|m rest IH]; intros w; [reflexivity|].
  cbn [deliver_to_members List.filter].
  destruct (String.eqb m sender); cbn [negb]; [apply IH|]. rewrite IH. reflexivity.
Qed.

Lemma filter_single (c : string -> bool) (u : string) (l : list string) :
  List.NoDup l -> In u l ->
  List.filter (fun x => String.eqb x u && c x) l = if c u then [u] else [].
Proof.
  induction 1 as [|x l Hx Hl IH]; [contradiction|]. cbn [List.filter].
  intros [->|Hin].
  - rewrite String.eqb_refl. cbn [andb].
    assert (Hnone : List.filter (fun x => String.eqb x u && c x) l = []).
    { clear IH Hl. induction l as [|y l IHl]; [reflexivity|]. cbn [List.filter].
      destruct (String.eqb y u) eqn:E.
      - apply String.eqb_eq in E. subst. exfalso. apply Hx. now left.
      - cbn [andb]. apply IHl. intros H. apply Hx. now right. }
    rewrite Hnone. destruct (c u); reflexivity.
  - destruct (String.eqb x u) eqn:E.
    + apply String.eqb_eq in E. rewrite E in Hx. contradiction.
    + cbn [andb]. now apply IH.
Qed.

(** The member list of a room holds each member once, and no empty name. *)
Lemma list_room_members_wf room s :
  members_wf s ->
  List.NoDup (list_room_members room s)
  /\ Forall (fun u => u <> "") (list_room_members room s).
Proof.
  intros [Hnd Hne]. unfold list_room_members.
  set (rows := List.filter (fun m => String.eqb (m_room_id m) room) (room_members s)).
  assert (Hrows : List.NoDup (map m_user_id rows) /\ Forall (fun u => u <> "") (map m_user_id rows)).
  { unfold rows. clear rows. induction (room_members s) as [|m l IH]; cbn.
    - split; constructor.
    - inversion Hnd as [|? ? Hm Hl]; subst. inversion Hne as [|? ? Hm' Hl']; subst.
      destruct (IH Hl Hl') as [IH1 IH2].
      destruct (String.eqb (m_room_id m) room) eqn:E; [|auto]. cbn. split.
      + constructor; [|exact IH1]. intros Hin. apply Hm.
        apply in_map_iff in Hin as (m' & Hu & Hin).
        apply List.filter_In in Hin as [Hin Hr].
        apply String.eqb_eq in E, Hr. apply in_map_iff. exists m'.
        split; [|exact Hin]. now rewrite Hu, Hr, E.
      + constructor; assumption. }
  destruct Hrows as [H1 H2]. split.
  - eapply Permutation_NoDup; [symmetry; apply sort_by_perm|exact H1].
  - eapply Permutation_Forall; [symmetry; apply sort_by_perm|exact H2].
Qed.

Lemma filter_length_pos {A} (p : A -> bool) (x : A) (l : list A) :
  In x l -> p x = true -> (1 <= length (List.filter p l))%nat.
Proof.
  induction l as [|y l IH]; [contradiction|]. cbn [List.filter].
  intros [->|Hin] Hp.
  - rewrite Hp. cbn. lia.
  - destruct (p y); cbn; [lia|auto].
Qed.

Lemma filter_none {A} (p : A -> bool) (l : list A) :
  (forall x, In x l -> p x = false) -> List.filter p l = [].
Proof.
  induction l as [|y l IH]; [reflexivity|]. intros H. cbn [List.filter].
  rewrite (H y) by now left. apply IH. intros x Hx. apply H. now right.
Qed.

(** Users bound to one connection are reached live together or not at all. *)
Lemma live_shared u v h ev r :
  by_user r !! u = Some h -> by_user r !! v = Some h -> live v ev r = live u ev r.
Proof. intros Hu Hv. rewrite !live_unfold, Hu, Hv. reflexivity. Qed.

(** An accepted [message/send] is the message insert followed by the
    fan-out over the intended recipients. *)
Lemma handle_send_ok sender req now mid w w' ack :
  members_wf (store w) ->
  handle_send (Some sender) req now mid w = (w', Ok ack) ->
  ack = message_ack mid
  /\ List.NoDup (recipients sender req w)
  /\ exists st1,
       insert_message (default "" (sr_conversation_id req)) sender
                      (sr_content req) mid now (store w) = Some st1
       /\ w' = fanout (recipients sender req w)
                      (message_event req sender (default "" (sr_conversation_id req))
                                     mid now)
                      now (set_store st1 w)
       /\ Forall (fun u => u <> "") (recipients sender req w).
Proof.
  intros Hwf. unfold handle_send, recipients.
  destruct (present (sr_conversation_id req)); cbn [negb]; [|discriminate].
  destruct (insert_message _ sender (sr_content req) mid now (store w)) as [st1|] eqn:Hins;
    [|discriminate].
  assert (Hmem : room_members st1 = room_members (store w)).
  { unfold insert_message in Hins.
    destruct (existsb _ (messages (store w))); [discriminate|].
    injection Hins as <-. reflexivity. }
  destruct (sr_id req); [|discriminate].
  destruct (sr_target_type req) as [ty|].
  2:{ intros H. injection H as <- <-. repeat split; try constructor.
      exists st1. repeat split; constructor. }
  destruct (String.eqb ty "user").
  { intros H. injection H as <- <-. destruct (sr_target_id req) as [id|].
    - destruct (String.eqb id "") eqn:E.
      + split; [reflexivity|]. split; [constructor|]. exists st1.
        split; [reflexivity|]. split; [|constructor].
        unfold deliver_to_user. now rewrite E.
      + split; [reflexivity|]. split; [repeat constructor; auto|]. exists st1.
        split; [reflexivity|]. split; [reflexivity|].
        constructor; [now apply String.eqb_neq|constructor].
    - split; [reflexivity|]. split; [constructor|]. exists st1.
      repeat split; constructor. }
  destruct (String.eqb ty "room").
  2:{ intros H. injection H as <- <-. destruct (sr_target_id req);
        (split; [reflexivity|]); (split; [constructor|]); exists st1;
        repeat split; constructor. }
  unfold deliver_to_room. destruct (sr_target_id req) as [room|]; [|discriminate].
  assert (Hlist : list_room_members room (store (set_store st1 w))
                  = list_room_members room (store w)).
  { unfold list_room_members. cbn [store set_store]. now rewrite Hmem. }
  rewrite Hlist.
  destruct (String.eqb room ""); [discriminate|].
  destruct (negb (room_exists room (store (set_store st1 w)))); [discriminate|].
  destruct (negb (existsb _ (list_room_members room (store w))));
    [discriminate|].
  intros H. injection H as <- <-. rewrite deliver_to_members_fanout.
  destruct (list_room_members_wf room (store w) Hwf) as [Hnd Hne].
  split; [reflexivity|]. split; [now apply List.NoDup_filter|]. exists st1.
  split; [reflexivity|]. split; [reflexivity|].
  apply List.Forall_forall. intros u Hu. apply List.filter_In in Hu as [Hu _].
  rewrite List.Forall_forall in Hne. auto.
Qed.
End Delivery.

(** C1. For a [message/send] that is accepted (the handler returns the ack,
    status 200) and every intended recipient [u], exactly one of two things
    happened to the event of the message: the [message/event] envelope with
    the id of the stored message, its time, the headers of the request with
    the version, and as payload the conversation, the sender, the content
    of the request and the message id. Either [send_to_user] reports the
    event delivered: then the frame of the event was written to the
    connection [u] is bound to, once for each recipient reached through that
    connection (once, when no other recipient shares it), and nothing was
    added to the offline queue of [u]. Or it does not: then the event was
    appended once to the offline queue of [u] and nothing was written to a
    connection of [u]. *)
Theorem send_delivers_or_queues {rt : Runtime}
    (w w' : World) (sender : string) (req : MessageService.SendRequest)
    (now : Z) (mid : string) (ack : Response) :
  Spec.members_wf (store w) ->
  MessageService.handle_send (Some sender) req now mid w = (w', Ok ack) ->
  let convo := default "" (MessageService.sr_conversation_id req) in
  let event :=
    JObj [("id", JStr mid);
          ("type", JStr "event");
          ("timestamp", JInt now);
          ("command", JStr "message/event");
          ("headers",
           JObj (assoc_setdefault "version" (JStr "1.0")
                   (MessageService.sr_headers req)));
          ("payload", JObj [("conversation_id", JStr convo);
                            ("sender_id", JStr sender);
                            ("content", MessageService.sr_content req);
                            ("message_id", JStr mid)])] in
  let users := Spec.recipients sender req w in
  resp_status ack = Some (JInt 200)
  /\ forall u, In u users ->
       if Spec.live u event (registry w)
       then Spec.queued u w' = Spec.queued u w
            /\ exists h frame,
                 ConnectionManager.by_user (registry w) !! u = Some h
                 /\ Framing.encode_msg event = Ok frame
                 /\ Spec.frames_on h w'
                    = Spec.frames_on h w
                      ++ repeat frame (Spec.live_on h event (registry w) users)
                 /\ (1 <= Spec.live_on h event (registry w) users)%nat
                 /\ ((forall v, In v users -> v <> u ->
                                ConnectionManager.by_user (registry w) !! v <> Some h) ->
                     Spec.live_on h event (registry w) users = 1%nat)
       else Spec.queued u w' = Spec.queued u w ++ [event]
            /\ forall h, ConnectionManager.by_user (registry w) !! u = Some h ->
                         Spec.frames_on h w' = Spec.frames_on h w.
Proof.
  intros Hwf Hsend convo event users.
  destruct (handle_send_ok _ _ _ _ _ _ _ Hwf Hsend) as (-> & Hnd & st1 & Hins & -> & Hne).
  change (MessageService.message_event req sender
            (default "" (MessageService.sr_conversation_id req)) mid now)
    with event.
  fold users in Hnd, Hne |- *.
  split; [reflexivity|]. intros u Hu.
  destruct (fanout_effect users event now Hne (set_store st1 w)) as (Hq & Hf & _).
  assert (Hq0 : forall v, Spec.queued v (set_store st1 w) = Spec.queued v w).
  { intros v. unfold Spec.queued. cbn [store set_store].
    unfold SQLiteStore.insert_message in Hins.
    destruct (existsb _ (SQLiteStore.messages (store w))); [discriminate|].
    injection Hins as <-. reflexivity. }
  change (registry (set_store st1 w)) with (registry w) in Hq, Hf.
  assert (Hf0 : forall h, Spec.frames_on h (set_store st1 w) = Spec.frames_on h w)
    by reflexivity.
  destruct (Spec.live u event (registry w)) eqn:Hlive.
  - split.
    + rewrite Hq, Hq0.
      rewrite (filter_single (fun x => negb (Spec.live x event (registry w))) u users Hnd Hu).
      rewrite Hlive. cbn. now rewrite app_nil_r.
    + pose proof Hlive as Hl. rewrite live_unfold in Hl.
      destruct (ConnectionManager.by_user (registry w) !! u) as [h|] eqn:Hb;
        [|discriminate].
      destruct (Framing.encode_msg event) as [frame| |] eqn:Henc; try discriminate.
      exists h, frame. split; [reflexivity|]. split; [reflexivity|].
      assert (Hfr : Spec.frame_of event = frame) by (unfold Spec.frame_of; now rewrite Henc).
      split; [now rewrite Hf, Hf0, Hfr|]. split.
      * unfold Spec.live_on. apply (filter_length_pos _ u); [exact Hu|].
        rewrite Hb, Hlive. now rewrite bool_decide_eq_true_2.
      * intros Halone. unfold Spec.live_on.
        rewrite (List.filter_ext_in _ (fun x => String.eqb x u
                   && (bool_decide (ConnectionManager.by_user (registry w) !! x = Some h)
                       && Spec.live x event (registry w)))).
        { rewrite (filter_single _ u users Hnd Hu), Hb, Hlive.
          now rewrite bool_decide_eq_true_2. }
        intros x Hin. destruct (String.eqb x u) eqn:E; [reflexivity|]. cbn [andb].
        destruct (bool_decide (ConnectionManager.by_user (registry w) !! x = Some h))
          eqn:Hx; [|reflexivity].
        apply bool_decide_eq_true_1 in Hx. apply String.eqb_neq in E.
        exfalso. exact (Halone x Hin E Hx).
  - split.
    + rewrite Hq, Hq0.
      rewrite (filter_single (fun x => negb (Spec.live x event (registry w))) u users Hnd Hu).
      rewrite Hlive. reflexivity.
    + intros h Hb. rewrite Hf, Hf0. unfold Spec.live_on.
      rewrite filter_none; [cbn; now rewrite app_nil_r|].
      intros v _.
      destruct (bool_decide (ConnectionManager.by_user (registry w) !! v = Some h)) eqn:Hv;
        [|reflexivity].
      apply bool_decide_eq_true_1 in Hv. cbn [andb].
      now rewrite (live_shared u v h event (registry w) Hb Hv).
Qed.

(** C10. For an authenticated [message/send] with a conversation id, an
    envelope id, a room target and a fresh message id, the message row is in
    the store when the room checks run: when the room does not exist the
    handler raises NOT_FOUND, when the sender is not a member it raises
    FORBIDDEN, and either way the state it leaves is the old one with the
    new message row appended. *)
Theorem send_to_room_error_keeps_message {rt : Runtime}
    (w : World) (sender : string) (req : MessageService.SendRequest)
    (now : Z) (mid room : string) :
  present (MessageService.sr_conversation_id req) = true ->
  MessageService.sr_id req <> None ->
  MessageService.sr_target_type req = Some "room" ->
  MessageService.sr_target_id req = Some room ->
  room <> "" ->
  existsb (fun m => String.eqb (SQLiteStore.msg_message_id m) mid)
          (SQLiteStore.messages (store w)) = false ->
  let row := SQLiteStore.mkMessage mid
               (default "" (MessageService.sr_conversation_id req)) sender
               (if truthy (MessageService.sr_content req)
                then MessageService.sr_content req else JObj []) now in
  let w1 := set_store
              (SQLiteStore.set_messages
                 (SQLiteStore.messages (store w) ++ [row]) (store w)) w in
  (SQLiteStore.room_exists room (store w) = false ->
   MessageService.handle_send (Some sender) req now mid w
   = (w1, Raise (mkProtocolError StatusCode.NOT_FOUND None "Room not found")))
  /\ (SQLiteStore.room_exists room (store w) = true ->
      existsb (String.eqb sender) (SQLiteStore.list_room_members room (store w)) = false ->
      MessageService.handle_send (Some sender) req now mid w
      = (w1, Raise (mkProtocolError StatusCode.FORBIDDEN None "Sender not in room"))).
Proof.
  intros Hconvo Hid Hty Htarget Hroom Hfresh row w1.
  apply String.eqb_neq in Hroom.
  unfold MessageService.handle_send, SQLiteStore.insert_message.
  rewrite Hconvo, Hfresh, Hty, Htarget. cbn [negb].
  destruct (MessageService.sr_id req) as [i|]; [clear Hid|congruence].
  change (String.eqb "room" "user") with false.
  change (String.eqb "room" "room") with true. cbv iota.
  unfold MessageService.deliver_to_room. rewrite Hroom.
  change (SQLiteStore.room_exists room (store (set_store ?s w)))
    with (SQLiteStore.room_exists room (store w)).
  change (SQLiteStore.list_room_members room (store (set_store ?s w)))
    with (SQLiteStore.list_room_members room (store w)).
  split.
  - intros ->. reflexivity.
  - intros -> ->. reflexivity.
Qed.

(** Bob, who is in no room, sends to a room that does not exist. *)
Lemma send_to_room_error_keeps_message_witness :
  MessageService.handle_send (Some "bob")
    (MessageService.mkSendRequest (Some (JStr "7")) [] (Some "c1") (Some "room")
       (Some "r1") (JObj [("text", JStr "hi")]))
    5 "m1" (mkWorld SQLiteStore.empty_store ConnectionManager.empty_registry)
  = (mkWorld
       (SQLiteStore.set_messages
          [SQLiteStore.mkMessage "m1" "c1" "bob" (JObj [("text", JStr "hi")]) 5]
          SQLiteStore.empty_store)
       ConnectionManager.empty_registry,
     Raise (mkProtocolError StatusCode.NOT_FOUND None "Room not found")).
Proof.
  refine (proj1 (send_to_room_error_keeps_message
                   (mkWorld SQLiteStore.empty_store ConnectionManager.empty_registry)
                   "bob"
                   (MessageService.mkSendRequest (Some (JStr "7")) [] (Some "c1")
                      (Some "room") (Some "r1") (JObj [("text", JStr "hi")]))
                   5 "m1" "r1" eq_refl _ eq_refl eq_refl _ eq_refl) eq_refl);
    discriminate.
Defined.

(** The room scenario: alice sends to [r1]; bob gets the frame of the event
    on his connection and nothing queued, carol gets the event queued. *)
Lemma send_delivers_or_queues_witness :
  let event :=
    JObj [("id", JStr "m1");
          ("type", JStr "event");
          ("timestamp", JInt 9);
          ("command", JStr "message/event");
          ("headers", JObj [("version", JStr "1.0")]);
          ("payload", JObj [("conversation_id", JStr "r1");
                            ("sender_id", JStr "alice");
                            ("content", JObj [("text", JStr "hello")]);
                            ("message_id", JStr "m1")])] in
  let after := fst (MessageService.handle_send (Some "alice") Spec.room_request 9 "m1"
                      Spec.room_world) in
  Spec.members_wf (store Spec.room_world)
  /\ snd (MessageService.handle_send (Some "alice") Spec.room_request 9 "m1"
            Spec.room_world)
     = Ok (MessageService.message_ack "m1")
  /\ Spec.queued "carol" after = [event]
  /\ Spec.queued "bob" after = []
  /\ Spec.frames_on 1 after = [Json.dumps event ++ [Framing.FRAME_DELIMITER]].
Proof.
  intros event after.
  assert (Hwf : Spec.members_wf (store Spec.room_world)).
  { split; cbn.
    - repeat constructor; cbn; intuition discriminate.
    - repeat constructor; discriminate. }
  assert (Hrun : MessageService.handle_send (Some "alice") Spec.room_request 9 "m1"
                   Spec.room_world
                 = (after, Ok (MessageService.message_ack "m1"))).
  { vm_compute. reflexivity. }
  pose proof (send_delivers_or_queues _ _ _ _ _ _ _ Hwf Hrun) as [_ Hall].
  cbv zeta in Hall.
  change (default "" (MessageService.sr_conversation_id Spec.room_request)) with "r1"
    in Hall.
  change (assoc_setdefault "version" (JStr "1.0")
            (MessageService.sr_headers Spec.room_request))
    with [("version", JStr "1.0")] in Hall.
  change (MessageService.sr_content Spec.room_request)
    with (JObj [("text", JStr "hello")]) in Hall.
  fold event in Hall.
  split; [exact Hwf|]. split; [now rewrite Hrun|]. split; [|split].
  - pose proof (Hall "carol") as Hc.
    assert (Hl : Spec.live "carol" event (registry Spec.room_world) = false)
      by reflexivity.
    rewrite Hl in Hc. apply Hc. vm_compute. auto.
  - pose proof (Hall "bob") as Hb.
    assert (Hl : Spec.live "bob" event (registry Spec.room_world) = true)
      by (vm_compute; reflexivity).
    rewrite Hl in Hb. apply Hb. vm_compute. auto.
  - vm_compute. reflexivity.
Defined.

(** ** The friend service *)

Section Friends.
Import SQLiteStore ConnectionManager FriendService Spec.

Lemma ltb_asym (a b : string) : String.ltb a b = true -> String.ltb b a = false.
Proof.
  unfold String.ltb. rewrite (String.compare_antisym b a).
  destruct (String.compare a b); cbn; congruence.
Qed.

Lemma ltb_total (a b : string) : a <> b -> String.ltb a b = false -> String.ltb b a = true.
Proof.
  unfold String.ltb. intros Hne. rewrite (String.compare_antisym b a).
  destruct (String.compare a b) eqn:E; cbn; try congruence.
  apply String.compare_eq_iff in E. contradiction.
Qed.

Lemma request_by_id (l : list FriendRequestRow) (r r' : FriendRequestRow) :
  List.NoDup (map fr_id l) -> In r l -> In r' l -> fr_id r = fr_id r' -> r = r'.
Proof.
  induction l as [|x l IH]; cbn; [tauto|]. intros Hnd. inversion Hnd as [|? ? Hx Hl]; subst.
  intros [->|Hr] [->|Hr'] E; auto.
  - exfalso. apply Hx. rewrite E. now apply in_map.
  - exfalso. apply Hx. rewrite <- E. now apply in_map.
Qed.

(** A search by id in a table with unique ids finds the row meant. *)
Lemma find_request (p : FriendRequestRow -> bool) (l l' : list FriendRequestRow)
    (row : FriendRequestRow) :
  List.NoDup (map fr_id l) -> In row l ->
  (forall r, In r l' -> In r l) -> In row l' ->
  (forall r, p r = true -> fr_id r = fr_id row) -> p row = true ->
  find p l' = Some row.
Proof.
  intros Hnd Hrow Hsub Hin Hp Hprow.
  destruct (find p l') as [r|] eqn:E.
  - apply find_some in E as [Hr Hpr]. f_equal.
    eapply request_by_id; eauto.
  - exfalso. pose proof (find_none _ _ E row Hin). congruence.
Qed.

Lemma pending_requests_in user s r :
  In r (get_pending_friend_requests user s) <->
  In r (friend_requests s) /\ fr_to_user r = user /\ fr_status r = "pending".
Proof.
  unfold get_pending_friend_requests. split.
  - intros H. eapply Permutation_in in H; [|apply sort_by_perm].
    apply List.filter_In in H as [Hin Hp]. apply andb_true_iff in Hp as [H1 H2].
    apply String.eqb_eq in H1, H2. auto.
  - intros (Hin & H1 & H2). eapply Permutation_in; [symmetry; apply sort_by_perm|].
    apply List.filter_In. split; [exact Hin|].
    apply andb_true_iff. split; now apply String.eqb_eq.
Qed.

Lemma set_request_status_ids rid st now l :
  map fr_id (set_request_status rid st now l) = map fr_id l.
Proof.
  unfold set_request_status. rewrite map_map. apply map_ext.
  intros r. destruct (fr_id r =? rid); reflexivity.
Qed.

Lemma set_request_status_in rid st now l r :
  In r (set_request_status rid st now l) -> fr_id r = rid -> fr_status r = st.
Proof.
  unfold set_request_status. intros Hin Hid.
  apply in_map_iff in Hin as (r0 & <- & _).
  destruct (fr_id r0 =? rid) eqn:E; [reflexivity|].
  apply Z.eqb_neq in E. contradiction.
Qed.

(** The store half of an accept: the pair is stored as friends and the
    request is marked. *)
Lemma accept_friend_request_spec (s : Store) (row : FriendRequestRow) (now : Z) :
  requests_wf s -> In row (friend_requests s) -> fr_status row = "pending" ->
  fr_from_user row <> fr_to_user row ->
  let s1 := fst (accept_friend_request (fr_id row) now s) in
  snd (accept_friend_request (fr_id row) now s) = Ok true
  /\ are_friends (fr_from_user row) (fr_to_user row) s1 = true
  /\ friend_requests s1
     = set_request_status (fr_id row) "accepted" now (friend_requests s).
Proof.
  intros [Hwf Hids] Hin Hst Hne. unfold accept_friend_request.
  unfold integer_ids in Hids. rewrite List.Forall_forall in Hids.
  rewrite (Hids row Hin). cbn [negb].
  rewrite (find_request _ (friend_requests s) (friend_requests s) row Hwf Hin);
    [|auto|exact Hin| |].
  2:{ intros r Hr. apply andb_true_iff in Hr as [Hr _]. now apply Z.eqb_eq in Hr. }
  2:{ now rewrite Z.eqb_refl, Hst. }
  set (A := fr_from_user row) in *. set (B := fr_to_user row) in *.
  assert (Hpair : (if String.ltb A B then (A, B) else (B, A))
                  = (if String.ltb B A then (B, A) else (A, B))
                  /\ String.ltb (fst (if String.ltb A B then (A, B) else (B, A)))
                                (snd (if String.ltb A B then (A, B) else (B, A))) = true).
  { destruct (String.ltb A B) eqn:E.
    - rewrite (ltb_asym A B E). auto.
    - rewrite (ltb_total A B Hne E). auto using ltb_total. }
  destruct Hpair as [Hpair Hlt]. unfold are_friends. rewrite <- Hpair.
  destruct (if String.ltb A B then (A, B) else (B, A)) as [u1 u2].
  cbn [fst snd] in Hlt. unfold insert_friend. rewrite Hlt. cbn [andb].
  destruct (existsb (fun f => String.eqb (f_user1 f) u1 && String.eqb (f_user2 f) u2)
                    (friends s)) eqn:Hex; cbn [negb fst snd].
  - cbn [friends set_friend_requests friend_requests]. auto.
  - cbn [friends set_friend_requests set_friends friend_requests].
    rewrite existsb_app. cbn. rewrite !String.eqb_refl, orb_true_r. auto.
Qed.

(** Once a request is marked accepted no search for a pending request of
    that id finds it. *)
Lemma accepted_not_pending (rid now : Z) (l l' : list FriendRequestRow)
    (p : FriendRequestRow -> bool) :
  (forall r, In r l' -> p r = true ->
             In r (set_request_status rid "accepted" now l)
             /\ fr_id r = rid /\ fr_status r = "pending") ->
  find p l' = None.
Proof.
  intros Hp. destruct (find p l') as [r|] eqn:E; [|reflexivity].
  apply find_some in E as [Hin Hpr]. destruct (Hp r Hin Hpr) as (Hr & Hid & Hst).
  pose proof (set_request_status_in _ _ _ _ _ Hr Hid). congruence.
Qed.

Lemma request_status_after (rid now : Z) (st : string) (l : list FriendRequestRow)
    (row : FriendRequestRow) :
  In row l -> fr_id row = rid ->
  option_map fr_status
    (find (fun r => fr_id r =? rid) (set_request_status rid st now l)) = Some st.
Proof.
  intros Hin Hid.
  destruct (find (fun r => fr_id r =? rid) (set_request_status rid st now l))
    as [r|] eqn:E.
  - apply find_some in E as [Hr Hp]. apply Z.eqb_eq in Hp. cbn.
    f_equal. eapply set_request_status_in; eauto.
  - exfalso. unfold set_request_status in E.
    pose proof (find_none _ _ E _ (in_map _ _ _ Hin)) as Hn. cbv beta in Hn.
    rewrite Hid, Z.eqb_refl in Hn. cbn in Hn. rewrite Z.eqb_refl in Hn. discriminate.
Qed.
End Friends.

(** C3, as amended. For a pending request [R] from [A] to [B] (two users;
    request ids are integers that no two rows share, and none is 0) and
    messages that carry an id, [friend/accept] of [R] by [B] answers 200,
    after it [are_friends A B] holds and the request is marked [accepted].
    A second [friend/accept] of [R] leaves the world as it is, and it does
    not report success: the handler answers 404, "Friend request not found
    or already processed", and the store's [accept_friend_request] returns
    [False]. A first accept whose message has no id does the same to the
    world and then raises [KeyError] where the answer would be built. *)
Theorem accept_then_second_accept {rt : Runtime}
    (w : World) (row : SQLiteStore.FriendRequestRow) (now now' : Z) (eid eid' : string)
    (i1 i2 : json) :
  Spec.requests_wf (store w) ->
  In row (SQLiteStore.friend_requests (store w)) ->
  SQLiteStore.fr_status row = "pending" ->
  SQLiteStore.fr_from_user row <> SQLiteStore.fr_to_user row ->
  SQLiteStore.fr_to_user row <> "" ->
  SQLiteStore.fr_id row <> 0 ->
  let R := SQLiteStore.fr_id row in
  let A := SQLiteStore.fr_from_user row in
  let B := SQLiteStore.fr_to_user row in
  let first := FriendService.handle_accept (Some B) (Some i1) (Some R) now eid w in
  let w1 := fst first in
  (exists resp, snd first = Ok resp /\ resp_status resp = Some (JInt 200))
  /\ SQLiteStore.are_friends A B (store w1) = true
  /\ Spec.request_status R (store w1) = Some "accepted"
  /\ FriendService.handle_accept (Some B) (Some i2) (Some R) now' eid' w1
     = (w1, Ok (FriendService.error_response "friend/accept" StatusCode.NOT_FOUND
                  "Friend request not found or already processed"))
  /\ SQLiteStore.accept_friend_request R now' (store w1) = (store w1, Ok false)
  /\ FriendService.handle_accept (Some B) None (Some R) now eid w
     = (w1, Crash "KeyError").
Proof.
  intros Hwf Hin Hst Hne HB HR R A B first w1. subst R A B.
  destruct (accept_friend_request_spec (store w) row now Hwf Hin Hst Hne)
    as (Hok & Hfriends & Hreqs).
  assert (Hint : SQLiteStore.sqlite_integer (SQLiteStore.fr_id row) = true).
  { destruct Hwf as [_ Hids]. unfold Spec.integer_ids in Hids.
    rewrite List.Forall_forall in Hids. auto. }
  destruct Hwf as [Hwf _].
  apply String.eqb_neq in HB. apply Z.eqb_neq in HR.
  assert (Hfind : find (fun r => SQLiteStore.fr_id r =? SQLiteStore.fr_id row)
                       (SQLiteStore.get_pending_friend_requests
                          (SQLiteStore.fr_to_user row) (store w)) = Some row).
  { apply (find_request _ (SQLiteStore.friend_requests (store w))); auto.
    - intros r Hr. now apply pending_requests_in in Hr.
    - apply pending_requests_in. auto.
    - intros r Hr. now apply Z.eqb_eq in Hr.
    - apply Z.eqb_refl. }
  assert (Hrun : forall msg_id,
            FriendService.handle_accept (Some (SQLiteStore.fr_to_user row)) msg_id
              (Some (SQLiteStore.fr_id row)) now eid w
            = (mkWorld (fst (SQLiteStore.accept_friend_request
                               (SQLiteStore.fr_id row) now (store w)))
                 (FriendService.notify_user (SQLiteStore.fr_from_user row)
                    (FriendService.friend_event eid now
                       [("event_type", JStr "request_accepted");
                        ("user_id", JStr (SQLiteStore.fr_to_user row));
                        ("request_id", JInt (SQLiteStore.fr_id row))])
                    (registry w)),
               FriendService.answer msg_id
                 (FriendService.ok_response "friend/accept_ack"
                    [("friend_id", JStr (SQLiteStore.fr_from_user row));
                     ("message", JStr "Friend request accepted")]))).
  { intros msg_id. unfold FriendService.handle_accept. cbv zeta.
    cbn [present default from_option id].
    rewrite HB. cbn [negb]. rewrite HR, Hfind.
    destruct (SQLiteStore.accept_friend_request (SQLiteStore.fr_id row) now (store w))
      as [st ok].
    cbn [snd] in Hok. subst ok. reflexivity. }
  assert (Hstore : store w1
                   = fst (SQLiteStore.accept_friend_request
                            (SQLiteStore.fr_id row) now (store w)))
    by (unfold w1, first; now rewrite Hrun).
  split; [|split; [|split; [|split; [|split]]]].
  - unfold first. rewrite Hrun. eexists. split; reflexivity.
  - rewrite Hstore. exact Hfriends.
  - rewrite Hstore. unfold Spec.request_status. rewrite Hreqs.
    eapply request_status_after; eauto.
  - unfold FriendService.handle_accept. cbv zeta.
    cbn [present default from_option id].
    rewrite HB. cbn [negb]. rewrite HR.
    rewrite (accepted_not_pending (SQLiteStore.fr_id row) now
               (SQLiteStore.friend_requests (store w))); [reflexivity|].
    intros r Hr Hp. apply Z.eqb_eq in Hp.
    apply pending_requests_in in Hr as (Hr & _ & Hpend).
    rewrite Hstore, Hreqs in Hr. auto.
  - unfold SQLiteStore.accept_friend_request. rewrite Hint. cbn [negb].
    rewrite (accepted_not_pending (SQLiteStore.fr_id row) now
               (SQLiteStore.friend_requests (store w))); [reflexivity|].
    intros r Hr Hp. apply andb_true_iff in Hp as [Hid Hpend].
    apply Z.eqb_eq in Hid. apply String.eqb_eq in Hpend.
    rewrite Hstore, Hreqs in Hr. auto.
  - rewrite Hrun. unfold w1, first. now rewrite Hrun.
Qed.

(** Alice has asked bob, and bob accepts twice. *)
Lemma accept_then_second_accept_witness :
  Spec.requests_wf (store Spec.asked_world)
  /\ SQLiteStore.are_friends "alice" "bob"
       (store (fst (FriendService.handle_accept (Some "bob") (Some (JStr "7")) (Some 1)
                      2 "e1" Spec.asked_world))) = true
  /\ Spec.request_status 1
       (store (fst (FriendService.handle_accept (Some "bob") (Some (JStr "7")) (Some 1)
                      2 "e1" Spec.asked_world))) = Some "accepted".
Proof.
  assert (Hwf : Spec.requests_wf (store Spec.asked_world)).
  { split; cbn.
    - repeat constructor. cbn. tauto.
    - repeat constructor. }
  split; [exact Hwf|].
  pose proof (accept_then_second_accept Spec.asked_world
                (SQLiteStore.mkFriendRequest 1 "alice" "bob" (Some "hi") "pending" 1 1)
                2 3 "e1" "e2" (JStr "7") (JStr "8") Hwf (or_introl eq_refl) eq_refl
                ltac:(discriminate) ltac:(discriminate) ltac:(discriminate))
    as (_ & H1 & H2 & _).
  split; [exact H1|exact H2].
Defined.

(** C3 as stated fails on the second accept: it is answered 404, not 200,
    and the store returns [False]. *)
Lemma accept_then_second_accept_counterexample :
  resp_status_of
    (snd (FriendService.handle_accept (Some "bob") (Some (JStr "8")) (Some 1) 3 "e2"
            (fst (FriendService.handle_accept (Some "bob") (Some (JStr "7")) (Some 1)
                    2 "e1" Spec.asked_world))))
  = Some (JInt 404)
  /\ snd (SQLiteStore.accept_friend_request 1 3
            (store (fst (FriendService.handle_accept (Some "bob") (Some (JStr "7"))
                           (Some 1) 2 "e1" Spec.asked_world)))) = Ok false.
Proof. split; reflexivity. Qed.


(** ** The room service *)

Section Rooms.
Import SQLiteStore RoomService Spec.
Variable sha256_hex : string -> string.

Lemma key_inj {A B : Type} (key : A -> B) (l : list A) (a b : A) :
  List.NoDup (map key l) -> In a l -> In b l -> key a = key b -> a = b.
Proof.
  induction l as [|x l IH]; cbn; [tauto|]. intros Hnd.
  inversion Hnd as [|? ? Hx Hl]; subst.
  intros [->|Ha] [->|Hb] E; auto.
  - exfalso. apply Hx. rewrite E. now apply in_map.
  - exfalso. apply Hx. rewrite <- E. now apply in_map.
Qed.

Lemma nodup_snoc {A : Type} (l : list A) (x : A) :
  List.NoDup l -> ~ In x l -> List.NoDup (l ++ [x]).
Proof.
  induction 1 as [|y l Hy Hl IH]; cbn; intros Hx.
  - constructor; [intros []|constructor].
  - constructor.
    + rewrite in_app_iff. cbn. intros [H|[H|[]]]; [contradiction|]. apply Hx. now left.
    + apply IH. intros H. apply Hx. now right.
Qed.

Lemma get_room_some room s r :
  get_room room s = Some r -> In r (rooms s) /\ r_room_id r = room.
Proof.
  unfold get_room. intros H. apply find_some in H as [Hin Hid].
  apply String.eqb_eq in Hid. auto.
Qed.

Lemma room_exists_get room s :
  room_exists room s = true -> exists r, get_room room s = Some r.
Proof.
  unfold room_exists, get_room. intros H. apply existsb_exists in H as (r & Hin & Hr).
  destruct (find _ (rooms s)) as [r0|] eqn:E; [eauto|].
  pose proof (find_none _ _ E r Hin). cbv beta in *. congruence.
Qed.

Lemma room_exists_false room s r :
  room_exists room s = false -> In r (rooms s) -> r_room_id r <> room.
Proof.
  unfold room_exists. intros H Hin Hid.
  assert (existsb (fun r0 => String.eqb (r_room_id r0) room) (rooms s) = true).
  { apply existsb_exists. exists r. split; [exact Hin|]. now apply String.eqb_eq. }
  congruence.
Qed.

Lemma member_row_kept (p : MemberRow -> bool) room user (l : list MemberRow) :
  (forall m, is_member_row room user m = true -> p m = true) ->
  existsb (is_member_row room user) l = true ->
  existsb (is_member_row room user) (List.filter p l) = true.
Proof.
  intros Hp H. apply existsb_exists in H as (m & Hin & Hm).
  apply existsb_exists. exists m. split; [|exact Hm].
  apply List.filter_In. auto.
Qed.

Lemma is_member_row_eq room user m :
  is_member_row room user m = true <-> m_room_id m = room /\ m_user_id m = user.
Proof. unfold is_member_row. now rewrite andb_true_iff, !String.eqb_eq. Qed.

Lemma rooms_inv_empty : rooms_inv empty_store.
Proof. split; [constructor|intros r []]. Qed.

(** Every request but an owner's [room/leave] keeps the invariant. *)
Lemma rooms_inv_step (op : RoomOp) (w : World) :
  rooms_inv (store w) -> owner_leaves op w = false ->
  rooms_inv (store (room_step sha256_hex op w)).
Proof.
  intros [Hnd Hown] Hleave. unfold rooms_inv.
  destruct op as [user room enc pw now|user room pw now
                 |user room|user room target|user room];
    cbn [room_step].
  - (* room/create *)
    unfold handle_create. cbn [present default from_option id].
    destruct (negb (negb (String.eqb room ""))); [now split|].
    destruct (enc && negb (present pw)); [now split|].
    unfold create_room. destruct (room_exists room (store w)) eqn:Hex; [now split|].
    cbn [fst].
    cbn [store set_store].
    assert (Hgrow : forall tail r,
              In r (rooms (store w)) ->
              existsb (is_member_row (r_room_id r) (r_owner r))
                      (room_members (store w) ++ tail) = true).
    { intros tail r Hr. rewrite existsb_app, (Hown r Hr). reflexivity. }
    destruct (existsb (is_member_row room user) _) eqn:Hmem;
      cbn [rooms room_members set_rooms set_room_members] in *; split.
    + rewrite map_app. cbn. apply nodup_snoc; [exact Hnd|].
      intros Hx. apply in_map_iff in Hx as (r & Hid & Hr).
      exact (room_exists_false _ _ _ Hex Hr Hid).
    + intros r Hr. apply in_app_iff in Hr as [Hr|[<-|[]]]; [auto|exact Hmem].
    + rewrite map_app. cbn. apply nodup_snoc; [exact Hnd|].
      intros Hx. apply in_map_iff in Hx as (r & Hid & Hr).
      exact (room_exists_false _ _ _ Hex Hr Hid).
    + intros r Hr. apply in_app_iff in Hr as [Hr|[<-|[]]]; [now apply Hgrow|].
      rewrite existsb_app. cbn. unfold is_member_row. cbn.
      rewrite !String.eqb_refl. cbn. now rewrite orb_true_r.
  - (* room/join *)
    unfold handle_join. cbn [present default from_option id].
    destruct (negb (negb (String.eqb room ""))); [now split|].
    destruct (get_room room (store w)) as [r0|]; [|now split].
    destruct (r_encrypted r0 && negb (present pw)); [now split|].
    destruct (r_encrypted r0 && negb _); [now split|].
    unfold add_member. destruct (_ || _); [now split|].
    cbn [fst store set_store rooms room_members set_room_members]. split; [exact Hnd|].
    intros r Hr. rewrite existsb_app, (Hown r Hr). reflexivity.
  - (* room/leave, not by the owner *)
    unfold handle_leave. cbn [present default from_option id].
    destruct (negb (negb (String.eqb room ""))); [now split|].
    destruct (room_exists room (store w)) eqn:Hex; cbn [negb]; [|now split].
    cbn [fst store set_store]. unfold remove_member.
    cbn [rooms room_members set_room_members]. split; [exact Hnd|].
    intros r Hr. apply member_row_kept; [|auto].
    intros m Hm. apply is_member_row_eq in Hm as [Hm1 Hm2].
    apply negb_true_iff. apply not_true_is_false. intros Hrow.
    apply is_member_row_eq in Hrow as [Hr1 Hr2].
    cbn [owner_leaves] in Hleave.
    destruct (room_exists_get _ _ Hex) as (r0 & Hget). rewrite Hget in Hleave.
    destruct (get_room_some _ _ _ Hget) as [Hin0 Hid0].
    assert (r = r0) by (eapply (key_inj r_room_id); eauto; congruence).
    subst r0. apply String.eqb_neq in Hleave. congruence.
  - (* room/kick *)
    unfold handle_kick. cbn [present default from_option id].
    destruct (_ || _); [now split|].
    destruct (get_room room (store w)) as [r0|] eqn:Hget; [|now split].
    destruct (String.eqb (r_owner r0) user) eqn:Howner; cbn [negb]; [|now split].
    destruct (String.eqb target user) eqn:Hself; [now split|].
    cbn [fst store set_store]. unfold remove_member.
    cbn [rooms room_members set_room_members]. split; [exact Hnd|].
    intros r Hr. apply member_row_kept; [|auto].
    intros m Hm. apply is_member_row_eq in Hm as [Hm1 Hm2].
    apply negb_true_iff. apply not_true_is_false. intros Hrow.
    apply is_member_row_eq in Hrow as [Hr1 Hr2].
    destruct (get_room_some _ _ _ Hget) as [Hin0 Hid0].
    assert (r = r0) by (eapply (key_inj r_room_id); eauto; congruence).
    subst r0. apply String.eqb_eq in Howner. apply String.eqb_neq in Hself. congruence.
  - (* room/delete *)
    unfold handle_delete. cbn [present default from_option id].
    destruct (negb (negb (String.eqb room ""))); [now split|].
    destruct (get_room room (store w)) as [r0|] eqn:Hget; [|now split].
    destruct (String.eqb (r_owner r0) user); cbn [negb]; [|now split].
    cbn [fst store set_store]. unfold delete_room.
    cbn [rooms room_members set_room_members set_rooms]. split.
    + clear Hown. induction (rooms (store w)) as [|x l IH]; cbn; [constructor|].
      inversion Hnd as [|? ? Hx Hl]; subst.
      destruct (negb (String.eqb (r_room_id x) room)); cbn; [|auto].
      constructor; [|auto]. intros Hin. apply Hx.
      apply in_map_iff in Hin as (y & Hy & Hin). apply List.filter_In in Hin as [Hin _].
      apply in_map_iff. eauto.
    + intros r Hr. apply List.filter_In in Hr as [Hr Hkeep].
      apply member_row_kept; [|auto].
      intros m Hm. apply is_member_row_eq in Hm as [Hm1 _]. now rewrite Hm1.
Qed.

Lemma rooms_inv_run (ops : list RoomOp) (w : World) :
  rooms_inv (store w) -> no_owner_leaves sha256_hex ops w = true ->
  rooms_inv (store (run_rooms sha256_hex ops w)).
Proof.
  revert w. induction ops as [|op ops IH]; intros w Hinv Hno; [exact Hinv|].
  cbn [no_owner_leaves] in Hno. apply andb_true_iff in Hno as [Hop Hrest].
  apply negb_true_iff in Hop. cbn. apply IH; [now apply rooms_inv_step|exact Hrest].
Qed.

Lemma rooms_inv_owners (s : Store) : rooms_inv s -> owners_are_members s = true.
Proof.
  intros [_ Hown]. unfold owners_are_members. apply forallb_forall. intros r Hr.
  specialize (Hown r Hr). apply existsb_exists in Hown as (m & Hin & Hm).
  apply is_member_row_eq in Hm as [Hm1 Hm2].
  apply existsb_exists. exists (r_owner r). split; [|apply String.eqb_refl].
  unfold list_room_members. eapply Permutation_in; [symmetry; apply sort_by_perm|].
  rewrite <- Hm2. apply in_map. apply List.filter_In. split; [exact Hin|].
  now apply String.eqb_eq.
Qed.
End Rooms.

(** C6, as amended. In every state reached from the empty store by room
    requests (create, join, leave, kick, delete) among which no [room/leave]
    comes from the owner of the room it names, the owner of every existing
    room is in the member list of the room. *)
Theorem owner_stays_member (sha256_hex : string -> string) (ops : list Spec.RoomOp) :
  Spec.no_owner_leaves sha256_hex ops Spec.empty_world = true ->
  Spec.owners_are_members (store (Spec.run_rooms sha256_hex ops Spec.empty_world)) = true.
Proof.
  intros Hno. apply rooms_inv_owners.
  apply rooms_inv_run; [apply rooms_inv_empty|exact Hno].
Qed.

(** Alice creates [r1], bob joins and leaves, carol joins and is kicked. The
    room has no password, so the hash function plays no part. *)
Lemma owner_stays_member_witness :
  Spec.owners_are_members
    (store (Spec.run_rooms (fun p => p)
              [Spec.Create "alice" "r1" false None 1; Spec.Join "bob" "r1" None 2;
               Spec.Leave "bob" "r1"; Spec.Join "carol" "r1" None 3;
               Spec.Kick "alice" "r1" "carol"]
              Spec.empty_world)) = true.
Proof.
  exact (owner_stays_member (fun p => p)
           [Spec.Create "alice" "r1" false None 1; Spec.Join "bob" "r1" None 2;
            Spec.Leave "bob" "r1"; Spec.Join "carol" "r1" None 3;
            Spec.Kick "alice" "r1" "carol"] eq_refl).
Defined.

(** C6 as stated fails: alice creates [r1] and leaves it; the room is still
    there, alice still owns it, and its member list is empty. *)
Lemma owner_stays_member_counterexample :
  let s := store (Spec.run_rooms (fun p => p)
                    [Spec.Create "alice" "r1" false None 1; Spec.Leave "alice" "r1"]
                    Spec.empty_world) in
  option_map SQLiteStore.r_owner (SQLiteStore.get_room "r1" s) = Some "alice"
  /\ SQLiteStore.list_room_members "r1" s = []
  /\ Spec.owners_are_members s = false.
Proof. repeat split. Qed.

(** ** The auth service *)

(** C7. For an [auth/register] with both credentials: when the name is free
    the handler appends the user row and changes nothing else (sessions,
    presence and the registry with its contexts and bindings are as before)
    and answers [auth/register_ack] with status 200, an empty token and the
    new user id; when the name is taken it answers 409 with error code
    USER_EXISTS (1006) and the world is as before. *)
Theorem register_creates_user_only (w : World) (username password : string) (now : Z) :
  username <> "" -> password <> "" ->
  let result := AuthService.handle_register (Some username) (Some password) now w in
  if SQLiteStore.user_exists username (store w)
  then result
       = (w, Ok (mkResponse "auth/register_ack"
                   [("status", JInt 409); ("token", JStr ""); ("user_id", JStr "");
                    ("expires_in", JInt 0);
                    ("error_message", JStr "User already exists");
                    ("error_code", JInt 1006)]))
  else result
       = (set_store
            (SQLiteStore.set_users
               (SQLiteStore.users (store w)
                ++ [SQLiteStore.mkUser username password now]) (store w)) w,
          Ok (mkResponse "auth/register_ack"
                [("status", JInt 200); ("token", JStr ""); ("user_id", JStr username);
                 ("expires_in", JInt 0)]))
       /\ SQLiteStore.sessions (store (fst result)) = SQLiteStore.sessions (store w)
       /\ SQLiteStore.presence (store (fst result)) = SQLiteStore.presence (store w)
       /\ registry (fst result) = registry w.
Proof.
  intros Hu Hp result. subst result. apply String.eqb_neq in Hu, Hp.
  unfold AuthService.handle_register, SQLiteStore.create_user.
  cbn [present default from_option id]. rewrite Hu, Hp. cbn [negb orb].
  destruct (SQLiteStore.user_exists username (store w)); [reflexivity|].
  repeat split.
Qed.

(** Alice registers on the empty world, and registers again. *)
Lemma register_creates_user_only_witness :
  SQLiteStore.users
    (store (fst (AuthService.handle_register (Some "alice") (Some "h") 1
                   Spec.empty_world)))
  = [SQLiteStore.mkUser "alice" "h" 1]
  /\ resp_status_of
       (snd (AuthService.handle_register (Some "alice") (Some "h") 2
               (fst (AuthService.handle_register (Some "alice") (Some "h") 1
                       Spec.empty_world))))
     = Some (JInt 409).
Proof.
  split.
  - pose proof (register_creates_user_only Spec.empty_world "alice" "h" 1
                  ltac:(discriminate) ltac:(discriminate)) as H.
    cbn [SQLiteStore.user_exists SQLiteStore.users store Spec.empty_world
         SQLiteStore.empty_store existsb] in H.
    destruct H as [H _]. rewrite H. reflexivity.
  - pose proof (register_creates_user_only
                  (fst (AuthService.handle_register (Some "alice") (Some "h") 1
                          Spec.empty_world)) "alice" "h" 2
                  ltac:(discriminate) ltac:(discriminate)) as H.
    change (SQLiteStore.user_exists "alice" _) with true in H. cbv iota in H.
    rewrite H. reflexivity.
Defined.

(** ** The voice service *)

Section Voice.
Import VoiceService.

Lemma eqb_ringing_ended : String.eqb "ringing" "ended" = false.
Proof. reflexivity. Qed.

(** What an accepted [voice/answer] of a ringing call leaves behind. *)
Lemma handle_answer_ringing (st : State) (u c : string) (vc : VoiceCall) (now : Z) :
  u <> "" ->
  active_calls st !! c = Some vc ->
  status vc = "ringing" ->
  handle_answer (Some u) (Some c) now st
  = (mkState (<[c := add_participant u now vc]> (active_calls st))
             (<[u := c]> (user_to_call st)),
     mkResponse "voice/answer_ack"
       [("status", JInt 200); ("call_id", JStr c); ("message", JStr "Call connected")]).
Proof.
  intros Hu Hc Hring. apply String.eqb_neq in Hu.
  unfold handle_answer. cbn [present default from_option id mbind option_bind].
  rewrite Hu. cbn [negb]. rewrite Hc, Hring.
  cbn [String.eqb]. rewrite !andb_false_r. reflexivity.
Qed.

End Voice.

(** C4, the divergence. [handle_answer] does not consult [user_to_call]:
    when a user who is in a call that has not ended answers another ringing
    call, the answer is accepted (200), the user is then a participant of
    both calls, neither of them ended, and the index names only the second.
    So [user_to_call[u] = c] does not follow from [u] being in the live call
    [c]. *)
Theorem answer_while_in_call_breaks_index
    (st : VoiceService.State) (u c1 c2 : string) (vc1 vc2 : VoiceService.VoiceCall)
    (now : Z) :
  u <> "" -> c1 <> c2 ->
  VoiceService.active_calls st !! c1 = Some vc1 ->
  u ∈ VoiceService.participants vc1 ->
  VoiceService.status vc1 <> "ended" ->
  VoiceService.user_to_call st !! u = Some c1 ->
  VoiceService.active_calls st !! c2 = Some vc2 ->
  VoiceService.status vc2 = "ringing" ->
  let answered := VoiceService.handle_answer (Some u) (Some c2) now st in
  resp_status (snd answered) = Some (JInt 200)
  /\ Spec.in_live_call u c1 (fst answered) = true
  /\ Spec.indexed u c1 (fst answered) = false
  /\ Spec.in_live_call u c2 (fst answered) = true
  /\ Spec.indexed u c2 (fst answered) = true.
Proof.
  intros Hu Hne H1 Hin Hlive Hidx H2 Hring answered. subst answered.
  rewrite (handle_answer_ringing st u c2 vc2 now Hu H2 Hring).
  cbn [fst snd]. unfold Spec.in_live_call, Spec.indexed.
  cbn [VoiceService.active_calls VoiceService.user_to_call].
  split; [reflexivity|]. split; [|split; [|split]].
  - rewrite lookup_insert_ne by congruence. rewrite H1.
    apply andb_true_iff. split.
    + now apply bool_decide_eq_true.
    + apply negb_true_iff. now apply String.eqb_neq.
  - apply bool_decide_eq_false. simplify_map_eq. congruence.
  - simplify_map_eq. unfold VoiceService.add_participant. rewrite Hring.
    cbn [String.eqb Ascii.eqb Bool.eqb VoiceService.participants VoiceService.status].
    apply andb_true_iff. split; [|reflexivity].
    apply bool_decide_eq_true. set_solver.
  - apply bool_decide_eq_true. now simplify_map_eq.
Qed.

(** Alice rings bob ([c1]), carol rings alice ([c2]), alice answers [c2]. *)
Lemma answer_while_in_call_breaks_index_witness :
  let st := Spec.run_voice 1 [Spec.VAnswer "alice" "c2"] Spec.two_calls in
  Spec.in_live_call "alice" "c1" st = true
  /\ Spec.indexed "alice" "c1" st = false
  /\ Spec.in_live_call "alice" "c2" st = true
  /\ Spec.indexed "alice" "c2" st = true.
Proof.
  exact (proj2 (answer_while_in_call_breaks_index Spec.two_calls "alice" "c1" "c2"
                  (VoiceService.mkVoiceCall "c1" "alice" "direct" "user" "bob" "ringing"
                     {["alice"]} 1 None None)
                  (VoiceService.mkVoiceCall "c2" "carol" "direct" "user" "alice" "ringing"
                     {["carol"]} 1 None None)
                  1 ltac:(discriminate) ltac:(discriminate) eq_refl
                  ltac:(set_solver) ltac:(discriminate) eq_refl eq_refl eq_refl)).
Defined.

(** ** The server loop *)

Section ServerLoop.
Import Json Framing ConnectionManager Validator SocketServer Spec.
Context {rt : Runtime}.

Lemma is_str_false (s : string) (v : json) : v <> JStr s -> is_str s v = false.
Proof.
  destruct v; try reflexivity. intros H. cbn [is_str].
  apply String.eqb_neq. congruence.
Qed.

Lemma typed_envelope_command (fields : list (string * json)) :
  typed_envelope fields = true ->
  hashable (default (JStr "") (assoc_get "command" fields)) = true
  /\ hashable (get_or_null "command" fields) = true.
Proof.
  unfold typed_envelope, get_or_null. intros H. apply andb_true_iff in H as [H _].
  destruct (assoc_get "command" fields); auto.
Qed.

Lemma typed_envelope_headers (fields : list (string * json)) :
  typed_envelope fields = true ->
  exists headers, or_empty (assoc_get "headers" fields) = JObj headers.
Proof.
  unfold typed_envelope. intros H. apply andb_true_iff in H as [_ H].
  destruct (or_empty (assoc_get "headers" fields)); try discriminate. eauto.
Qed.

(** [_send] on an open connection. *)
Lemma send_open (h : nat) (message : json) (frame : bytes) (w : World) (wire : Wire) :
  encode_msg message = Ok frame ->
  wires (registry w) !! h = Some wire ->
  wire_closed wire = false ->
  send h message w
  = (set_registry (set_wires (<[h := mkWire false (wire_sent wire ++ [frame])]>
                                (wires (registry w))) (registry w)) w, Ok tt).
Proof.
  intros He Hw Hc. unfold send, write_frame. now rewrite He, Hw, Hc.
Qed.

(** The index of the delimiter that ends a line. *)
Lemma find_delimiter_line (line rest : bytes) :
  no_delimiter line = true ->
  find_delimiter (line ++ FRAME_DELIMITER :: rest) = Some (length line).
Proof.
  induction line as [|c t IH]; intros H.
  - reflexivity.
  - cbn [no_delimiter forallb] in H. apply andb_true_iff in H as [Hc Ht].
    apply negb_true_iff in Hc. cbn [app find_delimiter length].
    rewrite Hc. unfold no_delimiter in IH. now rewrite (IH Ht).
Qed.

Lemma escape_length (l : bytes) : (length l <= length (escape l))%nat.
Proof.
  induction l as [|c t IH]; [reflexivity|]. cbn [escape length].
  rewrite length_app.
  assert (1 <= length (escape_char c))%nat; [|lia].
  unfold escape_char.
  repeat match goal with |- context [if ?b then _ else _] => destruct b end;
    cbn [length]; lia.
Qed.

Lemma padded_envelope_length (n : nat) :
  (n <= length (dumps (padded_envelope n)))%nat.
Proof.
  unfold padded_envelope. cbn [dumps map fst snd join_with].
  unfold dumps_str at 2. rewrite list_ascii_of_string_of_list_ascii.
  pose proof (escape_length (repeat "a"%char n)) as H. rewrite repeat_length in H.
  cbn [length]. rewrite !length_app. cbn [length]. rewrite !length_app. lia.
Qed.

Lemma padded_envelope_python (n : nat) : python_value (padded_envelope n) = true.
Proof.
  unfold python_value, padded_envelope.
  cbn [keys_unique text_valid map fst snd distinct forallb existsb negb andb].
  rewrite list_ascii_of_string_of_list_ascii.
  induction n as [|n IH]; [reflexivity|]. exact IH.
Qed.

End ServerLoop.

(** C5, the divergence. The gate works for a message typed as an envelope
    (command absent or a scalar, headers absent, falsy or an object): when
    its declared version is not ["1.0"] (no headers and no version field
    count as ["0.0"]) and it arrives on an open connection, the loop builds
    the error response with payload status 426 and error code 1002 and, when
    that response encodes, writes its frame to the connection and goes on
    reading, and nothing else changes: the store, the contexts ([touch] is
    not reached), the bindings and every other connection are as before,
    whatever the registered handlers are. Other frames do not reach the
    gate or break it, whatever version they declare. A command that is a
    list or an object stops [load_schema], whose cache hashes its argument,
    with [TypeError]; headers that are a string, a number or a list stop
    [validate_version] with [AttributeError]. Neither is a [ProtocolError]:
    the loop ends, nothing is written, and the connection is closed. *)
Theorem version_gate {rt : Runtime}
    (repr : json -> string) (schema_file : string -> option json)
    (schema_violation : json -> json -> option string)
    (handlers : string -> option Handler)
    (h : nat) (fields : list (string * json)) (now : Z) (w : World) :
  let after := SocketServer.handle_message repr schema_file schema_violation
                 handlers h (JObj fields) now w in
  (forall wire,
     Spec.typed_envelope fields = true ->
     Spec.declared_version fields <> JStr "1.0" ->
     ConnectionManager.wires (registry w) !! h = Some wire ->
     ConnectionManager.wire_closed wire = false ->
     exists response,
       SocketServer.error_response fields
         (mkProtocolError 426 (Some 1002)
            ("Protocol version mismatch: expected 1.0, got "
             +:+ Validator.str repr (Spec.declared_version fields)))
       = Ok (JObj response)
       /\ assoc_get "payload" response
          = Some (JObj [("status", JInt 426); ("error_code", JInt 1002);
                        ("error_message",
                         JStr ("Protocol version mismatch: expected 1.0, got "
                               +:+ Validator.str repr (Spec.declared_version fields)))])
       /\ forall frame, Framing.encode_msg (JObj response) = Ok frame ->
          snd after = SocketServer.Reading
          /\ store (fst after) = store w
          /\ ConnectionManager.contexts (registry (fst after))
             = ConnectionManager.contexts (registry w)
          /\ ConnectionManager.by_user (registry (fst after))
             = ConnectionManager.by_user (registry w)
          /\ ConnectionManager.by_writer (registry (fst after))
             = ConnectionManager.by_writer (registry w)
          /\ ConnectionManager.wires (registry (fst after))
             = <[h := ConnectionManager.mkWire false
                        (ConnectionManager.wire_sent wire ++ [frame])]>
                 (ConnectionManager.wires (registry w)))
  /\ (forall command,
        assoc_get "command" fields = Some command ->
        Validator.hashable command = false ->
        after = (w, SocketServer.Closed "TypeError"))
  /\ (forall headers,
        Validator.hashable (default (JStr "") (assoc_get "command" fields)) = true ->
        assoc_get "headers" fields = Some headers ->
        truthy headers = true ->
        (forall l, headers <> JObj l) ->
        after = (w, SocketServer.Closed "AttributeError")).
Proof.
  intros after. split; [|split].
  - intros wire Htyped Hversion Hwire Hopen.
    destruct (typed_envelope_command fields Htyped) as [Hcmd Hkey].
    destruct (typed_envelope_headers fields Htyped) as [headers Hheaders].
    set (e := mkProtocolError 426 (Some 1002) _).
    assert (Hv : Validator.validate_version repr (assoc_get "headers" fields) = Raise e).
    { unfold Validator.validate_version. unfold Spec.declared_version in Hversion, e.
      rewrite Hheaders in *. unfold Framing.DEFAULT_VERSION.
      rewrite (is_str_false _ _ Hversion). subst e. rewrite Hheaders. reflexivity. }
    eexists. split; [|split].
    + unfold SocketServer.error_response. rewrite Hheaders, Hkey. reflexivity.
    + reflexivity.
    + intros frame Hframe. subst after.
      assert (Hrun : SocketServer.handle_message repr schema_file schema_violation
                       handlers h (JObj fields) now w
                     = SocketServer.on_protocol_error h fields e w).
      { unfold SocketServer.handle_message, Validator.load_schema, Validator.validate_msg.
        now rewrite Hcmd, Hv. }
      rewrite Hrun. unfold SocketServer.on_protocol_error, SocketServer.error_response.
      rewrite Hheaders, Hkey.
      rewrite (send_open h _ frame w wire Hframe Hwire Hopen).
      cbn [fst snd]. repeat split.
  - intros command Hcommand Hhash. subst after.
    unfold SocketServer.handle_message, Validator.load_schema.
    rewrite Hcommand. cbn [default from_option id]. now rewrite Hhash.
  - intros headers Hcmd Hheaders Htruthy Hnot. subst after.
    unfold SocketServer.handle_message, Validator.load_schema, Validator.validate_msg,
      Validator.validate_version.
    rewrite Hcmd, Hheaders. cbn [Validator.or_empty]. rewrite Htruthy.
    destruct headers as [|b|z|t|l|l]; try reflexivity.
    exfalso. exact (Hnot l eq_refl).
Qed.

(** Two frames that declare version 0.9, each on the only connection of a
    fresh server: a login request, which is answered, and a frame whose
    command is the empty list, which is not. *)
Lemma version_gate_witness :
  (exists response,
     SocketServer.error_response Spec.old_client_login
       (mkProtocolError 426 (Some 1002)
          "Protocol version mismatch: expected 1.0, got 0.9")
     = Ok (JObj response)
     /\ Framing.encode_msg (JObj response)
        = Ok (Json.dumps (JObj response) ++ [Framing.FRAME_DELIMITER])
     /\ Spec.frames_on 1
          (fst (SocketServer.handle_message (fun _ => "") (fun _ => None)
                  (fun _ _ => None) (fun _ => None) 1 (JObj Spec.old_client_login) 2
                  Spec.one_connection))
        = [Json.dumps (JObj response) ++ [Framing.FRAME_DELIMITER]])
  /\ Spec.declared_version Spec.listed_command = JStr "0.9"
  /\ SocketServer.handle_message (fun _ => "") (fun _ => None) (fun _ _ => None)
       (fun _ => None) 1 (JObj Spec.listed_command) 2 Spec.one_connection
     = (Spec.one_connection, SocketServer.Closed "TypeError").
Proof.
  split; [|split; [reflexivity|]].
  - destruct (proj1 (version_gate (fun _ => "") (fun _ => None) (fun _ _ => None)
                       (fun _ => None) 1 Spec.old_client_login 2 Spec.one_connection)
                (ConnectionManager.mkWire false []) eq_refl ltac:(discriminate)
                eq_refl eq_refl) as (response & Hresp & _ & Hrun).
    exists response. split; [exact Hresp|].
    cbn in Hresp. injection Hresp as <-.
    split; [reflexivity|].
    destruct (Hrun _ eq_refl) as (_ & _ & _ & _ & _ & Hwires).
    unfold Spec.frames_on. rewrite Hwires. reflexivity.
  - exact (proj1 (proj2 (version_gate (fun _ => "") (fun _ => None) (fun _ _ => None)
                           (fun _ => None) 1 Spec.listed_command 2 Spec.one_connection))
             (JArr []) eq_refl eq_refl).
Defined.

(** C9, the divergence. [encode_msg] refuses text longer than 256 KiB with
    BAD_REQUEST and accepts the rest, of the values the [json] module takes.
    Inbound there is no such check: [decode_msg] decodes a frame of any
    size, and the frame never reaches it, because the stream reader gives up
    on a line longer than its 64 KiB limit with [LimitOverrunError], which
    is not a [ProtocolError]. The loop ends, no response is written, the
    frame stays unread. *)
Theorem oversized_inbound_frame_closes {rt : Runtime}
    (repr : json -> string) (schema_file : string -> option json)
    (schema_violation : json -> json -> option string)
    (handlers : string -> option Handler)
    (h : nat) (m : json) (rest : Json.bytes) (now : Z) (w : World) :
  Spec.python_value m = true ->
  (Framing.STREAM_LIMIT < N.of_nat (length (Json.dumps m)))%N ->
  let size := N.of_nat (length (Json.dumps m)) in
  let pending := Json.dumps m ++ Framing.FRAME_DELIMITER :: rest in
  (Spec.within_limits m = true ->
   ((Framing.MAX_PAYLOAD_SIZE < size)%N ->
    Framing.encode_msg m
    = Raise (mkProtocolError 400 None "Payload too large for control channel"))
   /\ ((size <= Framing.MAX_PAYLOAD_SIZE)%N ->
       Framing.encode_msg m = Ok (Json.dumps m ++ [Framing.FRAME_DELIMITER]))
   /\ Framing.decode_msg (Json.dumps m ++ [Framing.FRAME_DELIMITER])
      = Framing.Decoded m)
  /\ SocketServer.serve_frame repr schema_file schema_violation handlers h pending now w
     = (w, SocketServer.Closed "LimitOverrunError", pending).
Proof.
  intros Hm Hlong size pending. apply andb_true_iff in Hm as [Hk Ht].
  split.
  - intros Hlim. rewrite (encode_msg_within m Hlim). fold size.
    split; [|split].
    + intros Hsize. apply N.ltb_lt in Hsize. now rewrite Hsize.
    + intros Hsize. apply N.ltb_ge in Hsize. now rewrite Hsize.
    + rewrite decode_msg_dumps; [|exact Hk|].
      * unfold Spec.within_limits in Hlim.
        destruct (Json.dumps_fault recursion_budget m); [discriminate|reflexivity].
      * rewrite <- (app_nil_r (Json.dumps m)). now apply dumps_valid.
  - unfold SocketServer.serve_frame, Framing.readuntil. subst pending.
    rewrite (find_delimiter_line _ rest (dumps_no_delimiter m)).
    apply N.ltb_lt in Hlong. now rewrite Hlong.
Qed.

(** An envelope with an [id] of 262145 letters, alone on the connection. *)
Lemma oversized_inbound_frame_closes_witness :
  let m := Spec.padded_envelope (N.to_nat 262145) in
  Framing.encode_msg m
  = Raise (mkProtocolError 400 None "Payload too large for control channel")
  /\ Framing.decode_msg (Json.dumps m ++ [Framing.FRAME_DELIMITER]) = Framing.Decoded m
  /\ SocketServer.serve_frame (fun _ => "") (fun _ => None) (fun _ _ => None)
       (fun _ => None) 1 (Json.dumps m ++ [Framing.FRAME_DELIMITER]) 2
       Spec.one_connection
     = (Spec.one_connection, SocketServer.Closed "LimitOverrunError",
        Json.dumps m ++ [Framing.FRAME_DELIMITER]).
Proof.
  intros m.
  assert (Hsize : (262145 <= N.of_nat (length (Json.dumps m)))%N).
  { pose proof (padded_envelope_length (N.to_nat 262145)) as H. fold m in H. lia. }
  destruct (oversized_inbound_frame_closes (fun _ => "") (fun _ => None)
              (fun _ _ => None) (fun _ => None) 1 m [] 2 Spec.one_connection
              (padded_envelope_python _)) as (Hside & Hserve).
  - unfold Framing.STREAM_LIMIT. lia.
  - destruct (Hside eq_refl) as (Henc & _ & Hdec).
    split; [|split; [exact Hdec|exact Hserve]].
    apply Henc. unfold Framing.MAX_PAYLOAD_SIZE. lia.
Defined.

(* ===================================================================== *)
(** * Part III: further properties of the code *)
(* ===================================================================== *)

(** ** Friendships in the store *)

Section FriendStore.
Import SQLiteStore.

Lemma ltb_irrefl (a : string) : String.ltb a a = false.
Proof.
  destruct (String.ltb a a) eqn:E; [|reflexivity].
  now rewrite (ltb_asym a a E) in E.
Qed.

(** The pair under which a friendship is stored. *)
Lemma canonical_swap (a b : string) :
  (if String.ltb b a then (b, a) else (a, b))
  = (if String.ltb a b then (a, b) else (b, a)).
Proof.
  destruct (String.eqb_spec a b) as [->|Hne]; [now rewrite ltb_irrefl|].
  destruct (String.ltb b a) eqn:Hba.
  - now rewrite (ltb_asym b a Hba).
  - now rewrite (ltb_total b a (fun E => Hne (eq_sym E)) Hba).
Qed.

Lemma find_app_none {A : Type} (p : A -> bool) (l : list A) (x : A) :
  find p l = None -> find p (l ++ [x]) = find p [x].
Proof.
  induction l as [|y l IH]; [reflexivity|]. cbn [find app].
  destruct (p y); [discriminate|]. exact IH.
Qed.

Lemma find_map_same {A : Type} (p : A -> bool) (f : A -> A) (l : list A) :
  (forall x, p (f x) = p x) ->
  find p (map f l) = option_map f (find p l).
Proof.
  intros Hp. induction l as [|y l IH]; [reflexivity|]. cbn [find map].
  rewrite Hp. destruct (p y); [reflexivity|]. exact IH.
Qed.

(** After [send_friend_request] the first row of the pair is the request:
    it has the id returned, it is pending and it holds the message. *)
Lemma send_friend_request_row (a b : string) (m : option string) (now : Z) (s : Store) :
  exists row,
    find (fun r => String.eqb (fr_from_user r) a && String.eqb (fr_to_user r) b)
         (friend_requests (fst (send_friend_request a b m now s))) = Some row
    /\ fr_id row = snd (send_friend_request a b m now s)
    /\ fr_status row = "pending"
    /\ fr_message row = m.
Proof.
  unfold send_friend_request.
  set (p := fun r => String.eqb (fr_from_user r) a && String.eqb (fr_to_user r) b).
  destruct (find p (friend_requests s)) as [row|] eqn:E; cbn [fst snd friend_requests].
  - unfold set_friend_requests. cbn [friend_requests].
    rewrite find_map_same.
    + rewrite E. cbn [option_map]. apply find_some in E as [_ Hp].
      fold (p row). rewrite Hp. eexists. split; [reflexivity|]. cbn. auto.
    + intros x. unfold p.
      destruct (String.eqb (fr_from_user x) a && String.eqb (fr_to_user x) b) eqn:Hx;
        cbn [fr_from_user fr_to_user]; exact Hx.
  - rewrite (find_app_none p _ _ E). cbn [find]. unfold p at 1.
    cbn [fr_from_user fr_to_user]. rewrite !String.eqb_refl. cbn [andb].
    eexists. split; [reflexivity|]. cbn. auto.
Qed.

Lemma existsb_filter_keep {A : Type} (q keep : A -> bool) (l : list A) :
  (forall x, q x = true -> keep x = true) ->
  existsb q (List.filter keep l) = existsb q l.
Proof.
  intros H. induction l as [|x l IH]; [reflexivity|]. cbn [List.filter existsb].
  destruct (keep x) eqn:Hk; cbn [existsb]; rewrite IH; [reflexivity|].
  destruct (q x) eqn:Hq; [|reflexivity]. rewrite (H x Hq) in Hk. discriminate.
Qed.

Lemma existsb_filter_out {A : Type} (q : A -> bool) (l : list A) :
  existsb q (List.filter (fun x => negb (q x)) l) = false.
Proof.
  induction l as [|x l IH]; [reflexivity|]. cbn [List.filter].
  destruct (q x) eqn:Hq; cbn [negb existsb]; [exact IH|]. now rewrite Hq, IH.
Qed.

(** No row with the id is pending once the request was rejected. *)
Lemma reject_leaves_none_pending (rid now : Z) (s : Store) :
  sqlite_integer rid = true ->
  existsb (fun r => (fr_id r =? rid) && String.eqb (fr_status r) "pending")
          (friend_requests (fst (reject_friend_request rid now s))) = false.
Proof.
  intros Hint. unfold reject_friend_request. rewrite Hint. cbn [negb].
  set (p := fun r => (fr_id r =? rid) && String.eqb (fr_status r) "pending").
  destruct (existsb p (friend_requests s)) eqn:E; cbn [fst]; [|exact E].
  unfold set_friend_requests. cbn [friend_requests]. clear E.
  induction (friend_requests s) as [|x l IH]; [reflexivity|]. cbn [map existsb].
  rewrite IH, orb_false_r. fold (p x).
  destruct (p x) eqn:Hx; [|exact Hx].
  unfold p. cbn [fr_id fr_status]. apply andb_false_r.
Qed.

Lemma find_none_of_existsb {A : Type} (p : A -> bool) (l : list A) :
  existsb p l = false -> find p l = None.
Proof.
  induction l as [|x l IH]; [reflexivity|]. cbn [existsb find].
  destruct (p x); [discriminate|]. exact IH.
Qed.




(** The friendship rows keep their constraints. *)
Lemma insert_friend_wf (a b : string) (now : Z) (s s' : Store) :
  Spec.friends_wf s -> insert_friend a b now s = Some s' -> Spec.friends_wf s'.
Proof.
  intros [Hlt Hnd]. unfold insert_friend.
  destruct (String.ltb a b) eqn:Hab; [|discriminate]. cbn [andb].
  destruct (existsb _ (friends s)) eqn:Hex; [discriminate|]. cbn [negb].
  intros [= <-]. unfold Spec.friends_wf, set_friends. cbn [friends]. split.
  - apply Forall_app. split; [exact Hlt|]. constructor; [exact Hab|constructor].
  - rewrite map_app. cbn [map f_user1 f_user2]. apply nodup_snoc; [exact Hnd|].
    intros Hin. apply in_map_iff in Hin as (f & Hf & Hin).
    injection Hf as H1 H2.
    assert (existsb (fun f => String.eqb (f_user1 f) a && String.eqb (f_user2 f) b)
                    (friends s) = true); [|congruence].
    apply existsb_exists. exists f. split; [exact Hin|].
    rewrite H1, H2, !String.eqb_refl. reflexivity.
Qed.

Lemma accept_friend_request_wf (rid now : Z) (s : Store) :
  Spec.friends_wf s -> Spec.friends_wf (fst (accept_friend_request rid now s)).
Proof.
  intros Hwf. unfold accept_friend_request.
  destruct (negb (sqlite_integer rid)); [exact Hwf|].
  destruct (find _ (friend_requests s)) as [row|]; [|exact Hwf].
  destruct (String.ltb (fr_from_user row) (fr_to_user row));
    destruct (insert_friend _ _ now s) as [s1|] eqn:E; cbn [fst];
    try exact Hwf; exact (insert_friend_wf _ _ _ _ _ Hwf E).
Qed.


End FriendStore.

(** X1. [are_friends] does not depend on the order of its arguments. *)
Theorem are_friends_symmetric (a b : string) (s : SQLiteStore.Store) :
  SQLiteStore.are_friends a b s = SQLiteStore.are_friends b a s.
Proof.
  unfold SQLiteStore.are_friends. now rewrite (canonical_swap a b).
Qed.

(** X2. On a table [friends] that meets its constraints, [list_friends a]
    holds exactly the users [b] for whom [are_friends a b] is true. *)
Theorem list_friends_agrees (a b : string) (s : SQLiteStore.Store) :
  Spec.friends_wf s ->
  In b (SQLiteStore.list_friends a s) <-> SQLiteStore.are_friends a b s = true.
Proof.
  intros [Hlt _]. unfold SQLiteStore.list_friends, SQLiteStore.are_friends.
  rewrite List.Forall_forall in Hlt. split.
  - intros H. apply in_map_iff in H as (f & Hb & Hf).
    apply List.filter_In in Hf as [Hin Hp]. specialize (Hlt f Hin).
    destruct (String.eqb_spec (SQLiteStore.f_user1 f) a) as [H1|H1].
    + subst a b. rewrite (ltb_asym _ _ Hlt).
      apply existsb_exists. exists f. now rewrite !String.eqb_refl.
    + cbn [orb] in Hp. apply String.eqb_eq in Hp. subst a b. rewrite Hlt.
      apply existsb_exists. exists f. now rewrite !String.eqb_refl.
  - intros H.
    destruct (String.ltb b a) eqn:Hba; apply existsb_exists in H as (f & Hin & Hf);
      apply andb_true_iff in Hf as [H1 H2]; apply String.eqb_eq in H1, H2;
      apply in_map_iff; exists f.
    + assert (Hne : String.eqb (SQLiteStore.f_user1 f) a = false).
      { apply String.eqb_neq. intros E. rewrite <- H1, E in Hba.
        now rewrite ltb_irrefl in Hba. }
      rewrite Hne. split; [exact H1|]. apply List.filter_In. split; [exact Hin|].
      rewrite Hne, H2, String.eqb_refl. reflexivity.
    + rewrite H1, String.eqb_refl. split; [exact H2|].
      apply List.filter_In. split; [exact Hin|]. now rewrite H1, String.eqb_refl.
Qed.

(** Alice and bob after bob's accept: each is in the other's list. *)
Lemma list_friends_agrees_witness :
  In "bob" (SQLiteStore.list_friends "alice" (store Spec.friends_world))
  /\ In "alice" (SQLiteStore.list_friends "bob" (store Spec.friends_world)).
Proof.
  assert (Hwf : Spec.friends_wf (store Spec.friends_world)).
  { apply accept_friend_request_wf. split; constructor. }
  split.
  - apply (proj2 (list_friends_agrees "alice" "bob" _ Hwf)). reflexivity.
  - apply (proj2 (list_friends_agrees "bob" "alice" _ Hwf)). reflexivity.
Defined.

(** X3. [delete_friend a b] returns whether the two were friends; after it
    they are not, and every other pair is as before. *)
Theorem delete_friend_effect (a b : string) (s : SQLiteStore.Store) :
  snd (SQLiteStore.delete_friend a b s) = SQLiteStore.are_friends a b s
  /\ SQLiteStore.are_friends a b (fst (SQLiteStore.delete_friend a b s)) = false
  /\ forall c d, (c, d) <> (a, b) -> (c, d) <> (b, a) ->
       SQLiteStore.are_friends c d (fst (SQLiteStore.delete_friend a b s))
       = SQLiteStore.are_friends c d s.
Proof.
  unfold SQLiteStore.delete_friend, SQLiteStore.are_friends.
  destruct (if String.ltb b a then (b, a) else (a, b)) as [x y] eqn:Hxy.
  cbn [fst snd]. unfold SQLiteStore.set_friends. cbn [SQLiteStore.friends].
  split; [reflexivity|]. split.
  - apply (existsb_filter_out
             (fun f => String.eqb (SQLiteStore.f_user1 f) x
                       && String.eqb (SQLiteStore.f_user2 f) y)).
  - intros c d H1 H2.
    destruct (if String.ltb d c then (d, c) else (c, d)) as [x' y'] eqn:Hxy'.
    apply existsb_filter_keep. intros f Hf.
    apply andb_true_iff in Hf as [Hf1 Hf2]. apply String.eqb_eq in Hf1, Hf2.
    apply negb_true_iff. apply andb_false_iff.
    destruct (String.eqb_spec (SQLiteStore.f_user1 f) x) as [E1|E1]; [|now left].
    destruct (String.eqb_spec (SQLiteStore.f_user2 f) y) as [E2|E2]; [|now right].
    exfalso. assert (Hsame : (x', y') = (x, y)) by congruence.
    rewrite <- Hxy, <- Hxy' in Hsame.
    destruct (String.ltb d c), (String.ltb b a); injection Hsame as -> ->; auto.
Qed.

(** X4. Asking the same user again does not add a request: the second
    [send_friend_request] returns the id of the first, the table keeps its
    length, and the row is pending with the new message. *)
Theorem send_friend_request_twice
    (a b : string) (m1 m2 : option string) (t1 t2 : Z) (s : SQLiteStore.Store) :
  let first := SQLiteStore.send_friend_request a b m1 t1 s in
  let second := SQLiteStore.send_friend_request a b m2 t2 (fst first) in
  snd second = snd first
  /\ length (SQLiteStore.friend_requests (fst second))
     = length (SQLiteStore.friend_requests (fst first))
  /\ exists row,
       In row (SQLiteStore.friend_requests (fst second))
       /\ SQLiteStore.fr_id row = snd first
       /\ SQLiteStore.fr_from_user row = a /\ SQLiteStore.fr_to_user row = b
       /\ SQLiteStore.fr_status row = "pending"
       /\ SQLiteStore.fr_message row = m2.
Proof.
  intros first second.
  destruct (send_friend_request_row a b m1 t1 s) as (row & Hfind & Hid & _).
  fold first in Hfind, Hid.
  destruct (send_friend_request_row a b m2 t2 (fst first))
    as (row2 & Hfind2 & Hid2 & Hst2 & Hm2).
  fold second in Hfind2, Hid2.
  assert (Hsecond : snd second = SQLiteStore.fr_id row
                    /\ length (SQLiteStore.friend_requests (fst second))
                       = length (SQLiteStore.friend_requests (fst first))).
  { unfold second, SQLiteStore.send_friend_request. rewrite Hfind.
    cbn [fst snd]. unfold SQLiteStore.set_friend_requests.
    cbn [SQLiteStore.friend_requests]. now rewrite length_map. }
  destruct Hsecond as [Hs Hlen].
  split; [congruence|]. split; [exact Hlen|].
  exists row2. apply find_some in Hfind2 as [Hin Hp].
  apply andb_true_iff in Hp as [Hp1 Hp2]. apply String.eqb_eq in Hp1, Hp2.
  repeat split; auto; congruence.
Qed.

(** X5. A rejection is final: after [reject_friend_request] of an id that
    SQLite can bind, whatever it returned, [accept_friend_request] of that
    id reports failure and changes nothing, and a second rejection reports
    failure too. No friendship is made by rejecting. An id that SQLite
    cannot bind is refused with [OverflowError] before anything is looked
    up. *)
Theorem reject_is_final (rid t1 t2 : Z) (s : SQLiteStore.Store) :
  let s1 := fst (SQLiteStore.reject_friend_request rid t1 s) in
  (SQLiteStore.sqlite_integer rid = true ->
   SQLiteStore.accept_friend_request rid t2 s1 = (s1, Ok false)
   /\ SQLiteStore.reject_friend_request rid t2 s1 = (s1, Ok false)
   /\ SQLiteStore.friends s1 = SQLiteStore.friends s)
  /\ (SQLiteStore.sqlite_integer rid = false ->
      SQLiteStore.reject_friend_request rid t1 s = (s, Crash "OverflowError")
      /\ SQLiteStore.accept_friend_request rid t2 s = (s, Crash "OverflowError")).
Proof.
  intros s1. split.
  - intros Hint. pose proof (reject_leaves_none_pending rid t1 s Hint) as H.
    fold s1 in H. split; [|split].
    + unfold SQLiteStore.accept_friend_request. rewrite Hint. cbn [negb].
      now rewrite (find_none_of_existsb _ _ H).
    + unfold SQLiteStore.reject_friend_request. rewrite Hint. cbn [negb].
      now rewrite H.
    + unfold s1, SQLiteStore.reject_friend_request. rewrite Hint. cbn [negb].
      destruct (existsb _ (SQLiteStore.friend_requests s)); reflexivity.
  - intros Hint. unfold SQLiteStore.reject_friend_request,
      SQLiteStore.accept_friend_request. now rewrite Hint.
Qed.

(** Bob rejects the request of alice, then tries to accept it. *)
Lemma reject_is_final_witness :
  let s1 := fst (SQLiteStore.reject_friend_request 1 2 (store Spec.asked_world)) in
  Spec.request_status 1 s1 = Some "rejected"
  /\ SQLiteStore.accept_friend_request 1 3 s1 = (s1, Ok false)
  /\ SQLiteStore.reject_friend_request 9223372036854775808 2 (store Spec.asked_world)
     = (store Spec.asked_world, Crash "OverflowError").
Proof.
  intros s1. split; [reflexivity|]. split.
  - exact (proj1 (proj1 (reject_is_final 1 2 3 (store Spec.asked_world)) eq_refl)).
  - exact (proj1 (proj2 (reject_is_final 9223372036854775808 2 3
                           (store Spec.asked_world)) eq_refl)).
Defined.



(** ** Rooms and membership *)

Section RoomStore.
Import SQLiteStore Spec.
Context {A : Type}.

Lemma insert_sorted_Sorted (le : A -> A -> bool) (x : A) (l : list A) :
  (forall a b, le a b = true \/ le b a = true) ->
  Sorted (fun a b => le a b = true) l ->
  Sorted (fun a b => le a b = true) (insert_sorted le x l).
Proof.
  intros Htotal. induction 1 as [|y rest Hrest IH Hy]; cbn [insert_sorted].
  - repeat constructor.
  - destruct (le x y) eqn:Hxy.
    + constructor; [constructor; assumption|]. constructor. exact Hxy.
    + constructor; [exact IH|].
      destruct rest as [|z rest']; cbn [insert_sorted].
      * constructor. destruct (Htotal x y); congruence.
      * destruct (le x z).
        -- constructor. destruct (Htotal x y); congruence.
        -- inversion Hy; subst. now constructor.
Qed.

(** The result of [sort_by] is in order, for a total comparison. *)
Lemma sort_by_Sorted (le : A -> A -> bool) (l : list A) :
  (forall a b, le a b = true \/ le b a = true) ->
  Sorted (fun a b => le a b = true) (sort_by le l).
Proof.
  intros Htotal. induction l as [|x l IH]; cbn [sort_by]; [constructor|].
  now apply insert_sorted_Sorted.
Qed.

Lemma in_sort_by (le : A -> A -> bool) (l : list A) (x : A) :
  In x (sort_by le l) <-> In x l.
Proof.
  split; intros H.
  - eapply Permutation_in; [apply sort_by_perm|exact H].
  - eapply Permutation_in; [symmetry; apply sort_by_perm|exact H].
Qed.

Lemma filter_filter_out (p : A -> bool) (l : list A) :
  List.filter p (List.filter (fun x => negb (p x)) l) = [].
Proof.
  induction l as [|x l IH]; [reflexivity|]. cbn [List.filter].
  destruct (p x) eqn:Hp; cbn [negb List.filter]; [exact IH|]. now rewrite Hp.
Qed.

Lemma filter_filter_keep (p keep : A -> bool) (l : list A) :
  (forall x, p x = true -> keep x = true) ->
  List.filter p (List.filter keep l) = List.filter p l.
Proof.
  intros H. induction l as [|x l IH]; [reflexivity|]. cbn [List.filter].
  destruct (keep x) eqn:Hk; cbn [List.filter]; rewrite IH; [reflexivity|].
  destruct (p x) eqn:Hp; [|reflexivity]. rewrite (H x Hp) in Hk. discriminate.
Qed.

Lemma find_filter_keep (p keep : A -> bool) (l : list A) :
  (forall x, p x = true -> keep x = true) ->
  find p (List.filter keep l) = find p l.
Proof.
  intros H. induction l as [|x l IH]; [reflexivity|]. cbn [List.filter find].
  destruct (keep x) eqn:Hk; cbn [find]; rewrite IH; [reflexivity|].
  destruct (p x) eqn:Hp; [|reflexivity]. rewrite (H x Hp) in Hk. discriminate.
Qed.

Lemma filter_none_out (q : A -> bool) (l : list A) :
  existsb q l = false -> List.filter (fun x => negb (q x)) l = l.
Proof.
  induction l as [|x l IH]; [reflexivity|]. cbn [existsb List.filter].
  intros H. apply orb_false_iff in H as [Hx Hl]. rewrite Hx. cbn [negb].
  now rewrite (IH Hl).
Qed.

End RoomStore.

Section RoomMembership.
Import SQLiteStore Spec.

Lemma is_member_spec (user room : string) (s : Store) :
  is_member user room s = true
  <-> exists m, In m (room_members s) /\ m_room_id m = room /\ m_user_id m = user.
Proof.
  unfold is_member. rewrite existsb_exists. split.
  - intros (m & Hin & Hm). apply is_member_row_eq in Hm. eauto.
  - intros (m & Hin & Hm). exists m. split; [exact Hin|]. now apply is_member_row_eq.
Qed.

Lemma is_member_set_rooms (user room : string) (v : list RoomRow) (s : Store) :
  is_member user room (set_rooms v s) = is_member user room s.
Proof. reflexivity. Qed.

(** A row added for someone else. *)
Lemma is_member_add_other (user room other room' : string) (now : Z) (s : Store) :
  user <> other ->
  is_member user room (set_room_members (room_members s ++ [mkMember room' other now]) s)
  = is_member user room s.
Proof.
  intros Hne. unfold is_member, set_room_members. cbn [room_members].
  rewrite existsb_app. cbn [existsb]. unfold is_member_row at 2.
  cbn [m_room_id m_user_id].
  assert (String.eqb other user = false) as ->
    by (apply String.eqb_neq; congruence).
  now rewrite andb_false_r, !orb_false_r.
Qed.

(** Rows removed for someone else, or in another room. *)
Lemma is_member_remove_other (user room other room' : string) (s : Store) :
  user <> other \/ room <> room' ->
  is_member user room (remove_member room' other s) = is_member user room s.
Proof.
  intros Hne. unfold is_member, remove_member, set_room_members. cbn [room_members].
  apply existsb_filter_keep. intros m Hm. apply is_member_row_eq in Hm as [H1 H2].
  apply negb_true_iff. unfold is_member_row. rewrite H1, H2.
  destruct Hne as [Hne|Hne].
  - assert (String.eqb user other = false) as -> by now apply String.eqb_neq.
    apply andb_false_r.
  - assert (String.eqb room room' = false) as -> by now apply String.eqb_neq.
    reflexivity.
Qed.

Lemma is_member_delete_other (user room room' : string) (s : Store) :
  room <> room' ->
  is_member user room (delete_room room' s) = is_member user room s.
Proof.
  intros Hne. unfold is_member, delete_room, set_rooms, set_room_members.
  cbn [room_members]. apply existsb_filter_keep. intros m Hm.
  apply is_member_row_eq in Hm as [H1 _]. rewrite H1.
  apply negb_true_iff. now apply String.eqb_neq.
Qed.

Lemma get_room_created (room owner : string) (encrypted : bool)
    (hash : option string) (metadata : json) (now : Z) (s s' : Store) :
  create_room room owner encrypted hash metadata now s = Some s' ->
  get_room room s' = Some (mkRoom room owner encrypted now hash metadata)
  /\ forall user, user <> owner -> is_member user room s' = is_member user room s.
Proof.
  unfold create_room. destruct (room_exists room s) eqn:E; [discriminate|].
  intros [= <-].
  assert (Hget : find (fun r => String.eqb (r_room_id r) room)
                      (rooms s ++ [mkRoom room owner encrypted now hash metadata])
                 = Some (mkRoom room owner encrypted now hash metadata)).
  { rewrite find_app_none by (apply find_none_of_existsb; exact E).
    cbn [find r_room_id]. now rewrite String.eqb_refl. }
  destruct (existsb _ _); (split; [exact Hget|]); intros user Hne.
  - reflexivity.
  - exact (is_member_add_other user room owner room now _ Hne).
Qed.

Lemma room_exists_of_get (room : string) (s : Store) (r : RoomRow) :
  get_room room s = Some r -> room_exists room s = true.
Proof.
  unfold get_room, room_exists. intros H. apply find_some in H as [Hin Hr].
  apply existsb_exists. eauto.
Qed.

End RoomMembership.

(** X7. [list_room_members] returns the members of the room in ascending
    order: a user is in the list exactly when [room_members] has a row for
    the user and the room. *)
Theorem list_room_members_ascending (room : string) (s : SQLiteStore.Store) :
  Spec.ascending (SQLiteStore.list_room_members room s)
  /\ forall u, In u (SQLiteStore.list_room_members room s)
               <-> Spec.is_member u room s = true.
Proof.
  split.
  - apply sort_by_Sorted, String.leb_total.
  - intros u. unfold SQLiteStore.list_room_members. rewrite in_sort_by, in_map_iff.
    rewrite is_member_spec. split.
    + intros (m & Hu & Hin). apply List.filter_In in Hin as [Hin Hr].
      apply String.eqb_eq in Hr. eauto.
    + intros (m & Hin & Hr & Hu). exists m. split; [exact Hu|].
      apply List.filter_In. split; [exact Hin|]. now apply String.eqb_eq.
Qed.

(** X8. [delete_room] removes the room and every membership of it, and
    leaves the other rooms and their member lists as they are. *)
Theorem delete_room_effect (room : string) (s : SQLiteStore.Store) :
  let s' := SQLiteStore.delete_room room s in
  SQLiteStore.room_exists room s' = false
  /\ SQLiteStore.get_room room s' = None
  /\ SQLiteStore.list_room_members room s' = []
  /\ forall other, other <> room ->
       SQLiteStore.get_room other s' = SQLiteStore.get_room other s
       /\ SQLiteStore.list_room_members other s'
          = SQLiteStore.list_room_members other s.
Proof.
  intros s'. subst s'.
  unfold SQLiteStore.delete_room, SQLiteStore.room_exists, SQLiteStore.get_room,
    SQLiteStore.list_room_members, SQLiteStore.set_rooms, SQLiteStore.set_room_members.
  cbn [SQLiteStore.rooms SQLiteStore.room_members].
  assert (Hex : existsb (fun r => String.eqb (SQLiteStore.r_room_id r) room)
                  (List.filter (fun r => negb (String.eqb (SQLiteStore.r_room_id r) room))
                               (SQLiteStore.rooms s)) = false)
    by apply (existsb_filter_out
                (fun r => String.eqb (SQLiteStore.r_room_id r) room)).
  split; [exact Hex|]. split; [now apply find_none_of_existsb|]. split.
  - now rewrite (filter_filter_out
                   (fun m => String.eqb (SQLiteStore.m_room_id m) room)).
  - intros other Hne. split.
    + apply find_filter_keep. intros r Hr. apply String.eqb_eq in Hr.
      rewrite Hr. apply negb_true_iff. now apply String.eqb_neq.
    + rewrite filter_filter_keep; [reflexivity|]. intros m Hm.
      apply String.eqb_eq in Hm. rewrite Hm. apply negb_true_iff.
      now apply String.eqb_neq.
Qed.

(** X9. A room request changes nobody else's membership unless it comes
    from the owner of the room: for a user [v] other than the sender, and a
    room [r] that the sender does not own, [v] is a member of [r] after the
    request exactly when [v] was one before. *)
Theorem only_owner_removes_others
    (sha256_hex : string -> string) (op : Spec.RoomOp) (w : World) (v r : string) :
  v <> Spec.actor op ->
  (forall row, SQLiteStore.get_room r (store w) = Some row ->
               SQLiteStore.r_owner row <> Spec.actor op) ->
  Spec.is_member v r (store (Spec.room_step sha256_hex op w))
  = Spec.is_member v r (store w).
Proof.
  intros Hv Howner.
  destruct op as [user room encrypted password now|user room password now
                 |user room|user room target|user room];
    cbn [Spec.actor] in Hv, Howner; cbn [Spec.room_step].
  - unfold RoomService.handle_create.
    destruct (negb (present (Some room))); [reflexivity|].
    destruct (encrypted && negb (present password)); [reflexivity|].
    destruct (SQLiteStore.create_room _ _ _ _ _ _ (store w)) as [st|] eqn:E;
      [|reflexivity].
    cbn [fst store set_store]. cbn [default from_option id] in E.
    destruct (String.eqb_spec r room) as [->|Hr].
    + exact (proj2 (get_room_created _ _ _ _ _ _ _ _ E) v Hv).
    + unfold SQLiteStore.create_room in E.
      destruct (SQLiteStore.room_exists room (store w)); [discriminate|].
      injection E as <-. destruct (existsb _ _); [reflexivity|].
      exact (is_member_add_other v r user room now _ Hv).
  - unfold RoomService.handle_join.
    destruct (negb (present (Some room))); [reflexivity|].
    cbn [default from_option id].
    destruct (SQLiteStore.get_room room (store w)) as [row|]; [|reflexivity].
    destruct (_ && negb (present password)); [reflexivity|].
    destruct (_ && negb (bool_decide _)); [reflexivity|].
    unfold SQLiteStore.add_member.
    destruct (_ || _); [reflexivity|]. cbn [fst store set_store].
    exact (is_member_add_other v r user _ now _ Hv).
  - unfold RoomService.handle_leave.
    destruct (negb (present (Some room))); [reflexivity|].
    cbn [default from_option id].
    destruct (negb (SQLiteStore.room_exists room (store w))); [reflexivity|].
    cbn [fst store set_store]. apply is_member_remove_other. now left.
  - unfold RoomService.handle_kick.
    destruct (negb (present (Some room)) || negb (present (Some target))) eqn:Hp;
      [reflexivity|].
    cbn [default from_option id].
    destruct (SQLiteStore.get_room room (store w)) as [row|] eqn:Hget; [|reflexivity].
    destruct (String.eqb_spec (SQLiteStore.r_owner row) user) as [Ho|Ho];
      cbn [negb]; [|reflexivity].
    destruct (String.eqb target user); [reflexivity|]. cbn [fst store set_store].
    apply is_member_remove_other. right. intros ->. exact (Howner row Hget Ho).
  - unfold RoomService.handle_delete.
    destruct (negb (present (Some room))); [reflexivity|].
    cbn [default from_option id].
    destruct (SQLiteStore.get_room room (store w)) as [row|] eqn:Hget; [|reflexivity].
    destruct (String.eqb_spec (SQLiteStore.r_owner row) user) as [Ho|Ho];
      cbn [negb]; [|reflexivity].
    cbn [fst store set_store]. apply is_member_delete_other.
    intros ->. exact (Howner row Hget Ho).
Qed.

(** Bob tries to kick alice out of her own room. *)
Lemma only_owner_removes_others_witness :
  Spec.is_member "alice" "r1"
    (store (Spec.room_step (fun p => p) (Spec.Kick "bob" "r1" "alice") Spec.alice_room))
  = true.
Proof.
  rewrite (only_owner_removes_others (fun p => p) (Spec.Kick "bob" "r1" "alice")
             Spec.alice_room "alice" "r1").
  - reflexivity.
  - discriminate.
  - intros row [= <-]. discriminate.
Defined.

(** X10. [room/join] by a user who is a member already is not answered:
    the request passes the checks, [add_member] raises [ValueError], which
    the handler does not catch, and nothing is written. *)
Theorem join_by_member_raises
    (sha256_hex : string -> string) (user room : string) (password : option string)
    (now : Z) (w : World) (row : SQLiteStore.RoomRow) :
  room <> "" ->
  SQLiteStore.get_room room (store w) = Some row ->
  (SQLiteStore.r_encrypted row = true ->
   present password = true
   /\ SQLiteStore.r_password_hash row = Some (sha256_hex (default "" password))) ->
  Spec.is_member user room (store w) = true ->
  RoomService.handle_join sha256_hex (Some user) (Some room) password now w
  = (w, Crash "ValueError").
Proof.
  intros Hroom Hget Hpass Hmember. unfold RoomService.handle_join.
  apply String.eqb_neq in Hroom. cbn [present default from_option id].
  rewrite Hroom, Hget. cbn [negb].
  assert (Hgate : SQLiteStore.r_encrypted row && negb (present password) = false
                  /\ SQLiteStore.r_encrypted row
                     && negb (bool_decide (SQLiteStore.r_password_hash row
                                           = Some (sha256_hex (default "" password))))
                     = false).
  { destruct (SQLiteStore.r_encrypted row); [|auto].
    destruct (Hpass eq_refl) as [H1 H2]. rewrite H1. split; [reflexivity|].
    cbn [andb]. apply negb_false_iff. now apply bool_decide_eq_true. }
  destruct Hgate as [-> ->].
  unfold SQLiteStore.add_member. unfold Spec.is_member in Hmember.
  now rewrite Hmember.
Qed.

(** Alice joins the room she has just made. *)
Lemma join_by_member_raises_witness :
  RoomService.handle_join (fun p => p) (Some "alice") (Some "r1") None 2 Spec.alice_room
  = (Spec.alice_room, Crash "ValueError").
Proof.
  apply (join_by_member_raises (fun p => p) "alice" "r1" None 2 Spec.alice_room
           (SQLiteStore.mkRoom "r1" "alice" false 1 None (JObj []))).
  - discriminate.
  - reflexivity.
  - discriminate.
  - reflexivity.
Defined.

(** X11. Leaving undoes joining: when [room/join] is answered with status
    200, a [room/leave] of the same user and room puts the store back as it
    was before the join, and is answered with status 200. *)
Theorem join_then_leave
    (sha256_hex : string -> string) (user room : string) (password : option string)
    (now : Z) (w w1 : World) (resp : Response) :
  RoomService.handle_join sha256_hex (Some user) (Some room) password now w
  = (w1, Ok resp) ->
  resp_status resp = Some (JInt 200) ->
  RoomService.handle_leave (Some user) (Some room) w1
  = (w, Ok (mkResponse "room/leave" [("status", JInt 200); ("room_id", JStr room)])).
Proof.
  unfold RoomService.handle_join, RoomService.handle_leave.
  destruct (negb (present (Some room))) eqn:Hp; [discriminate|].
  cbn [default from_option id].
  destruct (SQLiteStore.get_room room (store w)) as [row|] eqn:Hget;
    [|intros [= <- <-]; discriminate].
  destruct (_ && negb (present password)); [discriminate|].
  destruct (_ && negb (bool_decide _)); [intros [= <- <-]; discriminate|].
  unfold SQLiteStore.add_member.
  destruct (existsb _ (SQLiteStore.room_members (store w))) eqn:Hmem;
    [discriminate|].
  cbn [orb].
  destruct (negb (SQLiteStore.room_exists room (store w))) eqn:Hex; [discriminate|].
  intros [= <- <-] _. cbn [store set_store].
  assert (Hex' : SQLiteStore.room_exists room
                   (SQLiteStore.set_room_members
                      (SQLiteStore.room_members (store w)
                       ++ [SQLiteStore.mkMember room user now]) (store w))
                 = SQLiteStore.room_exists room (store w)) by reflexivity.
  rewrite Hex', Hex. f_equal.
  unfold SQLiteStore.remove_member, SQLiteStore.set_room_members, set_store.
  cbn [SQLiteStore.room_members SQLiteStore.users SQLiteStore.sessions
       SQLiteStore.presence SQLiteStore.messages SQLiteStore.rooms
       SQLiteStore.offline_queue SQLiteStore.offline_seq SQLiteStore.friend_requests
       SQLiteStore.friend_requests_seq SQLiteStore.friends registry store].
  rewrite List.filter_app. cbn [List.filter].
  unfold SQLiteStore.is_member_row at 2. cbn [SQLiteStore.m_room_id SQLiteStore.m_user_id].
  rewrite !String.eqb_refl. cbn [andb negb].
  rewrite (filter_none_out _ _ Hmem), app_nil_r.
  destruct w as [st reg]. destruct st. reflexivity.
Qed.

(** Bob joins alice's room and leaves it. *)
Lemma join_then_leave_witness :
  RoomService.handle_leave (Some "bob") (Some "r1")
    (fst (RoomService.handle_join (fun p => p) (Some "bob") (Some "r1") None 2
            Spec.alice_room))
  = (Spec.alice_room,
     Ok (mkResponse "room/leave" [("status", JInt 200); ("room_id", JStr "r1")])).
Proof.
  eapply (join_then_leave (fun p => p) "bob" "r1" None 2 Spec.alice_room);
    reflexivity.
Defined.

(** X12. The password gate of an encrypted room. After [room/create] of a
    new encrypted room with password [p], a [room/join] of a non-member
    without a password raises FORBIDDEN, one with a password whose hash
    differs from that of [p] is answered 403 and changes nothing, and one
    with a password of the same hash is answered 200 and makes the user a
    member. *)
Theorem encrypted_room_password_gate
    (sha256_hex : string -> string) (owner room p user q : string) (now now' : Z)
    (w : World) :
  room <> "" -> p <> "" -> q <> "" -> user <> owner ->
  SQLiteStore.room_exists room (store w) = false ->
  Spec.is_member user room (store w) = false ->
  let w1 := Spec.room_step sha256_hex (Spec.Create owner room true (Some p) now) w in
  let joined := RoomService.handle_join sha256_hex (Some user) (Some room) (Some q)
                  now' w1 in
  RoomService.handle_join sha256_hex (Some user) (Some room) None now' w1
  = (w1, Raise (mkProtocolError 403 None "Password required"))
  /\ (sha256_hex q <> sha256_hex p ->
      joined = (w1, Ok (mkResponse "room/join"
                          [("status", JInt 403); ("room_id", JStr room);
                           ("error_message", JStr "Invalid password")])))
  /\ (sha256_hex q = sha256_hex p ->
      resp_status_of (snd joined) = Some (JInt 200)
      /\ Spec.is_member user room (store (fst joined)) = true).
Proof.
  intros Hroom Hp Hq Huser Hnew Hmember w1 joined.
  apply String.eqb_neq in Hroom, Hp, Hq.
  assert (Hw1 : exists st,
             SQLiteStore.create_room room owner true (Some (sha256_hex p)) (JObj [])
               now (store w) = Some st
             /\ w1 = set_store st w).
  { unfold w1. cbn [Spec.room_step]. unfold RoomService.handle_create.
    cbn [present default from_option id]. rewrite Hroom, Hp. cbn [negb andb].
    unfold SQLiteStore.create_room. rewrite Hnew. eexists. split; reflexivity. }
  destruct Hw1 as (st & Hcreate & Hw1).
  destruct (get_room_created _ _ _ _ _ _ _ _ Hcreate) as [Hget Hothers].
  assert (Hmem1 : Spec.is_member user room (store w1) = false).
  { rewrite Hw1. cbn [store set_store]. now rewrite (Hothers user Huser). }
  assert (Hget1 : SQLiteStore.get_room room (store w1)
                  = Some (SQLiteStore.mkRoom room owner true now (Some (sha256_hex p))
                            (JObj []))).
  { now rewrite Hw1. }
  split; [|split].
  - unfold RoomService.handle_join. cbn [present default from_option id].
    rewrite Hroom, Hget1. reflexivity.
  - intros Hne. unfold joined, RoomService.handle_join.
    cbn [present default from_option id]. rewrite Hroom, Hq, Hget1.
    cbn [negb andb SQLiteStore.r_encrypted SQLiteStore.r_password_hash].
    rewrite bool_decide_eq_false_2 by congruence. reflexivity.
  - intros Heq. unfold joined, RoomService.handle_join.
    cbn [present default from_option id]. rewrite Hroom, Hq, Hget1.
    cbn [negb andb SQLiteStore.r_encrypted SQLiteStore.r_password_hash].
    rewrite bool_decide_eq_true_2 by congruence. cbn [negb].
    unfold SQLiteStore.add_member. unfold Spec.is_member in Hmem1. rewrite Hmem1.
    rewrite (room_exists_of_get room (store w1) _ Hget1).
    cbn [negb orb fst snd resp_status_of resp_status resp_payload assoc_get].
    split; [reflexivity|].
    unfold Spec.is_member, set_store, SQLiteStore.set_room_members.
    cbn [store SQLiteStore.room_members]. rewrite existsb_app. cbn [existsb].
    unfold SQLiteStore.is_member_row at 2.
    cbn [SQLiteStore.m_room_id SQLiteStore.m_user_id].
    rewrite !String.eqb_refl. apply orb_true_iff. right. reflexivity.
Qed.

(** Alice makes a room with password [pw]; bob tries without a password. *)
Lemma encrypted_room_password_gate_witness :
  RoomService.handle_join (fun p => p) (Some "bob") (Some "r1") None 2
    (Spec.room_step (fun p => p) (Spec.Create "alice" "r1" true (Some "pw") 1)
       Spec.empty_world)
  = (Spec.room_step (fun p => p) (Spec.Create "alice" "r1" true (Some "pw") 1)
       Spec.empty_world,
     Raise (mkProtocolError 403 None "Password required")).
Proof.
  exact (proj1 (encrypted_room_password_gate (fun p => p) "alice" "r1" "pw" "bob" "pw"
                  1 2 Spec.empty_world ltac:(discriminate) ltac:(discriminate)
                  ltac:(discriminate) ltac:(discriminate) eq_refl eq_refl)).
Defined.

(** ** Presence *)

Section Presence.
Import SQLiteStore Spec.

Lemma online_spec (v : string) (s : Store) :
  In v (list_online_users s)
  <-> exists r, In r (presence s) /\ p_username r = v /\ p_state r = "online".
Proof.
  unfold list_online_users. rewrite in_sort_by, in_map_iff. split.
  - intros (r & Hv & Hin). apply List.filter_In in Hin as [Hin Hst].
    apply String.eqb_eq in Hst. eauto.
  - intros (r & Hin & Hv & Hst). exists r. split; [exact Hv|].
    apply List.filter_In. split; [exact Hin|]. now apply String.eqb_eq.
Qed.

(** The rows of [presence] after [update_presence]: the row of the user is
    the new one, the others are as before. *)
Lemma update_presence_rows (u st : string) (now : Z) (s : Store) (r : PresenceRow) :
  In r (presence (update_presence u st now s))
  <-> (r = mkPresence u st now)
      \/ (In r (presence s) /\ p_username r <> u).
Proof.
  unfold update_presence.
  destruct (existsb (fun r => String.eqb (p_username r) u) (presence s)) eqn:E;
    unfold set_presence; cbn [presence].
  - rewrite in_map_iff. split.
    + intros (x & Hr & Hin). destruct (String.eqb_spec (p_username x) u) as [Hx|Hx].
      * now left.
      * right. subst r. auto.
    + intros [->|[Hin Hne]].
      * apply existsb_exists in E as (x & Hin & Hx). exists x.
        now rewrite Hx.
      * exists r. split; [|exact Hin]. apply String.eqb_neq in Hne. now rewrite Hne.
  - rewrite in_app_iff. cbn [In]. split.
    + intros [Hin|[<-|[]]]; [|now left]. right. split; [exact Hin|].
      intros Hu. apply String.eqb_eq in Hu.
      assert (existsb (fun r => String.eqb (p_username r) u) (presence s) = true);
        [|congruence].
      apply existsb_exists. eauto.
    + intros [->|[Hin _]]; auto.
Qed.

End Presence.

(** X13. After [update_presence u state], [list_online_users], which is in
    ascending order, holds [u] exactly when [state] is ["online"], and holds
    any other user exactly when it held that user before. *)
Theorem update_presence_online_list (u st : string) (now : Z) (s : SQLiteStore.Store) :
  let s' := SQLiteStore.update_presence u st now s in
  Spec.ascending (SQLiteStore.list_online_users s')
  /\ (In u (SQLiteStore.list_online_users s') <-> st = "online")
  /\ forall v, v <> u ->
       (In v (SQLiteStore.list_online_users s')
        <-> In v (SQLiteStore.list_online_users s)).
Proof.
  intros s'. subst s'. split; [apply sort_by_Sorted, String.leb_total|]. split.
  - rewrite online_spec. split.
    + intros (r & Hin & Hu & Hst). apply update_presence_rows in Hin as [->|[_ Hne]].
      * exact Hst.
      * contradiction.
    + intros ->. exists (SQLiteStore.mkPresence u "online" now).
      split; [|split; reflexivity]. apply update_presence_rows. now left.
  - intros v Hv. rewrite !online_spec. split.
    + intros (r & Hin & Hu & Hst). apply update_presence_rows in Hin as [->|[Hin _]].
      * cbn in Hu. congruence.
      * eauto.
    + intros (r & Hin & Hu & Hst). exists r. split; [|auto].
      apply update_presence_rows. right. split; [exact Hin|congruence].
Qed.

(** ** Frames on the stream *)

Section Stream.
Import Json Framing Spec.
Context {rt : Runtime}.

Lemma firstn_line (line rest : bytes) :
  firstn (S (length line)) (line ++ FRAME_DELIMITER :: rest) = line ++ [FRAME_DELIMITER].
Proof.
  induction line as [|c t IH]; [reflexivity|].
  cbn [length app]. rewrite firstn_cons. now rewrite IH.
Qed.

Lemma skipn_line (line rest : bytes) :
  skipn (S (length line)) (line ++ FRAME_DELIMITER :: rest) = rest.
Proof.
  induction line as [|c t IH]; [reflexivity|]. exact IH.
Qed.

(** A line within the limit is read whole, and what follows it stays. *)
Lemma readuntil_line (line rest : bytes) :
  no_delimiter line = true ->
  (N.of_nat (length line) <= STREAM_LIMIT)%N ->
  readuntil (line ++ FRAME_DELIMITER :: rest) = (ReadLine (line ++ [FRAME_DELIMITER]), rest).
Proof.
  intros Hline Hlen. unfold readuntil. rewrite (find_delimiter_line _ rest Hline).
  apply N.ltb_ge in Hlen. rewrite Hlen. now rewrite firstn_line, skipn_line.
Qed.

End Stream.

(** X14. What [encode_msg] writes, the server loop reads back. For an
    envelope that the [json] module takes (no integer of more than 4300
    digits, no nesting deeper than the stack allows) and whose text is at
    most 64 KiB, [encode_msg] returns the text and the delimiter, and one
    turn of the loop on a stream that starts with that frame handles exactly
    that envelope and leaves the bytes after the frame for the next turn. *)
Theorem encoded_frame_is_served {rt : Runtime}
    (repr : json -> string) (schema_file : string -> option json)
    (schema_violation : json -> json -> option string)
    (handlers : string -> option Handler)
    (h : nat) (m : json) (rest : Json.bytes) (now : Z) (w : World) :
  Spec.python_value m = true ->
  Spec.within_limits m = true ->
  (N.of_nat (length (Json.dumps m)) <= Framing.STREAM_LIMIT)%N ->
  Framing.encode_msg m = Ok (Json.dumps m ++ [Framing.FRAME_DELIMITER])
  /\ Framing.readuntil (Json.dumps m ++ Framing.FRAME_DELIMITER :: rest)
     = (Framing.ReadLine (Json.dumps m ++ [Framing.FRAME_DELIMITER]), rest)
  /\ SocketServer.serve_frame repr schema_file schema_violation handlers h
       (Json.dumps m ++ Framing.FRAME_DELIMITER :: rest) now w
     = (SocketServer.handle_message repr schema_file schema_violation handlers h m now w,
        rest).
Proof.
  intros Hm Hlim Hlen. apply andb_true_iff in Hm as [Hk Ht].
  pose proof (readuntil_line _ rest (dumps_no_delimiter m) Hlen) as Hread.
  split; [|split; [exact Hread|]].
  - rewrite (encode_msg_within m Hlim).
    assert (Hsmall : (Framing.MAX_PAYLOAD_SIZE <? N.of_nat (length (Json.dumps m)))%N
                     = false).
    { apply N.ltb_ge. unfold Framing.STREAM_LIMIT in Hlen.
      unfold Framing.MAX_PAYLOAD_SIZE. lia. }
    now rewrite Hsmall.
  - unfold SocketServer.serve_frame. rewrite Hread.
    rewrite decode_msg_dumps; [|exact Hk|].
    + unfold Spec.within_limits in Hlim.
      destruct (Json.dumps_fault recursion_budget m); [discriminate|reflexivity].
    + rewrite <- (app_nil_r (Json.dumps m)). now apply dumps_valid.
Qed.

(** The login envelope of the tests, followed by the start of another
    frame. *)
Lemma encoded_frame_is_served_witness :
  Framing.readuntil (Json.dumps Spec.login_envelope ++ Framing.FRAME_DELIMITER :: Json.lit "{")
  = (Framing.ReadLine Spec.login_frame, Json.lit "{").
Proof.
  exact (proj1 (proj2 (encoded_frame_is_served (fun _ => "") (fun _ => None)
                         (fun _ _ => None) (fun _ => None) 1 Spec.login_envelope
                         (Json.lit "{") 1 Spec.empty_world eq_refl eq_refl
                         ltac:(vm_compute; discriminate)))).
Defined.

(** ** Binary chunks *)

Section Chunks.
Import Json Framing.

Lemma byte_of_N (n : N) : (n < 256)%N -> N_of_ascii (ascii_of_N n) = n.
Proof. apply N_ascii_embedding. Qed.

Lemma from_to_bytes_le4 (n : N) (len : bytes) :
  to_bytes_le4 n = Some len -> from_bytes_le len = n /\ length len = 4%nat.
Proof.
  unfold to_bytes_le4. destruct (n <? 4294967296)%N eqn:Hn; [|discriminate].
  intros [= <-]. split; [|reflexivity]. apply N.ltb_lt in Hn.
  cbn [from_bytes_le].
  rewrite !byte_of_N by (apply N.mod_lt; discriminate).
  pose proof (N.div_mod n 256 ltac:(discriminate)) as H0.
  pose proof (N.div_mod (n / 256) 256 ltac:(discriminate)) as H1.
  pose proof (N.div_mod (n / 256 / 256) 256 ltac:(discriminate)) as H2.
  pose proof (N.div_mod (n / 256 / 256 / 256) 256 ltac:(discriminate)) as H3.
  pose proof (N.mod_lt n 256 ltac:(discriminate)).
  pose proof (N.mod_lt (n / 256) 256 ltac:(discriminate)).
  pose proof (N.mod_lt (n / 256 / 256) 256 ltac:(discriminate)).
  pose proof (N.mod_lt (n / 256 / 256 / 256) 256 ltac:(discriminate)).
  set (q1 := (n / 256)%N) in *. set (q2 := (q1 / 256)%N) in *.
  set (q3 := (q2 / 256)%N) in *. set (q4 := (q3 / 256)%N) in *.
  set (r0 := (n mod 256)%N) in *. set (r1 := (q1 mod 256)%N) in *.
  set (r2 := (q2 mod 256)%N) in *. set (r3 := (q3 mod 256)%N) in *.
  assert (q4 = 0%N) by lia. lia.
Qed.

End Chunks.

(** X15. A chunk decodes to what was encoded. For a type in 0..255 and a
    payload shorter than 2^32 bytes, [encode_chunk] returns five header
    bytes and the payload, and [decode_chunk] of these bytes, whatever
    follows them, gives the type and the payload back. *)
Theorem chunk_round_trip (type_byte : Z) (payload extra : Json.bytes) :
  0 <= type_byte <= 255 ->
  (N.of_nat (length payload) < 4294967296)%N ->
  exists chunk,
    Framing.encode_chunk type_byte payload = Ok chunk
    /\ length chunk = (5 + length payload)%nat
    /\ Framing.decode_chunk (chunk ++ extra) = Ok (type_byte, payload).
Proof.
  intros Ht Hlen. unfold Framing.encode_chunk.
  assert (Hin : (0 <=? type_byte) && (type_byte <=? 255) = true).
  { apply andb_true_iff. split; apply Z.leb_le; lia. }
  rewrite Hin. cbn [negb].
  destruct (Framing.to_bytes_le4 (N.of_nat (length payload))) as [len|] eqn:E.
  - destruct (from_to_bytes_le4 _ _ E) as [Hfrom Hfour].
    eexists. split; [reflexivity|]. split.
    + cbn [length]. rewrite length_app. lia.
    + destruct len as [|a [|b [|c [|d [|]]]]]; try discriminate.
      cbn [app Framing.decode_chunk length Nat.ltb Nat.leb firstn skipn].
      rewrite firstn_O, skipn_O.
      rewrite Hfrom, Nat2N.id, firstn_app, Nat.sub_diag, firstn_all.
      rewrite firstn_O, app_nil_r, N.eqb_refl. cbn [negb].
      rewrite byte_of_N by lia. now rewrite Z2N.id by lia.
  - unfold Framing.to_bytes_le4 in E. apply N.ltb_lt in Hlen.
    now rewrite Hlen in E.
Qed.

(** The end-of-file chunk of the client: type 2 with no payload. *)
Lemma chunk_round_trip_witness :
  exists chunk,
    Framing.encode_chunk 2 [] = Ok chunk
    /\ length chunk = 5%nat
    /\ Framing.decode_chunk (chunk ++ []) = Ok (2, []).
Proof.
  apply (chunk_round_trip 2 [] []); [lia|reflexivity].
Defined.

(** X16. A chunk that was cut short is refused: [decode_chunk] of a proper
    prefix of an encoded chunk raises BAD_REQUEST. *)
Theorem truncated_chunk_is_refused
    (type_byte : Z) (payload chunk : Json.bytes) (k : nat) :
  Framing.encode_chunk type_byte payload = Ok chunk ->
  (k < length chunk)%nat ->
  exists message,
    Framing.decode_chunk (firstn k chunk) = Raise (Framing.bad_request message).
Proof.
  unfold Framing.encode_chunk.
  destruct (negb _); [discriminate|].
  destruct (Framing.to_bytes_le4 (N.of_nat (length payload))) as [len|] eqn:E;
    [|discriminate].
  destruct (from_to_bytes_le4 _ _ E) as [Hfrom Hfour].
  intros [= <-] Hk.
  destruct len as [|a [|b [|c [|d [|]]]]]; try discriminate.
  cbn [app length] in Hk.
  destruct k as [|[|[|[|[|k]]]]]; try solve [cbn; eauto].
  cbn [app firstn Framing.decode_chunk length Nat.ltb Nat.leb skipn].
  rewrite firstn_O, skipn_O, Hfrom, Nat2N.id.
  assert (Hshort : N.of_nat (length (firstn (length payload) (firstn k payload)))
                   <> N.of_nat (length payload)).
  { rewrite !length_firstn. lia. }
  apply N.eqb_neq in Hshort. rewrite Hshort. cbn [negb]. eauto.
Qed.

(** A data chunk of three bytes, with the last byte lost. *)
Lemma truncated_chunk_is_refused_witness :
  exists message,
    Framing.decode_chunk
      (firstn 7 ["001"; "003"; "000"; "000"; "000"; "a"; "b"; "c"]%char)
    = Raise (Framing.bad_request message).
Proof.
  apply (truncated_chunk_is_refused 1 ["a"; "b"; "c"]%char _ 7 eq_refl).
  cbn. lia.
Defined.

(** ** Answers of the server loop *)

Section LoopAnswers.
Import Json Framing ConnectionManager Validator SocketServer Spec.
Context {rt : Runtime}.

Variable repr : json -> string.
Variable schema_file : string -> option json.
Variable schema_violation : json -> json -> option string.
Variable handlers : string -> option Handler.

Lemma written_open (h : nat) (frame : bytes) (w : World) :
  open_connection h w ->
  write_frame h frame (registry w) = Some (registry (written h frame w))
  /\ store (written h frame w) = store w
  /\ frames_on h (written h frame w) = frames_on h w ++ [frame]
  /\ contexts (registry (written h frame w)) = contexts (registry w)
  /\ by_user (registry (written h frame w)) = by_user (registry w).
Proof.
  intros (wire & Hwire & Hopen). unfold written, frames_on, write_frame.
  rewrite Hwire, Hopen. cbn [registry set_registry store set_wires wires contexts by_user].
  rewrite lookup_insert_eq. cbn [wire_sent]. auto.
Qed.

Lemma send_written (h : nat) (message : json) (frame : bytes) (w : World) :
  open_connection h w ->
  encode_msg message = Ok frame ->
  send h message w = (written h frame w, Ok tt).
Proof.
  intros Hopen Henc. destruct (written_open h frame w Hopen) as [Hw _].
  unfold send. rewrite Henc, Hw. unfold written. now rewrite Hw.
Qed.

(** The clause [except ProtocolError] on a typed envelope. *)
Lemma on_protocol_error_typed (h : nat) (fields headers : list (string * json))
    (e : ProtocolError) (frame : bytes) (w : World) :
  typed_envelope fields = true ->
  or_empty (assoc_get "headers" fields) = JObj headers ->
  open_connection h w ->
  encode_msg (error_envelope (get_or_null "id" fields) (get_or_null "timestamp" fields)
                (error_command (get_or_null "command" fields))
                (assoc_setdefault "version" (JStr "1.0") headers) e) = Ok frame ->
  on_protocol_error h fields e w = (written h frame w, Reading).
Proof.
  intros Htyped Hheaders Hopen Henc.
  destruct (typed_envelope_command fields Htyped) as [_ Hkey].
  unfold on_protocol_error, SocketServer.error_response.
  rewrite Hheaders, Hkey.
  pose proof (send_written h _ frame w Hopen Henc) as Hsend.
  unfold error_envelope in Hsend. unfold DEFAULT_VERSION. now rewrite Hsend.
Qed.

Lemma is_str_true (s : string) : is_str s (JStr s) = true.
Proof. apply String.eqb_refl. Qed.

(** A typed envelope of version 1.0 whose command has no schema passes
    validation, and the body of the loop comes down to the dispatch. *)
Lemma handle_message_valid (h : nat) (fields : list (string * json)) (now : Z)
    (w : World) :
  typed_envelope fields = true ->
  declared_version fields = JStr "1.0" ->
  schema_file (str repr (default (JStr "") (assoc_get "command" fields))) = None ->
  handle_message repr schema_file schema_violation handlers h (JObj fields) now w
  = let w1 := set_registry (touch h now (registry w)) w in
    match CommandRouter.dispatch handlers fields h w1 with
    | (w2, Ok (Some response)) =>
        if truthy response then
          match send h response w2 with
          | (w3, Ok _) => (w3, Reading)
          | (w3, Raise e) => on_protocol_error h fields e w3
          | (w3, Crash exn) => (w3, Closed exn)
          end
        else (w2, Reading)
    | (w2, Ok None) => (w2, Reading)
    | (w2, Raise e) => on_protocol_error h fields e w2
    | (w2, Crash exn) => (w2, Closed exn)
    end.
Proof.
  intros Htyped Hversion Hschema.
  destruct (typed_envelope_command fields Htyped) as [Hcmd _].
  destruct (typed_envelope_headers fields Htyped) as [headers Hheaders].
  unfold handle_message, load_schema, validate_msg, validate_version.
  unfold declared_version in Hversion. rewrite Hheaders in *.
  rewrite Hcmd, Hschema, Hversion. unfold DEFAULT_VERSION. rewrite is_str_true.
  unfold load_schema. now rewrite Hcmd, Hschema.
Qed.

Lemma version_header (fields headers : list (string * json)) :
  or_empty (assoc_get "headers" fields) = JObj headers ->
  declared_version fields = JStr "1.0" ->
  assoc_setdefault "version" (JStr "1.0") headers = headers.
Proof.
  unfold declared_version. intros ->. unfold assoc_setdefault.
  destruct (assoc_get "version" headers); [reflexivity|discriminate].
Qed.

End LoopAnswers.

(** X17. A frame that is not JSON, or not UTF-8, is answered and the loop
    goes on: for a line within the stream limit that [decode_msg] refuses
    with its [ProtocolError], received on an open connection, the error has
    status 400 and the message [Decode failed:] with the text of the
    exception, and one turn of the loop writes one error response with that
    payload, no command and the server's version (when that response
    encodes), changes nothing else, and leaves the rest of the stream to be
    read. A line on which [json.loads] raises another exception, the
    [ValueError] of an integer literal of more than 4300 digits or the
    [RecursionError] of deep nesting, is not answered: the loop ends and
    nothing is written. *)
Theorem malformed_frame_is_answered {rt : Runtime}
    (repr : json -> string) (schema_file : string -> option json)
    (schema_violation : json -> json -> option string)
    (handlers : string -> option Handler)
    (h : nat) (line rest : Json.bytes) (now : Z) (w : World) :
  Spec.no_delimiter line = true ->
  (N.of_nat (length line) <= Framing.STREAM_LIMIT)%N ->
  Spec.open_connection h w ->
  let data := line ++ [Framing.FRAME_DELIMITER] in
  let turn := SocketServer.serve_frame repr schema_file schema_violation handlers h
                (line ++ Framing.FRAME_DELIMITER :: rest) now w in
  (forall e frame,
     Framing.decode_msg data = Framing.DecodeError e ->
     Framing.encode_msg
       (Spec.error_envelope JNull JNull JNull [("version", JStr "1.0")] e) = Ok frame ->
     e = mkProtocolError 400 None ("Decode failed: " +:+ decode_error_text data)
     /\ turn = (Spec.written h frame w, SocketServer.Reading, rest)
     /\ store (Spec.written h frame w) = store w
     /\ Spec.frames_on h (Spec.written h frame w) = Spec.frames_on h w ++ [frame])
  /\ (forall exn,
        Framing.decode_msg data = Framing.DecodeCrash exn ->
        (exn = "ValueError" \/ exn = "RecursionError")
        /\ turn = (w, SocketServer.Closed exn, rest)).
Proof.
  intros Hline Hlen Hopen data turn. split.
  - intros e frame Hdec Henc.
    assert (He : e = Framing.bad_request ("Decode failed: " +:+ decode_error_text data)).
    { unfold Framing.decode_msg in Hdec. fold data in Hdec.
      destruct (Framing.utf8_valid _); [|congruence].
      destruct (Json.loads _ _); congruence. }
    split; [exact He|].
    destruct (written_open h frame w Hopen) as (_ & Hstore & Hframes & _).
    split; [|split; [exact Hstore|exact Hframes]].
    unfold turn, SocketServer.serve_frame.
    rewrite (readuntil_line line rest Hline Hlen). fold data. rewrite Hdec.
    now rewrite (on_protocol_error_typed h [] [] e frame w eq_refl eq_refl Hopen Henc).
  - intros exn Hdec. split.
    + unfold Framing.decode_msg in Hdec.
      destruct (Framing.utf8_valid _); [|discriminate].
      destruct (Json.loads _ _) as [v r| |[]|]; try discriminate;
        injection Hdec as <-; auto.
    + unfold turn, SocketServer.serve_frame.
      rewrite (readuntil_line line rest Hline Hlen). fold data. now rewrite Hdec.
Qed.

(** Two lines on the only connection of a fresh server: the word [ping],
    which is answered, and an integer of 4301 digits, which is not. *)
Lemma malformed_frame_is_answered_witness :
  Spec.frames_on 1
    (fst (fst (SocketServer.serve_frame (fun _ => "") (fun _ => None) (fun _ _ => None)
                 (fun _ => None) 1 (Json.lit "ping" ++ [Framing.FRAME_DELIMITER]) 2
                 Spec.one_connection)))
  = [Json.dumps
       (Spec.error_envelope JNull JNull JNull [("version", JStr "1.0")]
          (mkProtocolError 400 None
             "Decode failed: Expecting value: line 1 column 1 (char 0)"))
     ++ [Framing.FRAME_DELIMITER]]
  /\ SocketServer.serve_frame (fun _ => "") (fun _ => None) (fun _ _ => None)
       (fun _ => None) 1 (repeat "1"%char 4301 ++ [Framing.FRAME_DELIMITER]) 2
       Spec.one_connection
     = (Spec.one_connection, SocketServer.Closed "ValueError", []).
Proof.
  assert (Hopen : Spec.open_connection 1 Spec.one_connection)
    by exact (ex_intro _ (ConnectionManager.mkWire false []) (conj eq_refl eq_refl)).
  split.
  - destruct (proj1 (malformed_frame_is_answered (fun _ => "") (fun _ => None)
                       (fun _ _ => None) (fun _ => None) 1 (Json.lit "ping") [] 2
                       Spec.one_connection eq_refl ltac:(vm_compute; discriminate)
                       Hopen)
                _ _ eq_refl eq_refl) as (_ & Hserve & _ & Hframes).
    cbv zeta in Hserve. rewrite Hserve. cbn [fst]. rewrite Hframes. reflexivity.
  - refine (proj2 (proj2 (malformed_frame_is_answered (fun _ => "") (fun _ => None)
                            (fun _ _ => None) (fun _ => None) 1 (repeat "1"%char 4301)
                            [] 2 Spec.one_connection _ _ Hopen)
                     "ValueError" _)).
    + vm_compute. reflexivity.
    + vm_compute. discriminate.
    + vm_compute. reflexivity.
Defined.

(** X18. A command nobody handles is ignored: for a typed envelope of
    version 1.0 whose command has no schema and no registered handler, the
    loop writes nothing and reads on; the only change is the [last_seen] of
    the connection. *)
Theorem unknown_command_is_ignored {rt : Runtime}
    (repr : json -> string) (schema_file : string -> option json)
    (schema_violation : json -> json -> option string)
    (handlers : string -> option Handler)
    (h : nat) (fields : list (string * json)) (now : Z) (w : World) :
  Spec.typed_envelope fields = true ->
  Spec.declared_version fields = JStr "1.0" ->
  schema_file (Validator.str repr (default (JStr "") (assoc_get "command" fields)))
  = None ->
  Spec.unrouted handlers fields = true ->
  SocketServer.handle_message repr schema_file schema_violation handlers h
    (JObj fields) now w
  = (set_registry (SocketServer.touch h now (registry w)) w, SocketServer.Reading)
  /\ forall h', Spec.frames_on h'
                  (set_registry (SocketServer.touch h now (registry w)) w)
                = Spec.frames_on h' w.
Proof.
  intros Htyped Hversion Hschema Hunrouted. split.
  - rewrite (handle_message_valid repr schema_file schema_violation handlers h fields
               now w Htyped Hversion Hschema).
    cbv zeta. unfold CommandRouter.dispatch. unfold Spec.unrouted in Hunrouted.
    destruct (typed_envelope_command fields Htyped) as [Hcmd _].
    destruct (assoc_get "command" fields) as [[| | |c| |]|]; cbn in Hcmd;
      try reflexivity; try discriminate.
    destruct (handlers c); [discriminate|reflexivity].
  - intros h'. unfold Spec.frames_on, SocketServer.touch.
    destruct (ConnectionManager.contexts (registry w) !! h); reflexivity.
Qed.

(** A request for [ping], which has no handler. *)
Lemma unknown_command_is_ignored_witness :
  SocketServer.handle_message (fun _ => "") (fun _ => None) (fun _ _ => None)
    (fun _ => None) 1 (JObj Spec.ping_request) 5 Spec.one_connection
  = (set_registry (SocketServer.touch 1 5 (registry Spec.one_connection))
       Spec.one_connection, SocketServer.Reading).
Proof.
  exact (proj1 (unknown_command_is_ignored (fun _ => "") (fun _ => None)
                  (fun _ _ => None) (fun _ => None) 1 Spec.ping_request 5
                  Spec.one_connection eq_refl eq_refl eq_refl eq_refl)).
Defined.

(** X19. A [ProtocolError] raised by a handler is answered under the
    command of the acknowledgement: for a typed envelope of version 1.0
    without schema whose handler raises [e], the loop writes one response
    that echoes the id, the timestamp and the headers of the request, has
    [to_payload e] as payload and, as command, [auth/login_ack],
    [auth/refresh_ack] or [message/ack] for the three commands that have
    one and the command of the request otherwise. What the handler did to
    the world stays, and the loop reads on. *)
Theorem handler_error_is_answered {rt : Runtime}
    (repr : json -> string) (schema_file : string -> option json)
    (schema_violation : json -> json -> option string)
    (handlers : string -> option Handler)
    (h : nat) (fields headers : list (string * json)) (command : string)
    (handler : Handler) (now : Z) (w w2 : World) (e : ProtocolError)
    (frame : Json.bytes) :
  Spec.typed_envelope fields = true ->
  Spec.declared_version fields = JStr "1.0" ->
  assoc_get "command" fields = Some (JStr command) ->
  Validator.or_empty (assoc_get "headers" fields) = JObj headers ->
  schema_file command = None ->
  handlers command = Some handler ->
  handler (JObj fields) h (set_registry (SocketServer.touch h now (registry w)) w)
  = (w2, Raise e) ->
  Spec.open_connection h w2 ->
  Framing.encode_msg
    (Spec.error_envelope (SocketServer.get_or_null "id" fields)
       (SocketServer.get_or_null "timestamp" fields)
       (SocketServer.error_command (JStr command)) headers e) = Ok frame ->
  SocketServer.handle_message repr schema_file schema_violation handlers h
    (JObj fields) now w
  = (Spec.written h frame w2, SocketServer.Reading)
  /\ store (Spec.written h frame w2) = store w2
  /\ Spec.frames_on h (Spec.written h frame w2) = Spec.frames_on h w2 ++ [frame].
Proof.
  intros Htyped Hversion Hcommand Hheaders Hschema Hhandler Hraise Hopen Henc.
  destruct (written_open h frame w2 Hopen) as (_ & Hstore & Hframes & _).
  split; [|split; [exact Hstore|exact Hframes]].
  rewrite (handle_message_valid repr schema_file schema_violation handlers h fields
             now w Htyped Hversion).
  - cbv zeta. unfold CommandRouter.dispatch. rewrite Hcommand, Hhandler, Hraise.
    apply (on_protocol_error_typed h fields headers e frame w2 Htyped Hheaders Hopen).
    rewrite (version_header fields headers Hheaders Hversion).
    unfold SocketServer.get_or_null at 3. rewrite Hcommand. exact Henc.
  - rewrite Hcommand. exact Hschema.
Qed.

(** A [message/send] that its handler refuses is answered as [message/ack]
    with status 401. *)
Lemma handler_error_is_answered_witness :
  Spec.frames_on 1
    (fst (SocketServer.handle_message (fun _ => "") (fun _ => None) (fun _ _ => None)
            Spec.refusing_handlers 1 (JObj Spec.send_request) 5 Spec.one_connection))
  = [Json.dumps
       (Spec.error_envelope (JStr "10") (JInt 1) (JStr "message/ack")
          [("version", JStr "1.0")]
          (mkProtocolError 401 None "Unauthenticated"))
     ++ [Framing.FRAME_DELIMITER]].
Proof.
  destruct (handler_error_is_answered (rt := example_runtime)
              (fun _ => "") (fun _ => None) (fun _ _ => None)
              Spec.refusing_handlers 1 Spec.send_request [("version", JStr "1.0")]
              "message/send" _ 5 Spec.one_connection _ _
              (Json.dumps
                 (Spec.error_envelope (JStr "10") (JInt 1) (JStr "message/ack")
                    [("version", JStr "1.0")]
                    (mkProtocolError 401 None "Unauthenticated"))
               ++ [Framing.FRAME_DELIMITER])
              eq_refl eq_refl eq_refl eq_refl eq_refl eq_refl eq_refl
              (ex_intro _ (ConnectionManager.mkWire false []) (conj eq_refl eq_refl))
              eq_refl) as (Hrun & _ & Hframes).
  rewrite Hrun. cbn [fst]. rewrite Hframes. reflexivity.
Defined.

(** X20. A request that fails its schema is answered and never reaches a
    handler: for a typed envelope of version 1.0 whose command has a schema
    that the message violates, the loop writes one response with status 400
    and error code PARAM_MISSING (1004) and reads on; the result is the same
    whatever handlers are registered, and [last_seen] is not touched. *)
Theorem schema_failure_is_answered {rt : Runtime}
    (repr : json -> string) (schema_file : string -> option json)
    (schema_violation : json -> json -> option string)
    (handlers : string -> option Handler)
    (h : nat) (fields headers : list (string * json)) (schema : json) (text : string)
    (now : Z) (w : World) (frame : Json.bytes) :
  Spec.typed_envelope fields = true ->
  Spec.declared_version fields = JStr "1.0" ->
  Validator.or_empty (assoc_get "headers" fields) = JObj headers ->
  schema_file (Validator.str repr (default (JStr "") (assoc_get "command" fields)))
  = Some schema ->
  truthy schema = true ->
  schema_violation schema (JObj fields) = Some text ->
  Spec.open_connection h w ->
  Framing.encode_msg
    (Spec.error_envelope (SocketServer.get_or_null "id" fields)
       (SocketServer.get_or_null "timestamp" fields)
       (SocketServer.error_command (SocketServer.get_or_null "command" fields)) headers
       (mkProtocolError 400 (Some 1004) ("Schema validation failed: " +:+ text)))
  = Ok frame ->
  SocketServer.handle_message repr schema_file schema_violation handlers h
    (JObj fields) now w
  = (Spec.written h frame w, SocketServer.Reading)
  /\ store (Spec.written h frame w) = store w
  /\ ConnectionManager.contexts (registry (Spec.written h frame w))
     = ConnectionManager.contexts (registry w)
  /\ Spec.frames_on h (Spec.written h frame w) = Spec.frames_on h w ++ [frame].
Proof.
  intros Htyped Hversion Hheaders Hschema Htruthy Hviolation Hopen Henc.
  destruct (written_open h frame w Hopen) as (_ & Hstore & Hframes & Hctx & _).
  split; [|split; [exact Hstore|split; [exact Hctx|exact Hframes]]].
  destruct (typed_envelope_command fields Htyped) as [Hcmd _].
  unfold SocketServer.handle_message, Validator.load_schema, Validator.validate_msg,
    Validator.validate_version.
  unfold Spec.declared_version in Hversion. rewrite Hheaders in *.
  rewrite Hcmd, Hschema, Hversion. unfold Framing.DEFAULT_VERSION.
  rewrite is_str_true, Htruthy. cbv beta iota zeta. rewrite Hviolation, ?Htruthy.
  apply (on_protocol_error_typed h fields headers _ frame w Htyped Hheaders Hopen).
  rewrite (version_header fields headers Hheaders).
  - exact Henc.
  - unfold Spec.declared_version. now rewrite Hheaders.
Qed.

(** The login request of the tests against a schema it is said to violate. *)
Lemma schema_failure_is_answered_witness :
  Spec.frames_on 1
    (fst (SocketServer.handle_message (fun _ => "") (fun _ => Some (JObj [("type", JStr "object")]))
            (fun _ _ => Some "username is required") (fun _ => None) 1
            Spec.login_envelope 5 Spec.one_connection))
  = [Json.dumps
       (Spec.error_envelope (JStr "1") (JInt 1) (JStr "auth/login_ack")
          [("version", JStr "1.0")]
          (mkProtocolError 400 (Some 1004)
             "Schema validation failed: username is required"))
     ++ [Framing.FRAME_DELIMITER]].
Proof.
  destruct (schema_failure_is_answered (rt := example_runtime) (fun _ => "")
              (fun _ => Some (JObj [("type", JStr "object")]))
              (fun _ _ => Some "username is required") (fun _ => None) 1
              [("id", JStr "1"); ("type", JStr "request"); ("timestamp", JInt 1);
               ("command", JStr "auth/login");
               ("headers", JObj [("version", JStr "1.0")]);
               ("payload", JObj [("username", JStr "alice");
                                 ("password", JStr "secret")])]
              [("version", JStr "1.0")] (JObj [("type", JStr "object")])
              "username is required" 5 Spec.one_connection
              (Json.dumps
                 (Spec.error_envelope (JStr "1") (JInt 1) (JStr "auth/login_ack")
                    [("version", JStr "1.0")]
                    (mkProtocolError 400 (Some 1004)
                       "Schema validation failed: username is required"))
               ++ [Framing.FRAME_DELIMITER])
              eq_refl eq_refl eq_refl eq_refl eq_refl eq_refl
              (ex_intro _ (ConnectionManager.mkWire false []) (conj eq_refl eq_refl))
              eq_refl) as (Hrun & _ & _ & Hframes).
  change Spec.login_envelope with
    (JObj [("id", JStr "1"); ("type", JStr "request"); ("timestamp", JInt 1);
           ("command", JStr "auth/login");
           ("headers", JObj [("version", JStr "1.0")]);
           ("payload", JObj [("username", JStr "alice");
                             ("password", JStr "secret")])]).
  rewrite Hrun. cbn [fst]. rewrite Hframes. reflexivity.
Defined.

(** ** The offline dispatcher *)

Section Dispatcher.
Import Json Framing SQLiteStore ConnectionManager OfflineDispatcher Spec.
Context {rt : Runtime}.

Lemma queued_pending (u : string) (w : World) :
  queued u w = map o_message (pending u (store w)).
Proof. reflexivity. Qed.

(** Sends to a user on an open connection, for events that encode. *)
Lemma deliver_queued_live (u : string) (h : nat) (now : Z) (events : list json) :
  forallb encodable events = true ->
  forall w,
    by_user (registry w) !! u = Some h ->
    open_connection h w ->
    store (deliver_queued u events now w) = store w
    /\ frames_on h (deliver_queued u events now w)
       = frames_on h w ++ map frame_of events.
Proof.
  induction events as [|e rest IH]; intros Henc w Hu Hopen.
  - cbn. now rewrite app_nil_r.
  - cbn [forallb] in Henc. apply andb_true_iff in Henc as [He Hrest].
    cbn [deliver_queued map]. unfold send_to_user. rewrite Hu.
    unfold encodable in He.
    destruct (encode_msg e) as [frame| |] eqn:Ee; try discriminate.
    assert (Hfe : frame_of e = frame) by (unfold frame_of; now rewrite Ee).
    destruct (written_open h frame w Hopen) as (Hw & Hstore & Hframes & _ & Hby).
    rewrite Hw.
    assert (Hnext : set_registry (registry (written h frame w)) w = written h frame w).
    { unfold written. now rewrite Hw. }
    rewrite Hnext.
    destruct (IH Hrest (written h frame w)) as [IH1 IH2].
    + now rewrite Hby.
    + destruct Hopen as (wire & Hwire & Hc). unfold open_connection, written.
      rewrite Hw. unfold write_frame in Hw. rewrite Hwire, Hc in Hw.
      injection Hw as Hw. rewrite <- Hw. cbn [registry set_registry wires set_wires].
      rewrite lookup_insert_eq. eauto.
    + rewrite IH1, IH2, Hstore, Hframes, Hfe. split; [reflexivity|].
      now rewrite <- app_assoc.
Qed.

End Dispatcher.

(** X21. The dispatcher delivers a waiting queue in order. When the user
    is bound to an open connection, every queued event encodes and the
    queue is no longer than one [DELETE] can name, [_drain_user_queue]
    writes the frames of the user's queued events to that connection, oldest
    first, and leaves none of them in the queue. A longer queue is not
    delivered at all: the store raises, and the world stays as it was. *)
Theorem drain_delivers_in_order {rt : Runtime} (u : string) (h : nat) (now : Z)
    (w : World) :
  Spec.queue_wf (store w) ->
  ConnectionManager.by_user (registry w) !! u = Some h ->
  Spec.open_connection h w ->
  forallb Spec.encodable (Spec.queued u w) = true ->
  let res := OfflineDispatcher.drain_user_queue u now w in
  let w' := fst res in
  ((length (Spec.queued u w) <= sqlite_max_variables)%nat ->
   snd res = Ok tt
   /\ Spec.frames_on h w' = Spec.frames_on h w ++ map Spec.frame_of (Spec.queued u w)
   /\ Spec.queued u w' = []
   /\ forall v, v <> u -> Spec.queued v w' = Spec.queued v w)
  /\ ((sqlite_max_variables < length (Spec.queued u w))%nat ->
      res = (w, Crash "sqlite3.OperationalError")).
Proof.
  intros Hwf Hu Hopen Henc res w'. subst w' res.
  unfold OfflineDispatcher.drain_user_queue. rewrite queued_pending, length_map. split.
  - intros Hlen.
    destruct (consume_spec u (store w) Hwf Hlen) as (Hmsgs & Hnone & Hothers & _).
    destruct (SQLiteStore.consume_offline_messages u (store w)) as [events st].
    cbn [fst snd] in Hmsgs, Hnone, Hothers. subst events.
    rewrite queued_pending in Henc.
    destruct (deliver_queued_live u h now _ Henc (set_store st w) Hu Hopen)
      as [Hstore Hframes].
    cbn [fst snd]. split; [reflexivity|]. split; [exact Hframes|].
    rewrite !queued_pending, !Hstore. cbn [store set_store].
    split; [now rewrite Hnone|]. intros v Hv. rewrite !queued_pending, Hstore.
    cbn [store set_store]. now rewrite (Hothers v Hv).
  - intros Hlen. rewrite (consume_over_limit u (store w) Hwf Hlen).
    destruct w; reflexivity.
Qed.

(** Carol, logged in on connection 1, gets her two messages. *)
Lemma drain_delivers_in_order_witness :
  Spec.frames_on 1 (fst (OfflineDispatcher.drain_user_queue "carol" 3 Spec.carol_online))
  = [Spec.frame_of (JStr "one"); Spec.frame_of (JStr "two")]
  /\ Spec.queued "carol"
       (fst (OfflineDispatcher.drain_user_queue "carol" 3 Spec.carol_online))
     = [].
Proof.
  assert (Hwf : Spec.queue_wf (store Spec.carol_online)).
  { apply (queue_wf_enqueue_all _ SQLiteStore.empty_store), queue_wf_empty. }
  destruct (proj1 (drain_delivers_in_order (rt := example_runtime) "carol" 1 3
                     Spec.carol_online Hwf eq_refl
                     (ex_intro _ (ConnectionManager.mkWire false [])
                        (conj eq_refl eq_refl))
                     eq_refl)
              ltac:(vm_compute; lia)) as (_ & Hframes & Hqueue & _).
  split; [exact Hframes|exact Hqueue].
Defined.

(** X22. A drain for a user who has no bound connection loses messages:
    [_drain_user_queue] takes all the user's events off the queue (as many
    as one [DELETE] can name), the first send reports [False], that event
    alone is queued again and the loop is left, so only the oldest of the
    events is still queued afterwards. A longer queue is kept whole, since
    the store raises before it deletes. *)
Theorem drain_without_connection_keeps_oldest_only {rt : Runtime} (u : string)
    (now : Z) (w : World) :
  Spec.queue_wf (store w) ->
  ConnectionManager.by_user (registry w) !! u = None ->
  let res := OfflineDispatcher.drain_user_queue u now w in
  let w' := fst res in
  ((length (Spec.queued u w) <= sqlite_max_variables)%nat ->
   snd res = Ok tt
   /\ Spec.queued u w' = firstn 1 (Spec.queued u w)
   /\ registry w' = registry w)
  /\ ((sqlite_max_variables < length (Spec.queued u w))%nat ->
      res = (w, Crash "sqlite3.OperationalError")).
Proof.
  intros Hwf Hu res w'. subst w' res.
  unfold OfflineDispatcher.drain_user_queue. rewrite queued_pending, length_map. split.
  - intros Hlen.
    destruct (consume_spec u (store w) Hwf Hlen) as (Hmsgs & Hnone & _).
    destruct (SQLiteStore.consume_offline_messages u (store w)) as [events st].
    cbn [fst snd] in Hmsgs, Hnone. subst events. cbn [fst snd].
    split; [reflexivity|].
    destruct (map SQLiteStore.o_message (Spec.pending u (store w))) as [|e rest];
      cbn [OfflineDispatcher.deliver_queued firstn].
    + split; [|reflexivity]. rewrite queued_pending. cbn [store set_store].
      now rewrite Hnone.
    + unfold ConnectionManager.send_to_user. cbn [registry set_store]. rewrite Hu.
      split; [|reflexivity]. rewrite queued_pending.
      cbn [store set_store set_registry]. unfold Spec.pending in *.
      unfold SQLiteStore.enqueue_offline_message, SQLiteStore.set_offline.
      cbn [SQLiteStore.offline_queue]. rewrite List.filter_app, Hnone.
      cbn [List.filter SQLiteStore.o_user_id]. rewrite String.eqb_refl. reflexivity.
  - intros Hlen. rewrite (consume_over_limit u (store w) Hwf Hlen).
    destruct w; reflexivity.
Qed.

(** Carol has two messages waiting and no connection: after the drain only
    the first is left. *)
Lemma drain_without_connection_keeps_oldest_only_witness :
  Spec.queued "carol" Spec.carol_waiting = [JStr "one"; JStr "two"]
  /\ Spec.queued "carol"
       (fst (OfflineDispatcher.drain_user_queue "carol" 3 Spec.carol_waiting))
     = [JStr "one"].
Proof.
  split; [reflexivity|].
  assert (Hwf : Spec.queue_wf (store Spec.carol_waiting)).
  { apply (queue_wf_enqueue_all _ SQLiteStore.empty_store), queue_wf_empty. }
  exact (proj1 (proj2 (proj1 (drain_without_connection_keeps_oldest_only
                                (rt := example_runtime) "carol" 3 Spec.carol_waiting Hwf
                                eq_refl)
                         ltac:(vm_compute; lia)))).
Defined.

(** ** The index of the voice service *)

Section VoiceIndex.
Import VoiceService Spec.

Lemma foldr_delete (l : list string) (m : gmap string string) (x : string) :
  foldr (fun u m => delete u m) m l !! x = if decide (x ∈ l) then None else m !! x.
Proof.
  induction l as [|y l IH]; cbn [foldr].
  - destruct (decide (x ∈ [])) as [H|_]; [|reflexivity]. now apply elem_of_nil in H.
  - destruct (decide (x = y)) as [->|Hne].
    + rewrite lookup_delete_eq. destruct (decide (y ∈ y :: l)) as [_|H]; [reflexivity|].
      exfalso. apply H. left.
    + rewrite lookup_delete_ne by congruence. rewrite IH.
      destruct (decide (x ∈ l)) as [H|H]; destruct (decide (x ∈ y :: l)) as [H'|H'];
        try reflexivity.
      * exfalso. apply H'. now right.
      * exfalso. apply elem_of_cons in H' as [->|H']; contradiction.
Qed.

(** The index after the loop of [_cleanup_call]. *)
Lemma cleanup_index (P : gset string) (m : gmap string string) (x : string) :
  set_fold (fun u m => delete u m) m P !! x = if decide (x ∈ P) then None else m !! x.
Proof.
  unfold set_fold. cbn. rewrite foldr_delete.
  destruct (decide (x ∈ elements P)) as [H|H]; destruct (decide (x ∈ P)) as [H'|H'];
    try reflexivity; exfalso.
  - apply H'. now apply elem_of_elements.
  - apply H. now apply elem_of_elements.
Qed.

Lemma voice_inv_empty : voice_inv empty_state.
Proof.
  split.
  - intros c call H. cbn in H. now rewrite lookup_empty in H.
  - intros u c. cbn. rewrite lookup_empty. split; [discriminate|].
    intros (call & H & _). now rewrite lookup_empty in H.
Qed.

(** A call that is taken out of both maps with its participants. *)
Lemma voice_inv_removed (st : State) (c : string) (vc : VoiceCall)
    (B : gmap string VoiceCall) (J : gmap string string) :
  voice_inv st ->
  active_calls st !! c = Some vc ->
  (forall c', B !! c' = if decide (c' = c) then None else active_calls st !! c') ->
  (forall u' c', J !! u' = Some c'
                 <-> (u' ∉ participants vc) /\ user_to_call st !! u' = Some c') ->
  voice_inv (mkState B J).
Proof.
  intros [Hlive Hidx] Hc HB HJ. split; cbn [active_calls user_to_call].
  - intros c' call H. rewrite HB in H. destruct (decide (c' = c)); [discriminate|].
    eauto.
  - intros u' c'. rewrite HJ. split.
    + intros [Hout Hu]. apply Hidx in Hu as (call & Hcall & Hin).
      exists call. split; [|exact Hin]. rewrite HB.
      destruct (decide (c' = c)) as [->|]; [|exact Hcall].
      rewrite Hc in Hcall. injection Hcall as <-. contradiction.
    + intros (call & Hcall & Hin). rewrite HB in Hcall.
      destruct (decide (c' = c)) as [|Hne]; [discriminate|].
      assert (Hu : user_to_call st !! u' = Some c') by (apply Hidx; eauto).
      split; [|exact Hu]. intros Hp.
      assert (Hu' : user_to_call st !! u' = Some c) by (apply Hidx; eauto).
      congruence.
Qed.

Lemma cleanup_call_ended (st : State) (c : string) (vc ended : VoiceCall)
    (I : gmap string string) :
  voice_inv st ->
  active_calls st !! c = Some vc ->
  (forall u' c', (if decide (u' ∈ participants ended) then None else I !! u') = Some c'
                 <-> (u' ∉ participants vc) /\ user_to_call st !! u' = Some c') ->
  voice_inv (cleanup_call c (mkState (<[c := ended]> (active_calls st)) I)).
Proof.
  intros Hinv Hc HI. unfold cleanup_call. cbn [active_calls user_to_call].
  rewrite lookup_insert_eq.
  apply (voice_inv_removed st c vc); auto.
  - intros c'. destruct (decide (c' = c)) as [->|Hne].
    + apply lookup_delete_eq.
    + rewrite lookup_delete_ne, lookup_insert_ne by congruence. reflexivity.
  - intros u' c'. rewrite cleanup_index. apply HI.
Qed.

Lemma voice_inv_call (ctx_user msg_id : option string) (fresh : string)
    (call_type target_type target_id : option string) (now : Z) (st : State) :
  voice_inv st ->
  active_calls st !! default fresh msg_id = None ->
  voice_inv (fst (handle_call ctx_user msg_id fresh call_type target_type target_id
                    now st)).
Proof.
  intros Hinv Hfresh. unfold handle_call.
  destruct (negb (present ctx_user)); [exact Hinv|].
  destruct (negb (present target_type) || negb (present target_id)); [exact Hinv|].
  cbv zeta. set (u := default "" ctx_user). set (c := default fresh msg_id) in *.
  destruct (user_to_call st !! u) eqn:Hu; [exact Hinv|]. cbn [fst].
  destruct Hinv as [Hlive Hidx]. split; cbn [active_calls user_to_call].
  - intros c' call H. destruct (decide (c' = c)) as [->|Hne].
    + rewrite lookup_insert_eq in H. injection H as <-. discriminate.
    + rewrite lookup_insert_ne in H by congruence. eauto.
  - intros u' c'. split.
    + intros H. destruct (decide (u' = u)) as [->|Hne].
      * rewrite lookup_insert_eq in H. injection H as <-.
        eexists. rewrite lookup_insert_eq. split; [reflexivity|].
        cbn [participants]. now apply elem_of_singleton.
      * rewrite lookup_insert_ne in H by congruence.
        apply Hidx in H as (call & Hcall & Hin). exists call. split; [|exact Hin].
        rewrite lookup_insert_ne; [exact Hcall|]. intros <-. congruence.
    + intros (call & Hcall & Hin). destruct (decide (c' = c)) as [->|Hne].
      * rewrite lookup_insert_eq in Hcall. injection Hcall as <-.
        cbn [participants] in Hin. apply elem_of_singleton in Hin as ->.
        apply lookup_insert_eq.
      * rewrite lookup_insert_ne in Hcall by congruence.
        assert (H : user_to_call st !! u' = Some c') by (apply Hidx; eauto).
        rewrite lookup_insert_ne; [exact H|]. intros <-. congruence.
Qed.

Lemma add_participant_spec (u : string) (now : Z) (vc : VoiceCall) :
  status vc <> "ended" ->
  participants (add_participant u now vc) = {[u]} ∪ participants vc
  /\ status (add_participant u now vc) <> "ended".
Proof.
  intros H. unfold add_participant.
  destruct (String.eqb (status vc) "ringing"); cbn; split; auto; discriminate.
Qed.

Lemma voice_inv_answer (ctx_user call : option string) (now : Z) (st : State) :
  voice_inv st ->
  (forall c, user_to_call st !! default "" ctx_user = Some c -> call = Some c) ->
  voice_inv (fst (handle_answer ctx_user call now st)).
Proof.
  intros Hinv Hguard. unfold handle_answer.
  destruct (negb (present ctx_user)); [exact Hinv|].
  cbv zeta. set (u := default "" ctx_user) in *.
  destruct call as [c|]; cbn [mbind option_bind]; [|exact Hinv].
  destruct (active_calls st !! c) as [vc|] eqn:Hc; [|exact Hinv].
  cbn [default from_option id].
  destruct (_ && negb _); [exact Hinv|].
  destruct (_ && String.eqb (status vc) "ended"); [exact Hinv|]. cbn [fst].
  destruct Hinv as [Hlive Hidx].
  destruct (add_participant_spec u now vc (Hlive c vc Hc)) as [HP Hst].
  split; cbn [active_calls user_to_call].
  - intros c' x H. destruct (decide (c' = c)) as [->|Hne].
    + rewrite lookup_insert_eq in H. now injection H as <-.
    + rewrite lookup_insert_ne in H by congruence. eauto.
  - intros u' c'. split.
    + intros H. destruct (decide (u' = u)) as [->|Hne].
      * rewrite lookup_insert_eq in H. injection H as <-.
        eexists. rewrite lookup_insert_eq. split; [reflexivity|].
        rewrite HP. apply elem_of_union_l. now apply elem_of_singleton.
      * rewrite lookup_insert_ne in H by congruence.
        apply Hidx in H as (x & Hx & Hin).
        destruct (decide (c' = c)) as [->|Hc'].
        -- rewrite Hc in Hx. injection Hx as <-. eexists.
           rewrite lookup_insert_eq. split; [reflexivity|]. rewrite HP.
           now apply elem_of_union_r.
        -- exists x. now rewrite lookup_insert_ne by congruence.
    + intros (x & Hx & Hin). destruct (decide (c' = c)) as [->|Hc'].
      * rewrite lookup_insert_eq in Hx. injection Hx as <-. rewrite HP in Hin.
        destruct (decide (u' = u)) as [->|Hne]; [apply lookup_insert_eq|].
        rewrite lookup_insert_ne by congruence. apply Hidx. exists vc.
        split; [exact Hc|].
        apply elem_of_union in Hin as [Hin|Hin]; [|exact Hin].
        apply elem_of_singleton in Hin. contradiction.
      * rewrite lookup_insert_ne in Hx by congruence.
        assert (H : user_to_call st !! u' = Some c') by (apply Hidx; eauto).
        destruct (decide (u' = u)) as [->|Hne].
        -- specialize (Hguard c' H). congruence.
        -- now rewrite lookup_insert_ne by congruence.
Qed.

Lemma voice_inv_reject (ctx_user call : option string) (now : Z) (st : State) :
  voice_inv st -> voice_inv (fst (handle_reject ctx_user call now st)).
Proof.
  intros Hinv. unfold handle_reject.
  destruct (negb (present ctx_user)); [exact Hinv|].
  destruct call as [c|]; cbn [mbind option_bind]; [|exact Hinv].
  destruct (active_calls st !! c) as [vc|] eqn:Hc; [|exact Hinv].
  cbn [default from_option id fst].
  destruct (String.eqb (call_type vc) "direct"); [|exact Hinv].
  apply (cleanup_call_ended st c vc); auto.
  intros u' c'. cbn [end_call participants].
  destruct (decide (u' ∈ participants vc)); split; try discriminate; tauto.
Qed.

Lemma voice_inv_end (ctx_user call : option string) (now : Z) (st : State) :
  voice_inv st -> voice_inv (fst (handle_end ctx_user call now st)).
Proof.
  intros Hinv. unfold handle_end.
  destruct (negb (present ctx_user)); [exact Hinv|].
  cbv zeta. set (u := default "" ctx_user).
  destruct call as [c|]; cbn [mbind option_bind]; [|exact Hinv].
  destruct (active_calls st !! c) as [vc|] eqn:Hc; [|exact Hinv].
  cbn [default from_option id].
  destruct (bool_decide (u ∈ participants vc)) eqn:Hu; cbn [negb]; [|exact Hinv].
  apply bool_decide_eq_true in Hu. cbn [fst].
  assert (Hidx_u : user_to_call st !! u = Some c) by (apply Hinv; eauto).
  destruct (_ && negb _).
  - destruct Hinv as [Hlive Hidx]. split; cbn [active_calls user_to_call].
    + intros c' x H. destruct (decide (c' = c)) as [->|Hne].
      * rewrite lookup_insert_eq in H. injection H as <-. cbn. eauto.
      * rewrite lookup_insert_ne in H by congruence. eauto.
    + intros u' c'. split.
      * intros H. destruct (decide (u' = u)) as [->|Hne];
          [now rewrite lookup_delete_eq in H|].
        rewrite lookup_delete_ne in H by congruence.
        apply Hidx in H as (x & Hx & Hin).
        destruct (decide (c' = c)) as [->|Hc'].
        -- rewrite Hc in Hx. injection Hx as <-. eexists.
           rewrite lookup_insert_eq. split; [reflexivity|]. cbn.
           apply elem_of_difference. split; [exact Hin|]. now rewrite elem_of_singleton.
        -- exists x. now rewrite lookup_insert_ne by congruence.
      * intros (x & Hx & Hin). destruct (decide (c' = c)) as [->|Hc'].
        -- rewrite lookup_insert_eq in Hx. injection Hx as <-. cbn in Hin.
           apply elem_of_difference in Hin as [Hin Hnot].
           rewrite elem_of_singleton in Hnot.
           rewrite lookup_delete_ne by congruence. apply Hidx.
           exists vc. split; [exact Hc|exact Hin].
        -- rewrite lookup_insert_ne in Hx by congruence.
           assert (H : user_to_call st !! u' = Some c') by (apply Hidx; eauto).
           destruct (decide (u' = u)) as [->|Hne]; [congruence|].
           now rewrite lookup_delete_ne by congruence.
  - apply (cleanup_call_ended st c vc); auto.
    intros u' c'. cbn [end_call remove_participant set_participants participants].
    destruct (decide (u' ∈ participants vc ∖ {[u]})) as [Hin|Hout].
    + split; [discriminate|]. intros [Hno _].
      apply elem_of_difference in Hin as [Hin _]. contradiction.
    + destruct (decide (u' = u)) as [->|Hne].
      * rewrite lookup_delete_eq. split; [discriminate|]. intros [Hno _]. contradiction.
      * rewrite lookup_delete_ne by congruence. split.
        -- intros H. split; [|exact H]. intros Hp. apply Hout, elem_of_difference.
           split; [exact Hp|]. now rewrite elem_of_singleton.
        -- tauto.
Qed.

Lemma voice_inv_step (now : Z) (op : VoiceOp) (st : State) :
  voice_inv st -> voice_guard op st = true -> voice_inv (voice_step now op st).
Proof.
  intros Hinv Hguard.
  destruct op as [user id ct tt tid|user call|user call|user call|user];
    cbn [voice_step voice_guard] in *.
  - apply voice_inv_call; [exact Hinv|]. cbn.
    destruct (active_calls st !! id); [discriminate|reflexivity].
  - apply voice_inv_answer; [exact Hinv|]. cbn. intros c Hc. rewrite Hc in Hguard.
    apply String.eqb_eq in Hguard. now subst.
  - now apply voice_inv_reject.
  - now apply voice_inv_end.
  - unfold user_disconnected.
    destruct (user_to_call st !! user) as [c|]; [|exact Hinv].
    destruct (String.eqb c ""); [exact Hinv|].
    destruct (active_calls st !! c); [|exact Hinv]. now apply voice_inv_end.
Qed.

Lemma voice_inv_run (now : Z) (ops : list VoiceOp) (st : State) :
  voice_inv st -> voice_guarded now ops st = true -> voice_inv (run_voice now ops st).
Proof.
  revert st. induction ops as [|op ops IH]; intros st Hinv Hg; [exact Hinv|].
  cbn [voice_guarded] in Hg. apply andb_true_iff in Hg as [H1 H2].
  unfold run_voice. cbn [fold_left]. apply IH; [|exact H2].
  now apply voice_inv_step.
Qed.

Lemma voice_inv_agrees (st : State) (u c : string) :
  voice_inv st -> indexed u c st = in_live_call u c st.
Proof.
  intros [Hlive Hidx]. unfold indexed, in_live_call.
  destruct (active_calls st !! c) as [call|] eqn:Hc.
  - assert (Hst : negb (String.eqb (status call) "ended") = true).
    { apply negb_true_iff, String.eqb_neq. eauto. }
    rewrite Hst, andb_true_r. apply bool_decide_ext. rewrite Hidx. split.
    + intros (x & Hx & Hin). congruence.
    + eauto.
  - apply bool_decide_eq_false. intros H. apply Hidx in H as (x & Hx & _). congruence.
Qed.

End VoiceIndex.

(** X23. The index of the voice service agrees with the calls along every
    run of [voice/call], [voice/answer], [voice/reject], [voice/end] and
    disconnects in which each call comes with an id that no active call has
    and each answer comes from a user whom the index places in no other
    call: then [user_to_call[u] = c] holds exactly when [u] is a participant
    of the active call [c], which has not ended. *)
Theorem voice_index_agrees_on_guarded_runs
    (now : Z) (ops : list Spec.VoiceOp) (u c : string) :
  Spec.voice_guarded now ops VoiceService.empty_state = true ->
  Spec.indexed u c (Spec.run_voice now ops VoiceService.empty_state)
  = Spec.in_live_call u c (Spec.run_voice now ops VoiceService.empty_state).
Proof.
  intros Hg. apply voice_inv_agrees, voice_inv_run; [apply voice_inv_empty|exact Hg].
Qed.

(** Alice rings bob, bob answers, carol rings dave, bob hangs up. *)
Lemma voice_index_agrees_on_guarded_runs_witness :
  Spec.indexed "carol" "c2"
    (Spec.run_voice 1 [Spec.VCall "alice" "c1" "direct" "user" "bob";
                       Spec.VAnswer "bob" "c1";
                       Spec.VCall "carol" "c2" "direct" "user" "dave";
                       Spec.VEnd "bob" "c1"] VoiceService.empty_state)
  = Spec.in_live_call "carol" "c2"
      (Spec.run_voice 1 [Spec.VCall "alice" "c1" "direct" "user" "bob";
                         Spec.VAnswer "bob" "c1";
                         Spec.VCall "carol" "c2" "direct" "user" "dave";
                         Spec.VEnd "bob" "c1"] VoiceService.empty_state).
Proof.
  apply (voice_index_agrees_on_guarded_runs 1
           [Spec.VCall "alice" "c1" "direct" "user" "bob"; Spec.VAnswer "bob" "c1";
            Spec.VCall "carol" "c2" "direct" "user" "dave"; Spec.VEnd "bob" "c1"]
           "carol" "c2").
  vm_compute. reflexivity.
Defined.

(** X24. The [voice/end] that ends a call leaves no trace of it. In a state
    where the index agrees with the calls, when a participant ends a call
    that is not a group call, or is the last to leave, the call is in
    [active_calls] no more and no user is mapped to it in [user_to_call]. *)
Theorem ended_call_leaves_no_trace
    (st : VoiceService.State) (u c : string) (vc : VoiceService.VoiceCall) (now : Z) :
  Spec.voice_inv st ->
  u <> "" ->
  VoiceService.active_calls st !! c = Some vc ->
  u ∈ VoiceService.participants vc ->
  VoiceService.call_type vc <> "group" \/ VoiceService.participants vc = {[u]} ->
  let st' := fst (VoiceService.handle_end (Some u) (Some c) now st) in
  VoiceService.active_calls st' !! c = None
  /\ forall v, VoiceService.user_to_call st' !! v <> Some c.
Proof.
  intros Hinv Hu Hc Hin Hlast st'.
  assert (Hinv' : Spec.voice_inv st') by now apply voice_inv_end.
  assert (Hgone : VoiceService.active_calls st' !! c = None).
  { subst st'. unfold VoiceService.handle_end. apply String.eqb_neq in Hu.
    cbn [present default from_option id mbind option_bind]. rewrite Hu, Hc.
    cbn [negb]. rewrite bool_decide_eq_true_2 by exact Hin. cbn [negb].
    assert (Hcase : String.eqb (VoiceService.call_type
                                  (VoiceService.remove_participant u vc)) "group"
                    && negb (bool_decide (VoiceService.participants
                                            (VoiceService.remove_participant u vc) = ∅))
                    = false).
    { destruct Hlast as [Hd|Hp].
      - apply andb_false_iff. left. now apply String.eqb_neq.
      - apply andb_false_iff. right. apply negb_false_iff, bool_decide_eq_true.
        cbn. rewrite Hp. apply difference_diag_L. }
    rewrite Hcase. cbn [fst]. unfold VoiceService.cleanup_call.
    cbn [VoiceService.active_calls]. rewrite lookup_insert_eq.
    cbn [VoiceService.active_calls]. apply lookup_delete_eq. }
  split; [exact Hgone|]. intros v Hv.
  apply Hinv' in Hv as (x & Hx & _). congruence.
Qed.

(** Alice rings bob, bob answers, and bob hangs up. *)
Lemma ended_call_leaves_no_trace_witness :
  let st := Spec.run_voice 1 [Spec.VCall "alice" "c1" "direct" "user" "bob";
                              Spec.VAnswer "bob" "c1"] VoiceService.empty_state in
  VoiceService.active_calls (fst (VoiceService.handle_end (Some "bob") (Some "c1") 2 st))
    !! "c1" = None
  /\ VoiceService.user_to_call (fst (VoiceService.handle_end (Some "bob") (Some "c1") 2 st))
       !! "alice" <> Some "c1".
Proof.
  intros st.
  assert (Hinv : Spec.voice_inv st).
  { apply voice_inv_run; [apply voice_inv_empty|reflexivity]. }
  assert (Hcall : exists vc,
             VoiceService.active_calls st !! "c1" = Some vc
             /\ bool_decide ("bob" ∈ VoiceService.participants vc) = true
             /\ VoiceService.call_type vc = "direct").
  { eexists. split; [vm_compute; reflexivity|]. split; vm_compute; reflexivity. }
  destruct Hcall as (vc & Hvc & Hin & Hdirect).
  apply bool_decide_eq_true in Hin.
  assert (Hkind : VoiceService.call_type vc <> "group")
    by (rewrite Hdirect; discriminate).
  destruct (ended_call_leaves_no_trace st "bob" "c1" vc 2 Hinv
              ltac:(discriminate) Hvc Hin (or_introl Hkind)) as [H1 H2].
  split; [exact H1|exact (H2 "alice")].
Defined.

(** ** Connections and sessions *)

(** X25. Closing a connection unbinds nobody who is bound elsewhere.
    [unregister h] takes [h] out of the registered connections; a user
    bound to another connection stays bound to it (so a user who logged in
    again on a new connection is still reachable when the old one closes),
    and the user of [h] is unbound when bound to [h]. *)
Theorem unregister_keeps_other_bindings (h : nat) (r : ConnectionManager.Registry) :
  (h ∉ ConnectionManager.by_writer (ConnectionManager.unregister h r))
  /\ (forall u h', h' <> h ->
        ConnectionManager.by_user r !! u = Some h' ->
        ConnectionManager.by_user (ConnectionManager.unregister h r) !! u = Some h')
  /\ (forall ctx u,
        h ∈ ConnectionManager.by_writer r ->
        ConnectionManager.contexts r !! h = Some ctx ->
        ConnectionManager.user_id ctx = Some u -> u <> "" ->
        ConnectionManager.by_user r !! u = Some h ->
        ConnectionManager.by_user (ConnectionManager.unregister h r) !! u = None).
Proof.
  unfold ConnectionManager.unregister, ConnectionManager.unbind_user.
  destruct (bool_decide (h ∈ ConnectionManager.by_writer r)) eqn:Hreg.
  - apply bool_decide_eq_true in Hreg.
    cbn [ConnectionManager.contexts ConnectionManager.by_user].
    split; [|split].
    + destruct (ConnectionManager.contexts r !! h) as [ctx|];
        [destruct (ConnectionManager.user_id ctx) as [u|];
         [destruct (_ && _)|]|];
        cbn [ConnectionManager.by_writer ConnectionManager.set_by_user];
        intros H; apply elem_of_difference in H as [_ H]; apply H;
        now apply elem_of_singleton.
    + intros u h' Hne Hu.
      destruct (ConnectionManager.contexts r !! h) as [ctx|]; [|exact Hu].
      destruct (ConnectionManager.user_id ctx) as [u0|]; [|exact Hu].
      destruct (negb (String.eqb u0 "") && bool_decide _) eqn:E; [|exact Hu].
      cbn [ConnectionManager.by_user ConnectionManager.set_by_user].
      apply andb_true_iff in E as [_ E]. apply bool_decide_eq_true in E.
      rewrite lookup_delete_ne; [exact Hu|]. intros ->. congruence.
    + intros ctx u _ Hctx Huser Hne Hu. rewrite Hctx, Huser.
      apply String.eqb_neq in Hne. rewrite Hne. cbn [negb andb].
      rewrite bool_decide_eq_true_2 by exact Hu.
      cbn [ConnectionManager.by_user ConnectionManager.set_by_user].
      apply lookup_delete_eq.
  - apply bool_decide_eq_false in Hreg. split; [exact Hreg|]. split.
    + intros u h' _ Hu. exact Hu.
    + intros ctx u Hin. contradiction.
Qed.

Section Sessions.
Import SQLiteStore ConnectionManager AuthService Spec.

Lemma upsert_session_in (token name : string) (expires_in now : Z) (s : Store) :
  In (mkSession token name now (now + expires_in))
     (sessions (upsert_session token name expires_in now s)).
Proof.
  unfold upsert_session.
  destruct (existsb _ (sessions s)) eqn:E; unfold set_sessions; cbn [sessions].
  - apply existsb_exists in E as (x & Hin & Hx). apply in_map_iff.
    exists x. now rewrite Hx.
  - apply in_app_iff. right. now left.
Qed.

Lemma update_presence_frame (u st : string) (now : Z) (s : Store) :
  sessions (update_presence u st now s) = sessions s
  /\ users (update_presence u st now s) = users s.
Proof.
  unfold update_presence. destruct (existsb _ (presence s)); split; reflexivity.
Qed.

Lemma upsert_session_users (token name : string) (e now : Z) (s : Store) :
  users (upsert_session token name e now s) = users s.
Proof. unfold upsert_session. destruct (existsb _ (sessions s)); reflexivity. Qed.

Lemma online_after_update (u st : string) (now : Z) (s : Store) :
  In u (list_online_users (update_presence u st now s)) <-> st = "online".
Proof.
  rewrite online_spec. split.
  - intros (r & Hin & Hu & Hst). apply update_presence_rows in Hin as [->|[_ Hne]].
    + exact Hst.
    + contradiction.
  - intros ->. exists (mkPresence u "online" now).
    split; [|split; reflexivity]. apply update_presence_rows. now left.
Qed.

(** What a successful login returns. *)
Lemma handle_login_ok (h : nat) (name pw token eid : string) (now : Z) (w : World)
    (user : UserRow) :
  name <> "" -> pw <> "" ->
  get_user name (store w) = Some user ->
  u_password_hash user = pw ->
  handle_login h (Some name) (Some pw) token eid now w
  = (mkWorld (update_presence name "online" now
                (upsert_session token name 3600 now (store w)))
             (bind_user h (mark_authenticated h name token now (registry w))),
     Ok (login_response "auth/login_ack" 200 token name 3600 None None),
     mkScheduled [name]
       (broadcast_presence eid name "online" now
          (bind_user h (mark_authenticated h name token now (registry w))))).
Proof.
  intros Hn Hp Huser Hpw. apply String.eqb_neq in Hn, Hp. unfold handle_login.
  cbn [present default from_option id]. rewrite Hn, Hp, Huser, Hpw, String.eqb_refl.
  reflexivity.
Qed.

Lemma bind_after_mark (h : nat) (name token : string) (now : Z) (r : Registry)
    (ctx : ConnectionContext) :
  name <> "" ->
  contexts r !! h = Some ctx ->
  let r' := bind_user h (mark_authenticated h name token now r) in
  by_user r' = <[name := h]> (by_user r)
  /\ contexts r' = <[h := mkContext (peername ctx) (Some name) (Some token) now]>
                     (contexts r)
  /\ by_writer r' = by_writer r /\ wires r' = wires r.
Proof.
  intros Hn Hctx r'. subst r'. apply String.eqb_neq in Hn.
  unfold bind_user, mark_authenticated. rewrite Hctx. cbn [contexts].
  rewrite lookup_insert_eq. cbn [user_id]. rewrite Hn. cbn. auto.
Qed.

Lemma get_user_created (name pw : string) (now : Z) (s : Store) :
  user_exists name s = false ->
  get_user name (set_users (users s ++ [mkUser name pw now]) s)
  = Some (mkUser name pw now).
Proof.
  intros H. unfold get_user, set_users. cbn [users].
  rewrite find_app_none by (apply find_none_of_existsb; exact H).
  cbn [find u_username]. now rewrite String.eqb_refl.
Qed.

End Sessions.

(** X26. A login with the stored password logs the connection in: the
    answer is [auth/login_ack] with status 200 and the token, the session
    row is stored with an expiry of 3600 seconds, the context of the
    connection holds the user and the token, the user is bound to the
    connection and listed online, the user is handed to the offline
    dispatcher, and the users table is as before. *)
Theorem login_binds_and_records
    (h : nat) (name pw token eid : string) (now : Z) (w : World)
    (user : SQLiteStore.UserRow) (ctx : ConnectionManager.ConnectionContext) :
  name <> "" -> pw <> "" ->
  SQLiteStore.get_user name (store w) = Some user ->
  SQLiteStore.u_password_hash user = pw ->
  ConnectionManager.contexts (registry w) !! h = Some ctx ->
  let result := AuthService.handle_login h (Some name) (Some pw) token eid now w in
  let w' := fst (fst result) in
  snd (fst result)
  = Ok (mkResponse "auth/login_ack"
          [("status", JInt 200); ("token", JStr token); ("user_id", JStr name);
           ("expires_in", JInt 3600)])
  /\ In (SQLiteStore.mkSession token name now (now + 3600))
        (SQLiteStore.sessions (store w'))
  /\ ConnectionManager.contexts (registry w') !! h
     = Some (ConnectionManager.mkContext (ConnectionManager.peername ctx)
               (Some name) (Some token) now)
  /\ ConnectionManager.get_by_user name (registry w') = Some h
  /\ In name (SQLiteStore.list_online_users (store w'))
  /\ AuthService.drains (snd result) = [name]
  /\ SQLiteStore.users (store w') = SQLiteStore.users (store w).
Proof.
  intros Hn Hp Huser Hpw Hctx result w'. subst w' result.
  rewrite (handle_login_ok h name pw token eid now w user Hn Hp Huser Hpw).
  cbn [fst snd store registry AuthService.drains].
  destruct (bind_after_mark h name token now (registry w) ctx Hn Hctx)
    as (Hby & Hcontexts & _).
  destruct (update_presence_frame name "online" now
              (SQLiteStore.upsert_session token name 3600 now (store w)))
    as [Hsessions Husers].
  split; [reflexivity|]. split; [rewrite Hsessions; apply upsert_session_in|].
  split; [rewrite Hcontexts; apply lookup_insert_eq|].
  split; [unfold ConnectionManager.get_by_user; rewrite Hby; apply lookup_insert_eq|].
  split; [now apply online_after_update|]. split; [reflexivity|].
  rewrite Husers. apply upsert_session_users.
Qed.

(** Alice logs in on connection 1. *)
Lemma login_binds_and_records_witness :
  ConnectionManager.get_by_user "alice"
    (registry (fst (fst (AuthService.handle_login 1 (Some "alice") (Some "h") "t1" "e1" 5
                           Spec.alice_registered))))
  = Some 1%nat.
Proof.
  destruct (login_binds_and_records 1 "alice" "h" "t1" "e1" 5 Spec.alice_registered
              (SQLiteStore.mkUser "alice" "h" 1)
              (ConnectionManager.mkContext "peer" None None 0)
              ltac:(discriminate) ltac:(discriminate) eq_refl eq_refl eq_refl)
    as (_ & _ & _ & H & _).
  exact H.
Defined.

(** X27. A login that is not answered with status 200 changes nothing:
    whatever the request holds, when [handle_login] raises or answers with
    another status, the world is as before and nothing is scheduled. *)
Theorem failed_login_changes_nothing
    (h : nat) (username password : option string) (token eid : string) (now : Z)
    (w : World) :
  let result := AuthService.handle_login h username password token eid now w in
  resp_status_of (snd (fst result)) <> Some (JInt 200) ->
  fst (fst result) = w /\ snd result = AuthService.nothing_scheduled.
Proof.
  intros result. subst result. unfold AuthService.handle_login.
  destruct (negb (present username) || negb (present password)); [auto|].
  cbv zeta. destruct (SQLiteStore.get_user _ (store w)) as [user|]; [|auto].
  destruct (negb (String.eqb _ _)); [auto|].
  cbn. intros H. now contradiction H.
Qed.

(** Alice logs in with a wrong password. *)
Lemma failed_login_changes_nothing_witness :
  fst (fst (AuthService.handle_login 1 (Some "alice") (Some "x") "t1" "e1" 5
              Spec.alice_registered))
  = Spec.alice_registered.
Proof.
  apply (failed_login_changes_nothing 1 (Some "alice") (Some "x") "t1" "e1" 5
           Spec.alice_registered).
  discriminate.
Defined.

(** X28. Logging out undoes logging in. After a login with the stored
    password on a connection, [auth/logout] on that connection is answered
    with status 200, deletes the session of the token, unbinds the user,
    takes the user off the online list and clears the user and the token
    of the context. *)
Theorem logout_undoes_login
    (h : nat) (name pw token eid eid' : string) (msg_id : json) (now now' : Z)
    (w : World) (user : SQLiteStore.UserRow) (ctx : ConnectionManager.ConnectionContext) :
  name <> "" -> pw <> "" -> token <> "" ->
  SQLiteStore.get_user name (store w) = Some user ->
  SQLiteStore.u_password_hash user = pw ->
  ConnectionManager.contexts (registry w) !! h = Some ctx ->
  let w1 := fst (fst (AuthService.handle_login h (Some name) (Some pw) token eid now w)) in
  let result := AuthService.handle_logout h (Some msg_id) eid' now' w1 in
  let w2 := fst (fst result) in
  snd (fst result) = Ok (mkResponse "auth/logout" [("status", JInt 200)])
  /\ Spec.has_session token (store w2) = false
  /\ ConnectionManager.get_by_user name (registry w2) = None
  /\ ~ In name (SQLiteStore.list_online_users (store w2))
  /\ ConnectionManager.contexts (registry w2) !! h
     = Some (ConnectionManager.mkContext (ConnectionManager.peername ctx) None None now).
Proof.
  intros Hn Hp Ht Huser Hpw Hctx w1 result w2. subst w2 result w1.
  rewrite (handle_login_ok h name pw token eid now w user Hn Hp Huser Hpw).
  cbn [fst snd].
  destruct (bind_after_mark h name token now (registry w) ctx Hn Hctx)
    as (Hby & Hcontexts & _).
  set (r1 := ConnectionManager.bind_user h _) in *.
  unfold AuthService.handle_logout. cbn [registry store].
  rewrite Hcontexts, lookup_insert_eq.
  cbn [ConnectionManager.session_token ConnectionManager.user_id
       ConnectionManager.peername ConnectionManager.last_seen present default
       from_option id].
  apply String.eqb_neq in Hn, Ht. rewrite Hn, Ht. cbn [negb fst snd store registry].
  split; [reflexivity|].
  assert (Hunbind : ConnectionManager.by_user (ConnectionManager.unbind_user h r1) !! name
                    = None).
  { unfold ConnectionManager.unbind_user. rewrite Hcontexts, lookup_insert_eq.
    cbn [ConnectionManager.user_id]. rewrite Hn. cbn [negb andb].
    rewrite bool_decide_eq_true_2 by (rewrite Hby; apply lookup_insert_eq).
    cbn [ConnectionManager.by_user ConnectionManager.set_by_user].
    apply lookup_delete_eq. }
  split; [|split; [exact Hunbind|split]].
  - unfold Spec.has_session.
    rewrite (proj1 (update_presence_frame name "offline" now' _)).
    unfold SQLiteStore.delete_session, SQLiteStore.set_sessions.
    cbn [SQLiteStore.sessions].
    apply (existsb_filter_out (fun r => String.eqb (SQLiteStore.s_token r) token)).
  - intros Hin. apply online_after_update in Hin. discriminate.
  - cbn [ConnectionManager.contexts]. apply lookup_insert_eq.
Qed.

(** Alice logs in on connection 1 and logs out. *)
Lemma logout_undoes_login_witness :
  ConnectionManager.get_by_user "alice"
    (registry
       (fst (fst (AuthService.handle_logout 1 (Some (JStr "2")) "e2" 6
                    (fst (fst (AuthService.handle_login 1 (Some "alice") (Some "h")
                                 "t1" "e1" 5 Spec.alice_registered)))))))
  = None.
Proof.
  destruct (logout_undoes_login 1 "alice" "h" "t1" "e1" "e2" (JStr "2") 5 6
              Spec.alice_registered (SQLiteStore.mkUser "alice" "h" 1)
              (ConnectionManager.mkContext "peer" None None 0)
              ltac:(discriminate) ltac:(discriminate) ltac:(discriminate)
              eq_refl eq_refl eq_refl) as (_ & _ & H & _).
  exact H.
Defined.

(** X29. A registered user can log in with the password given at
    registration, and with no other: after [auth/register] of a free name
    with password [p], a login with [p] is answered with status 200 and
    binds the connection, and a login with another password is answered
    with status 401 and error code INVALID_TOKEN (1001). *)
Theorem register_then_login
    (h : nat) (name p q token eid : string) (now now' : Z) (w : World)
    (ctx : ConnectionManager.ConnectionContext) :
  name <> "" -> p <> "" -> q <> "" -> q <> p ->
  SQLiteStore.user_exists name (store w) = false ->
  ConnectionManager.contexts (registry w) !! h = Some ctx ->
  let w1 := fst (AuthService.handle_register (Some name) (Some p) now w) in
  resp_status_of
    (snd (fst (AuthService.handle_login h (Some name) (Some p) token eid now' w1)))
  = Some (JInt 200)
  /\ ConnectionManager.get_by_user name
       (registry (fst (fst (AuthService.handle_login h (Some name) (Some p) token eid
                              now' w1))))
     = Some h
  /\ AuthService.handle_login h (Some name) (Some q) token eid now' w1
     = (w1, Ok AuthService.invalid_credentials, AuthService.nothing_scheduled).
Proof.
  intros Hn Hp Hq Hqp Hfree Hctx w1.
  assert (Hw1 : w1 = set_store (SQLiteStore.set_users
                                  (SQLiteStore.users (store w)
                                   ++ [SQLiteStore.mkUser name p now]) (store w)) w).
  { unfold w1, AuthService.handle_register, SQLiteStore.create_user.
    apply String.eqb_neq in Hn, Hp. cbn [present default from_option id].
    now rewrite Hn, Hp, Hfree. }
  assert (Huser : SQLiteStore.get_user name (store w1)
                  = Some (SQLiteStore.mkUser name p now)).
  { rewrite Hw1. cbn [store set_store]. now apply get_user_created. }
  assert (Hctx1 : ConnectionManager.contexts (registry w1) !! h = Some ctx)
    by now rewrite Hw1.
  split; [|split].
  - now rewrite (handle_login_ok h name p token eid now' w1 _ Hn Hp Huser eq_refl).
  - rewrite (handle_login_ok h name p token eid now' w1 _ Hn Hp Huser eq_refl).
    cbn [fst registry]. unfold ConnectionManager.get_by_user.
    rewrite (proj1 (bind_after_mark h name token now' (registry w1) ctx Hn Hctx1)).
    apply lookup_insert_eq.
  - unfold AuthService.handle_login. apply String.eqb_neq in Hn, Hq.
    cbn [present default from_option id]. rewrite Hn, Hq, Huser.
    cbn [negb orb SQLiteStore.u_password_hash].
    assert (String.eqb p q = false) as -> by (apply String.eqb_neq; congruence).
    reflexivity.
Qed.

(** Bob registers on a server with one open connection and logs in. *)
Lemma register_then_login_witness :
  resp_status_of
    (snd (fst (AuthService.handle_login 1 (Some "bob") (Some "pw") "t1" "e1" 6
                 (fst (AuthService.handle_register (Some "bob") (Some "pw") 5
                         Spec.one_connection)))))
  = Some (JInt 200).
Proof.
  exact (proj1 (register_then_login 1 "bob" "pw" "other" "t1" "e1" 5 6
                  Spec.one_connection (ConnectionManager.mkContext "peer" None None 0)
                  ltac:(discriminate) ltac:(discriminate) ltac:(discriminate)
                  ltac:(discriminate) eq_refl eq_refl)).
Defined.

(** ** What a sender does not get *)

Section SenderQueue.
Import SQLiteStore ConnectionManager MessageService Spec.
Context {rt : Runtime}.

Lemma queued_set_registry (u : string) (r : Registry) (w : World) :
  queued u (set_registry r w) = queued u w.
Proof. reflexivity. Qed.

Lemma deliver_to_user_other_queue (sender : string) (member : option string)
    (event : json) (now : Z) (w : World) :
  member <> Some sender ->
  queued sender (fst (deliver_to_user member event now w)) = queued sender w.
Proof.
  intros Hne. unfold deliver_to_user. destruct member as [u|]; [|reflexivity].
  destruct (String.eqb u ""); [reflexivity|].
  destruct (send_to_user u event (registry w)) as [r delivered].
  destruct delivered; cbn [fst]; [reflexivity|].
  unfold queued, enqueue_offline_message, set_offline.
  cbn [store set_store set_registry offline_queue].
  rewrite List.filter_app. cbn [List.filter o_user_id].
  assert (String.eqb u sender = false) as -> by (apply String.eqb_neq; congruence).
  now rewrite app_nil_r.
Qed.

Lemma deliver_to_members_sender_queue (sender : string) (members : list string)
    (event : json) (now : Z) (w : World) :
  queued sender (deliver_to_members sender members event now w) = queued sender w.
Proof.
  revert w. induction members as [|m rest IH]; intros w; [reflexivity|].
  cbn [deliver_to_members]. destruct (String.eqb_spec m sender) as [->|Hne].
  - apply IH.
  - rewrite IH. apply deliver_to_user_other_queue. congruence.
Qed.

End SenderQueue.

(** X30. A message to a room is never queued for its sender: whatever a
    [message/send] that is not addressed to a user does (store the message,
    deliver to the room, raise), the offline queue of the sender is as
    before. *)
Theorem room_send_skips_sender {rt : Runtime}
    (sender : string) (req : MessageService.SendRequest) (now : Z) (mid : string)
    (w : World) :
  MessageService.sr_target_type req <> Some "user" ->
  Spec.queued sender (fst (MessageService.handle_send (Some sender) req now mid w))
  = Spec.queued sender w.
Proof.
  intros Htarget. unfold MessageService.handle_send.
  destruct (negb (present (MessageService.sr_conversation_id req))); [reflexivity|].
  cbv zeta. unfold SQLiteStore.insert_message.
  destruct (existsb _ (SQLiteStore.messages (store w))); [reflexivity|].
  destruct (MessageService.sr_id req); [|reflexivity].
  destruct (MessageService.sr_target_type req) as [ty|]; [|reflexivity].
  destruct (String.eqb_spec ty "user") as [->|_]; [congruence|].
  destruct (String.eqb ty "room"); [|reflexivity].
  unfold MessageService.deliver_to_room.
  destruct (MessageService.sr_target_id req) as [room|]; [|reflexivity].
  destruct (String.eqb room ""); [reflexivity|].
  destruct (negb (SQLiteStore.room_exists room _)); [reflexivity|].
  destruct (negb (existsb _ _)); [reflexivity|]. cbn [fst].
  now rewrite deliver_to_members_sender_queue.
Qed.

(** Alice sends to the room of the fan-out scenario. *)
Lemma room_send_skips_sender_witness :
  Spec.queued "alice"
    (fst (MessageService.handle_send (Some "alice") Spec.room_request 9 "m1"
            Spec.room_world))
  = [].
Proof.
  rewrite (room_send_skips_sender "alice" Spec.room_request 9 "m1" Spec.room_world).
  - reflexivity.
  - discriminate.
Defined.
